(** * MDRM explorer: the loader, the summary statistics and the detail lookup

    A shallow embedding of [create_mdrm_database.py] (the CSV normaliser
    [clean_csv_data], the loader [create_database], the aggregator
    [create_summary_stats] and [main]), of Queries 3, 4, 6 and 7 of
    [query_mdrm_database.py] and of the routes [search], [get_details]
    and [get_stats] of [mdrm_web_explorer.py], followed by the properties
    of the specification that concern them and by further properties of
    the same code.

    pandas, sqlite3 and Flask are libraries, not code of this repository.
    What the program relies on is modelled as follows:
    - the CSV reader, the date parser and the date formatters are the
      fields of the class [Pandas];
    - a data frame is the list of its columns in file order, each with its
      label, and several columns can carry one label: [df[col]] is then a
      frame, on which [pd.to_datetime] and [.str] raise, an assignment to
      [df[col]] reaches each of them, [rename] renames each of them,
      [df[cols]] selects them all, and an [INSERT] that names a column
      several times keeps the first value; a scalar is missing, a text or
      an integer;
    - the inserts of a load are one transaction, which an exception
      undoes; each of them reads [CURRENT_TIMESTAMP]; an integer outside
      64 bits cannot be bound;
    - [astype(str)] turns a missing value into the text ["nan"], as pandas
      does on object columns;
    - SQL predicates are three-valued: a comparison with NULL is unknown and
      a WHERE clause keeps the rows whose predicate is true;
    - a table is the list of its rows in the order of their keys, the
      summary table a finite map from its primary key;
    - text is a string of code points below 256;
    - [int] of Python and the order in which [ORDER BY] gives rows with
      equal keys are the fields of the class [Runtime]; a [GROUP BY]
      without [ORDER BY] gives its lines in an order that no property
      relies on;
    - [LIKE] is SQLite's own: [%] and [_] are wildcards, the letters A to Z
      match without their case, a text ends at its first NUL, and a pattern
      of more than 50000 bytes is an error;
    - an exception that a route does not catch is the status 500;
    - what the program prints is left out. *)

From Stdlib Require Import String Ascii ZArith List Bool Lia.
From Stdlib Require Import Decimal DecimalString DecimalNat.
From stdpp Require Import gmap strings list fin_maps sorting.

Local Open Scope string_scope.

(** ** Python's [str] methods used by the normaliser *)

Module PyStr.

(** [str.isspace] on one code point below 256. *)
Definition is_space (c : ascii) : bool :=
  let n := nat_of_ascii c in
  (((9 <=? n) && (n <=? 13)) || ((28 <=? n) && (n <=? 32))
   || (n =? 133) || (n =? 160))%nat.

(** [s.startswith(p)] *)
Fixpoint startswith (p s : string) : bool :=
  match p, s with
  | EmptyString, _ => true
  | String a p', String b s' => Ascii.eqb a b && startswith p' s'
  | String _ _, EmptyString => false
  end.

(** [s.replace(old, new)] for a non-empty [old]: the occurrences of [old]
    are found from the left and do not overlap. [skip] counts the
    characters of a match that are still to be passed over. *)
Fixpoint replace_from (old new : string) (skip : nat) (s : string) : string :=
  match s with
  | EmptyString => EmptyString
  | String c s' =>
      match skip with
      | S k => replace_from old new k s'
      | O =>
          if startswith old s
          then String.append new (replace_from old new (String.length old - 1) s')
          else String c (replace_from old new 0 s')
      end
  end.

Definition replace (old new s : string) : string := replace_from old new 0 s.

(** [s.lstrip(chars)] and [s.rstrip(chars)], the set of characters given
    as a predicate. *)
Fixpoint lstrip_with (p : ascii → bool) (s : string) : string :=
  match s with
  | EmptyString => EmptyString
  | String c s' => if p c then lstrip_with p s' else s
  end.

Fixpoint rstrip_with (p : ascii → bool) (s : string) : string :=
  match s with
  | EmptyString => EmptyString
  | String c s' =>
      match rstrip_with p s' with
      | EmptyString => if p c then EmptyString else String c EmptyString
      | r => String c r
      end
  end.

(** [s.strip()] *)
Definition strip (s : string) : string :=
  rstrip_with is_space (lstrip_with is_space s).

(** [str(n)] for an integer. *)
Definition str_of_Z (z : Z) : string := NilZero.string_of_int (Z.to_int z).

(** [str(n)] for a count. *)
Definition str_of_nat (n : nat) : string := NilZero.string_of_uint (Nat.to_uint n).

(** [int(s)] on the text of a count. *)
Definition int_of_str (s : string) : option nat :=
  Nat.of_uint <$> NilZero.uint_of_string s.

(** [needle in s] *)
Fixpoint contains (needle s : string) : bool :=
  startswith needle s ||
  match s with
  | EmptyString => false
  | String _ s' => contains needle s'
  end.

End PyStr.

(** ** Exceptions and results *)

Inductive exn :=
  | UnicodeDecodeError
  | ReadError                     (* any other error of [pd.read_csv] *)
  | KeyError (labels : list string)
  | AttributeError
  | TypeError
  | ValueError
  | OverflowError
  | OperationalError
  | IntegrityError.

Inductive result (A : Type) :=
  | Ok (a : A)
  | Raise (e : exn).
Arguments Ok {A} a.
Arguments Raise {A} e.

#[export] Instance result_ret : MRet result := fun A a => Ok a.

#[export] Instance result_fmap : FMap result := fun A B f r =>
  match r with
  | Ok a => Ok (f a)
  | Raise e => Raise e
  end.

#[export] Instance result_bind : MBind result := fun A B k r =>
  match r with
  | Ok a => k a
  | Raise e => Raise e
  end.

Definition is_ok {A} (r : result A) : bool :=
  match r with Ok _ => true | Raise _ => false end.

(** ** Series and data frames *)

(** A scalar of an object column as [pd.read_csv] produces it: a missing
    value, a text or an integer. *)
Inductive value :=
  | NaN
  | Str (s : string)
  | Int (z : Z).

(** A column is an object series or a [datetime64] series, whose missing
    entries are [NaT]. *)
Inductive Series (T : Type) :=
  | Object (xs : list value)
  | Datetime64 (xs : list (option T)).
Arguments Object {T} xs.
Arguments Datetime64 {T} xs.

(** A frame: the number of its lines and its columns in file order, each
    with its label. Several columns can carry one label. *)
Record DataFrame (T : Type) := mkFrame {
  nrows : nat;
  columns : list (string * Series T)
}.
Arguments mkFrame {T} nrows columns.
Arguments nrows {T} d.
Arguments columns {T} d.

(** What [df[col]] is: a series, or a frame. *)
Inductive Selection (T : Type) :=
  | OneColumn (s : Series T)
  | SeveralColumns (ss : list (Series T)).
Arguments OneColumn {T} s.
Arguments SeveralColumns {T} ss.

Inductive encoding := UTF8 | Latin1.

(** What the program takes from pandas:
    - [read_csv bytes e] is [pd.read_csv('MDRM_CSV.csv', skiprows=1, encoding=e)]
      on a file holding [bytes];
    - [parse_datetime xs v] is the timestamp [pd.to_datetime] reads from the
      scalar [v], which is not missing, of the column [xs] (whose other
      entries may decide the format), [None] where it cannot;
    - [format_datetimes] renders a [datetime64] series as [astype(str)] does;
    - [isoformat] is the text under which a timestamp reaches SQLite. *)
Class Pandas := {
  Timestamp : Type;
  read_csv : list Byte.byte → encoding → result (DataFrame Timestamp);
  parse_datetime : list value → value → option Timestamp;
  format_datetimes : list (option Timestamp) → list string;
  isoformat : Timestamp → string
}.

(** ** The persistent store *)

(** A row of [mdrm_data]. The columns hold a text or NULL. *)
Record Row := mkRow {
  id : nat;
  mdrm_identifier : option string;
  mnemonic : option string;
  item_code : option string;
  start_date : option string;
  end_date : option string;
  item_name : option string;
  confidentiality : option string;
  item_type : option string;
  reporting_form : option string;
  description : option string;
  series_glossary : option string;
  created_at : string
}.

(** A row of [mdrm_summary] without its key [statistic_name]. *)
Record Stat := mkStat {
  statistic_value : string;
  stat_created_at : string
}.

(** A database file: each table is absent or holds its rows. The summary
    table is keyed by its primary key. *)
Record Database := mkDb {
  mdrm_data : option (list Row);
  mdrm_summary : option (gmap string Stat)
}.

(** The file [mdrm_database.db], which may not exist. *)
Definition Store := option Database.

(** [CURRENT_TIMESTAMP] and [date('now')] during a run. Each [INSERT] of a
    line reads the clock: [insert_timestamp i] is the time at which line
    [i] of the frame is inserted, [current_timestamp] the time at which
    the summary is written. *)
Record Clock := mkClock {
  current_timestamp : string;
  current_date : string;
  insert_timestamp : nat → string
}.

Definition empty_db : Database := mkDb None None.

(** [sqlite3.connect] opens the file and creates it when it is missing. *)
Definition connect (st : Store) : Database := from_option (fun d => d) empty_db st.

(** ** SQL predicates *)

Module Sql.

(** [x = 'lit'] *)
Definition eq (x : option string) (lit : string) : option bool :=
  (fun s => String.eqb s lit) <$> x.

(** [x > y] on texts, by the order of their bytes. *)
Definition gt (x : option string) (y : string) : option bool :=
  (fun s => String.ltb y s) <$> x.

(** [x <= y] *)
Definition le (x : option string) (y : string) : option bool :=
  (fun s => String.leb s y) <$> x.

(** [x IS NOT NULL AND x != ''] *)
Definition not_blank (x : option string) : option bool :=
  match x with
  | None => Some false
  | Some s => Some (negb (String.eqb s ""))
  end.

(** A WHERE clause, and a WHEN of a CASE, hold when the predicate is true. *)
Definition holds (p : option bool) : bool := from_option (fun b => b) false p.

(** [SELECT COUNT( * ) FROM mdrm_data WHERE p] *)
Definition count_where (p : Row → option bool) (rows : list Row) : nat :=
  length (List.filter (fun r => holds (p r)) rows).

(** [SELECT COUNT(DISTINCT col) FROM mdrm_data WHERE p] *)
Definition count_distinct (col : Row → option string) (p : Row → option bool)
    (rows : list Row) : nat :=
  length (remove_dups (omap col (List.filter (fun r => holds (p r)) rows))).

(** [SELECT col, COUNT( * ) FROM mdrm_data WHERE p GROUP BY col] *)
Definition group_count (col : Row → option string) (p : Row → option bool)
    (rows : list Row) : list (string * nat) :=
  let kept := List.filter (fun r => holds (p r)) rows in
  (fun k => (k, count_where (fun r => eq (col r) k) kept)) <$> remove_dups (omap col kept).

End Sql.

(** ** Pieces of [SELECT] statements *)

Module Select.

(** The order of a column: NULL comes before every text, texts are
    compared by their code points. *)
Definition le_null (x y : option string) : bool :=
  match x, y with
  | None, _ => true
  | Some _, None => false
  | Some a, Some b => String.leb a b
  end.

(** [ORDER BY k1, k2, ...]: the first key that differs decides. *)
Fixpoint le_keys (xs ys : list (option string)) : bool :=
  match xs, ys with
  | x :: xs', y :: ys' => if decide (x = y) then le_keys xs' ys' else le_null x y
  | _, _ => true
  end.

(** [LIMIT n]: a negative [n] is no limit. *)
Definition limit {A} (n : Z) (l : list A) : list A :=
  if (n <? 0)%Z then l else take (Z.to_nat n) l.

(** [SELECT col, COUNT( * ) FROM mdrm_data GROUP BY col]: one line for each
    value of the column, NULL being a value of its own. *)
Definition group_by (col : Row → option string) (rows : list Row)
    : list (option string * nat) :=
  (fun k => (k, length (List.filter (fun r => bool_decide (col r = k)) rows)))
  <$> remove_dups (col <$> rows).

(** [SELECT label, COUNT( * ) FROM mdrm_data GROUP BY label] for a [CASE]
    expression [label], which is never NULL. *)
Definition group_by_case (label : Row → string) (rows : list Row) : list (string * nat) :=
  (fun s => (s, length (List.filter (fun r => String.eqb (label r) s) rows)))
  <$> remove_dups (label <$> rows).

(** [ORDER BY count DESC] *)
Definition by_count_desc {K} (a b : K * nat) : bool := (b.2 <=? a.2)%nat.

(** An integer that SQLite can hold; the binding of another one raises
    [OverflowError]. *)
Definition int64 (n : Z) : bool := ((- 2 ^ 63 <=? n) && (n <? 2 ^ 63))%Z.

End Select.

(** ** The Field Normaliser: [clean_csv_data] *)

Section Normaliser.
Context `{Pandas}.

Definition date_columns : list string := ["Start Date"; "End Date"].
Definition text_columns : list string := ["Description"; "SeriesGlossary"; "Item Name"].

Definition carriage_return_entity : string := "&#x0D;".
Definition newline : string := String (ascii_of_nat 10) EmptyString.
Definition ampersand_entity : string := "&amp;".

(** [df.columns] *)
Definition labels (df : DataFrame Timestamp) : list string := (columns df).*1.

(** [col in df.columns] *)
Definition has_column (df : DataFrame Timestamp) (col : string) : bool :=
  bool_decide (col ∈ labels df).

(** The series of the columns that carry the label [col], in file order. *)
Definition select (df : DataFrame Timestamp) (col : string) : list (Series Timestamp) :=
  (List.filter (fun c : string * Series Timestamp => String.eqb c.1 col) (columns df)).*2.

(** [df[col]]: a series when one column carries the label, a frame when
    several do. *)
Definition getitem (df : DataFrame Timestamp) (col : string)
    : result (Selection Timestamp) :=
  match select df col with
  | [] => Raise (KeyError [col])
  | [s] => Ok (OneColumn s)
  | ss => Ok (SeveralColumns ss)
  end.

(** [df[col] = s] for a series [s]: every column that carries the label
    takes the values of [s], and a label that the frame does not have
    becomes its last column. *)
Definition setitem (df : DataFrame Timestamp) (col : string) (s : Series Timestamp)
    : DataFrame Timestamp :=
  mkFrame (nrows df)
    (if has_column df col
     then (fun c : string * Series Timestamp =>
             if String.eqb c.1 col then (c.1, s) else c) <$> columns df
     else (columns df ++ [(col, s)])%list).

(** [df.columns.str.strip().str.rstrip(',')] on one label. *)
Definition clean_label (l : string) : string :=
  PyStr.rstrip_with (fun c => Ascii.eqb c ",") (PyStr.strip l).

(** [df.columns = df.columns.str.strip().str.rstrip(',')]: the columns
    keep their place, and two labels can become one. *)
Definition clean_columns (df : DataFrame Timestamp) : DataFrame Timestamp :=
  mkFrame (nrows df)
    ((fun c : string * Series Timestamp => (clean_label c.1, c.2)) <$> columns df).

(** [pd.to_datetime] with [errors='coerce'] on a scalar: one that cannot
    be read, or is missing, becomes [NaT]. *)
Definition to_datetime_scalar (xs : list value) (v : value) : option Timestamp :=
  match v with
  | NaN => None
  | _ => parse_datetime xs v
  end.

(** [pd.to_datetime(s, errors='coerce')] on a series. *)
Definition to_datetime (s : Series Timestamp) : Series Timestamp :=
  match s with
  | Object xs => Datetime64 (to_datetime_scalar xs <$> xs)
  | Datetime64 xs => Datetime64 xs
  end.

(** [pd.to_datetime(df[col], errors='coerce')]: a frame whose columns
    carry one label cannot be assembled into dates. *)
Definition pd_to_datetime (x : Selection Timestamp) : result (Series Timestamp) :=
  match x with
  | OneColumn s => Ok (to_datetime s)
  | SeveralColumns _ => Raise ValueError
  end.

(** [str(v)] on a scalar of an object series. *)
Definition str_of_value (v : value) : string :=
  match v with
  | NaN => "nan"
  | Str s => s
  | Int z => PyStr.str_of_Z z
  end.

(** [s.astype(str)] on a series. *)
Definition astype_str (s : Series Timestamp) : Series Timestamp :=
  match s with
  | Object xs => Object ((fun v => Str (str_of_value v)) <$> xs)
  | Datetime64 xs => Object (Str <$> format_datetimes xs)
  end.

(** [df[col].astype(str)] *)
Definition astype (x : Selection Timestamp) : Selection Timestamp :=
  match x with
  | OneColumn s => OneColumn (astype_str s)
  | SeveralColumns ss => SeveralColumns (astype_str <$> ss)
  end.

(** [s.str.f(...)] on a series: the accessor exists on object series
    only, and gives a missing value on an entry that is not a text. *)
Definition str_map (f : string → string) (s : Series Timestamp) : result (Series Timestamp) :=
  match s with
  | Object xs =>
      Ok (Object ((fun v => match v with Str t => Str (f t) | _ => NaN end) <$> xs))
  | Datetime64 _ => Raise AttributeError
  end.

(** [x.str.f(...)]: a frame has no accessor [str]. *)
Definition str_accessor (f : string → string) (x : Selection Timestamp)
    : result (Series Timestamp) :=
  match x with
  | OneColumn s => str_map f s
  | SeveralColumns _ => Raise AttributeError
  end.

(** [a + b] on two scalars of object series. *)
Definition add_value (a b : value) : result value :=
  match a, b with
  | NaN, _ | _, NaN => Ok NaN
  | Str x, Str y => Ok (Str (String.append x y))
  | Int x, Int y => Ok (Int (x + y))
  | _, _ => Raise TypeError
  end.

(** [a + b] on two series of one frame. *)
Definition add_series (a b : Series Timestamp) : result (Series Timestamp) :=
  match a, b with
  | Object xs, Object ys => Object <$> mapM (fun p => add_value p.1 p.2) (zip xs ys)
  | _, _ => Raise TypeError
  end.

(** The value of [a + b] that [df[col] = a + b] can assign. When one side
    is a frame, either the sum cannot be aligned or it is a frame of
    several columns, which one column cannot take: a [ValueError]. *)
Definition add (a b : Selection Timestamp) : result (Series Timestamp) :=
  match a, b with
  | OneColumn x, OneColumn y => add_series x y
  | _, _ => Raise ValueError
  end.

(** The body of the loop over [date_columns]. *)
Definition convert_date (df : DataFrame Timestamp) (col : string)
    : result (DataFrame Timestamp) :=
  if has_column df col then
    x ← getitem df col;
    s ← pd_to_datetime x;
    Ok (setitem df col s)
  else Ok df.

(** The body of the loop over [text_columns]. *)
Definition clean_text (df : DataFrame Timestamp) (col : string) : result (DataFrame Timestamp) :=
  if has_column df col then
    x ← getitem df col;
    s1 ← str_accessor (PyStr.replace carriage_return_entity newline) (astype x);
    let df1 := setitem df col s1 in
    x ← getitem df1 col;
    s2 ← str_accessor (PyStr.replace ampersand_entity "&") x;
    let df2 := setitem df1 col s2 in
    x ← getitem df2 col;
    s3 ← str_accessor PyStr.strip x;
    Ok (setitem df2 col s3)
  else Ok df.

(** The synthesis of [MDRM_Identifier]. *)
Definition add_identifier (df : DataFrame Timestamp) : result (DataFrame Timestamp) :=
  if has_column df "Mnemonic" && has_column df "Item Code" then
    m ← getitem df "Mnemonic";
    c ← getitem df "Item Code";
    s ← add (astype m) (astype c);
    Ok (setitem df "MDRM_Identifier" s)
  else Ok df.

(** [clean_csv_data] after the file is read. *)
Definition normalise (df : DataFrame Timestamp) : result (DataFrame Timestamp) :=
  let df := clean_columns df in
  df ← foldl (fun r col => df ← r; convert_date df col) (Ok df) date_columns;
  df ← foldl (fun r col => df ← r; clean_text df col) (Ok df) text_columns;
  add_identifier df.

(** The read of [clean_csv_data], with the encodings it tried, in order. *)
Definition read_source (bytes : list Byte.byte) : list encoding * result (DataFrame Timestamp) :=
  match read_csv bytes UTF8 with
  | Raise UnicodeDecodeError => ([UTF8; Latin1], read_csv bytes Latin1)
  | r => ([UTF8], r)
  end.

Definition clean_csv_data (bytes : list Byte.byte) : list encoding * result (DataFrame Timestamp) :=
  let (tried, r) := read_source bytes in
  (tried, df ← r; normalise df).

End Normaliser.

(** ** The Catalog Loader and the Summary Aggregator *)

Section Loader.
Context `{Pandas}.

Definition columns_mapping : list (string * string) :=
  [ ("MDRM_Identifier", "mdrm_identifier");
    ("Mnemonic", "mnemonic");
    ("Item Code", "item_code");
    ("Start Date", "start_date");
    ("End Date", "end_date");
    ("Item Name", "item_name");
    ("Confidentiality", "confidentiality");
    ("ItemType", "item_type");
    ("Reporting Form", "reporting_form");
    ("Description", "description");
    ("SeriesGlossary", "series_glossary") ].

Definition insert_columns : list string := columns_mapping.*2.

(** [df.rename(columns={old: new})]: every column that carries [old] now
    carries [new], in its place; a column that carried [new] already
    keeps it. *)
Definition rename (df : DataFrame Timestamp) (old new : string) : DataFrame Timestamp :=
  mkFrame (nrows df)
    ((fun c : string * Series Timestamp =>
        if String.eqb c.1 old then (new, c.2) else c) <$> columns df).

Definition rename_columns (df : DataFrame Timestamp) : DataFrame Timestamp :=
  foldl (fun d '(old_col, new_col) =>
           if has_column d old_col then rename d old_col new_col else d)
        df columns_mapping.

(** [df[cols]]: every label must be a column of the frame; the result has
    the columns that carry the first label, then those that carry the
    second, and so on. *)
Definition select_columns (df : DataFrame Timestamp) (cols : list string)
    : result (DataFrame Timestamp) :=
  match List.filter (fun c => negb (has_column df c)) cols with
  | [] =>
      Ok (mkFrame (nrows df)
            (cols ≫= fun col =>
               List.filter (fun c : string * Series Timestamp => String.eqb c.1 col)
                           (columns df)))
  | missing => Raise (KeyError missing)
  end.

(** The SQL value that is bound for entry [i] of a series: a missing value
    is NULL, a timestamp is its ISO text, and the TEXT affinity of the
    column stores an integer as its text; an integer that does not fit
    64 bits cannot be bound. The two DATE columns receive [datetime64]
    series after the normaliser; the conversion of numeric-looking texts
    under their NUMERIC affinity is left out. *)
Definition sql_cell (s : Series Timestamp) (i : nat) : result (option string) :=
  match s with
  | Object xs =>
      match xs !! i with
      | Some (Str t) => Ok (Some t)
      | Some (Int z) =>
          if Select.int64 z then Ok (Some (PyStr.str_of_Z z)) else Raise OverflowError
      | _ => Ok None
      end
  | Datetime64 xs =>
      match xs !! i with
      | Some (Some t) => Ok (Some (isoformat t))
      | _ => Ok None
      end
  end.

(** The parameters of the [INSERT] of line [i]: one value for each column
    of the frame, under the label of the column. *)
Definition parameters (df : DataFrame Timestamp) (i : nat)
    : result (list (string * option string)) :=
  mapM (fun c : string * Series Timestamp => v ← sql_cell c.2 i; Ok (c.1, v)) (columns df).

(** The value a row takes for the column [col]: when the statement names
    a column several times, SQLite keeps the first value; a column that
    is not named is NULL. *)
Definition given (ps : list (string * option string)) (col : string) : option string :=
  match List.find (fun p : string * option string => String.eqb p.1 col) ps with
  | Some p => p.2
  | None => None
  end.

(** The row that an [INSERT] with the parameters [ps] makes: [id] and
    [created_at] take their defaults. *)
Definition to_row (ps : list (string * option string)) (now : string) (key : nat) : Row :=
  mkRow key
        (given ps "mdrm_identifier") (given ps "mnemonic")
        (given ps "item_code") (given ps "start_date")
        (given ps "end_date") (given ps "item_name")
        (given ps "confidentiality") (given ps "item_type")
        (given ps "reporting_form") (given ps "description")
        (given ps "series_glossary") now.

(** [df.to_sql('mdrm_data', conn, if_exists='append', index=False)] on
    the existing table: one [INSERT] for each line, in one transaction.
    Each [INSERT] reads the clock for its [created_at]; an exception
    undoes them all. *)
Definition to_sql (df : DataFrame Timestamp) (clk : Clock) (rows : list Row)
    : result (list Row) :=
  new ← mapM (fun i => ps ← parameters df i;
                       Ok (to_row ps (insert_timestamp clk i) (S (length rows + i))))
             (seq 0 (nrows df));
  Ok (rows ++ new)%list.

(** [CREATE TABLE mdrm_data], followed by the indexes, which hold no data
    of their own. *)
Definition create_table_mdrm_data (db : Database) : result Database :=
  match mdrm_data db with
  | Some _ => Raise OperationalError
  | None => Ok (mkDb (Some []) (mdrm_summary db))
  end.

(** The queries of [stats_queries], in order. *)
Definition stats_queries (today : string) : list (string * (list Row → nat)) :=
  [ ("total_records", fun rows => length rows);
    ("unique_mnemonics", Sql.count_distinct mnemonic (fun _ => Some true));
    ("unique_item_codes", Sql.count_distinct item_code (fun _ => Some true));
    ("unique_reporting_forms",
       Sql.count_distinct reporting_form (fun r => Sql.not_blank (reporting_form r)));
    ("confidential_items", Sql.count_where (fun r => Sql.eq (confidentiality r) "Y"));
    ("public_items", Sql.count_where (fun r => Sql.eq (confidentiality r) "N"));
    ("active_items", Sql.count_where (fun r => Sql.gt (end_date r) today));
    ("expired_items", Sql.count_where (fun r => Sql.le (end_date r) today)) ].

(** [INSERT INTO mdrm_summary (statistic_name, statistic_value) VALUES (?, ?)];
    [statistic_name] is the primary key. *)
Definition insert_stat (now name val : string) (t : gmap string Stat)
    : result (gmap string Stat) :=
  match t !! name with
  | Some _ => Raise IntegrityError
  | None => Ok (<[name := mkStat val now]> t)
  end.

Definition item_type_distribution (rows : list Row) : list (string * nat) :=
  Sql.group_count item_type (fun r => Sql.not_blank (item_type r)) rows.

(** The rows [create_summary_stats] inserts into the new table. *)
Definition summary_rows (clk : Clock) (rows : list Row) : result (gmap string Stat) :=
  t ← foldl (fun acc '(stat_name, query) =>
               t ← acc;
               insert_stat (current_timestamp clk) stat_name (PyStr.str_of_nat (query rows)) t)
            (Ok ∅) (stats_queries (current_date clk));
  foldl (fun acc '(ty, count) =>
           t ← acc;
           insert_stat (current_timestamp clk) (String.append "item_type_" ty)
                       (PyStr.str_of_nat count) t)
        (Ok t) (item_type_distribution rows).

(** [create_summary_stats]: the table is created at once, its rows belong
    to the transaction that the caller commits, so an exception leaves
    the table empty. *)
Definition create_summary_stats (clk : Clock) (db : Database) : result () * Database :=
  match mdrm_summary db with
  | Some _ => (Raise OperationalError, db)
  | None =>
      let db0 := mkDb (mdrm_data db) (Some ∅) in
      match mdrm_data db with
      | None => (Raise OperationalError, db0)
      | Some rows =>
          match summary_rows clk rows with
          | Ok t => (Ok (), mkDb (mdrm_data db) (Some t))
          | Raise e => (Raise e, db0)
          end
      end
  end.

(** What [create_database] does once it holds a connection. The table is
    there as soon as it is created; an exception raised later leaves it
    empty. *)
Definition load (df : DataFrame Timestamp) (clk : Clock) (db : Database)
    : result string * Database :=
  match create_table_mdrm_data db with
  | Raise e => (Raise e, db)
  | Ok db1 =>
      let df_clean := rename_columns df in
      match select_columns df_clean insert_columns with
      | Raise e => (Raise e, db1)
      | Ok df_insert =>
          match to_sql df_insert clk (default [] (mdrm_data db1)) with
          | Raise e => (Raise e, db1)
          | Ok rows =>
              let db2 := mkDb (Some rows) (mdrm_summary db1) in
              match create_summary_stats clk db2 with
              | (Ok _, db3) => (Ok "mdrm_database.db", db3)
              | (Raise e, db3) => (Raise e, db3)
              end
          end
      end
  end.

(** [create_database]: the file is removed if it exists, then opened. *)
Definition create_database (df : DataFrame Timestamp) (clk : Clock) (st : Store)
    : result string * Store :=
  let st := if st is Some _ then None else st in
  let (r, db) := load df clk (connect st) in
  (r, Some db).

(** [main]: the exit status and the store it leaves; [csv] is the content
    of [MDRM_CSV.csv], if the file exists. *)
Definition main (csv : option (list Byte.byte)) (clk : Clock) (st : Store) : nat * Store :=
  match csv with
  | None => (1, st)
  | Some bytes =>
      match (clean_csv_data bytes).2 with
      | Raise _ => (1, st)
      | Ok df =>
          match create_database df clk st with
          | (Ok _, st') => (0, st')
          | (Raise _, st') => (1, st')
          end
      end
  end.

End Loader.

(** ** Query 6 of [query_mdrm_database.py] *)

(** [CASE WHEN end_date > date('now') THEN 'Active' ELSE 'Expired' END] *)
Definition status (today : string) (r : Row) : string :=
  if Sql.holds (Sql.gt (end_date r) today) then "Active" else "Expired".

(** The count of the group [s] in [SELECT status, COUNT( * ) ... GROUP BY status]. *)
Definition status_count (today s : string) (rows : list Row) : nat :=
  length (List.filter (fun r => String.eqb (status today r) s) rows).

(** ** The route [/api/details/<mdrm_id>] of [mdrm_web_explorer.py] *)

Inductive response :=
  | Json (status_code : nat) (record : Row)
  | JsonError (status_code : nat) (message : string)
  | InternalServerError.

(** [get_details]: the first row of the result, if there is one. *)
Definition get_details (mdrm_id : string) (st : Store) : response * Store :=
  let db := connect st in
  match mdrm_data db with
  | None => (InternalServerError, Some db)
  | Some rows =>
      match List.find (fun r => Sql.holds (Sql.eq (mdrm_identifier r) mdrm_id)) rows with
      | Some r => (Json 200 r, Some db)
      | None => (JsonError 404 "Item not found", Some db)
      end
  end.

(** ** What the query tool and the routes take from Python and SQLite *)

(** - [py_int s] is [int(s)] on a text, [None] where it raises [ValueError];
    - [order_by le l] is the order in which [ORDER BY] gives the lines [l]
      when [le] compares their keys: an arrangement of [l] that follows
      the keys. Which arrangement it is, among lines with equal keys, is
      left to SQLite. *)
Class Runtime := {
  py_int : string → option Z;
  order_by : ∀ A : Type, (A → A → bool) → list A → list A;
  order_by_Permutation : ∀ (A : Type) (le : A → A → bool) (l : list A),
    order_by A le l ≡ₚ l;
  order_by_Sorted : ∀ (A : Type) (le : A → A → bool) (l : list A),
    Total (fun x y => le x y) → Transitive (fun x y => le x y) →
    StronglySorted (fun x y => le x y) (order_by A le l)
}.
Arguments order_by {_ A} le l.

(** ** SQLite's [LIKE] *)

Module Like.

(** [LIKE] folds the letters A to Z and no other character. *)
Definition lower (c : ascii) : ascii :=
  let n := nat_of_ascii c in
  if ((65 <=? n) && (n <=? 90))%nat then ascii_of_nat (n + 32) else c.

Definition same (a b : ascii) : bool := Ascii.eqb (lower a) (lower b).

(** The matcher reads a text up to its first NUL. *)
Fixpoint c_string (s : string) : string :=
  match s with
  | EmptyString => EmptyString
  | String c s' => if Ascii.eqb c Ascii.zero then EmptyString else String c (c_string s')
  end.

(** [%] stands for any run of characters, [_] for any one character, and
    another character for itself, up to the case of a letter. *)
Fixpoint matches (p s : string) : bool :=
  match p with
  | EmptyString => match s with EmptyString => true | String _ _ => false end
  | String c p' =>
      if Ascii.eqb c "%"%char then
        (fix rest (s : string) : bool :=
           matches p' s
           || match s with EmptyString => false | String _ s' => rest s' end) s
      else
        match s with
        | EmptyString => false
        | String d s' => (Ascii.eqb c "_"%char || same c d) && matches p' s'
        end
  end.

(** The bytes of a text in UTF-8. *)
Fixpoint utf8_length (s : string) : N :=
  match s with
  | EmptyString => 0
  | String c s' => (if (N_of_ascii c <? 128)%N then 1 else 2) + utf8_length s'
  end.

(** A pattern of more than 50000 bytes is refused each time it is used. *)
Definition too_complex (p : string) : bool := (50000 <? utf8_length p)%N.

(** [x LIKE p] *)
Definition like (p : string) (x : option string) : option bool :=
  (fun s => matches (c_string p) (c_string s)) <$> x.

End Like.

(** ** Queries 3, 4, 6 and 7 of [query_mdrm_database.py] *)

(** [run_query] gives the lines of the answer, or [None] when the statement
    raises; what it prints is left out. *)

Section Queries.
Context `{Runtime}.

(** [SELECT mnemonic, COUNT( * ) as count FROM mdrm_data GROUP BY mnemonic
    ORDER BY count DESC LIMIT n] *)
Definition top_mnemonics (n : Z) (rows : list Row) : list (option string * nat) :=
  Select.limit n (order_by Select.by_count_desc (Select.group_by mnemonic rows)).

(** Query 3, whose [DISTINCT] bears on the lines of the answer. *)
Definition query3 (db : Database) : option (list (option string * nat)) :=
  (fun rows =>
     Select.limit 15 (order_by Select.by_count_desc
                        (remove_dups (Select.group_by mnemonic rows))))
  <$> mdrm_data db.

Definition type_description (ty : string) : string :=
  if String.eqb ty "F" then "Financial/reported"
  else if String.eqb ty "S" then "Structure"
  else if String.eqb ty "D" then "Derived"
  else if String.eqb ty "R" then "Rate"
  else if String.eqb ty "P" then "Percentage"
  else if String.eqb ty "E" then "Examination/supervision"
  else if String.eqb ty "J" then "Projected"
  else "Unknown".

(** Query 4: the item types with their description and their count. *)
Definition query4 (db : Database) : option (list (string * string * nat)) :=
  (fun rows =>
     order_by (fun a b : string * string * nat => (b.2 <=? a.2)%nat)
              ((fun g : string * nat => (g.1, type_description g.1, g.2))
               <$> item_type_distribution rows))
  <$> mdrm_data db.

(** Query 6, run on the day [today]. *)
Definition query6 (today : string) (db : Database) : option (list (string * nat)) :=
  Select.group_by_case (status today) <$> mdrm_data db.

(** [CASE WHEN confidentiality = 'Y' THEN 'Confidential'
          WHEN confidentiality = 'N' THEN 'Public' ELSE 'Unknown' END] *)
Definition confidentiality_status (r : Row) : string :=
  if Sql.holds (Sql.eq (confidentiality r) "Y") then "Confidential"
  else if Sql.holds (Sql.eq (confidentiality r) "N") then "Public"
  else "Unknown".

(** Query 7. *)
Definition query7 (db : Database) : option (list (string * nat)) :=
  Select.group_by_case confidentiality_status <$> mdrm_data db.

End Queries.

(** ** The routes [/api/search] and [/api/stats] of [mdrm_web_explorer.py] *)

(** What a route answers: a status code with a JSON body, or the status 500
    that Flask makes of an exception. *)
Inductive reply (A : Type) :=
  | Reply (status_code : nat) (body : A)
  | Failure.
Arguments Reply {A} status_code body.
Arguments Failure {A}.

(** One entry of the list that [search] answers with. *)
Record Hit := mkHit {
  hit_mdrm_identifier : option string;
  hit_mnemonic : option string;
  hit_item_code : option string;
  hit_item_name : option string;
  hit_item_type : option string;
  hit_confidentiality : option string;
  hit_start_date : option string;
  hit_end_date : option string
}.

Definition hit (r : Row) : Hit :=
  mkHit (mdrm_identifier r) (mnemonic r) (item_code r) (item_name r) (item_type r)
        (confidentiality r) (start_date r) (end_date r).

(** A value of the dictionary that [get_stats] answers with. *)
Inductive stats_value :=
  | Text (s : string)
  | Groups (lines : list (option string * nat)).

Section Routes.
Context `{Runtime}.

(** [conn.execute(sql, ...).fetchall()] for a statement on [mdrm_data] that
    ends in [LIMIT ?]; [None] stands for an exception: [OperationalError]
    without the table, [OverflowError] for a limit that does not fit
    SQLite's integers, and what the statement itself raises. *)
Definition execute (db : Database) (limit : Z) (select : list Row → option (list Row))
    : option (list Row) :=
  match mdrm_data db with
  | None => None
  | Some rows =>
      if Select.int64 limit then Select.limit limit <$> select rows
      else None
  end.

(** [SELECT ... FROM mdrm_data ORDER BY start_date DESC LIMIT ?] *)
Definition recent_items (rows : list Row) : option (list Row) :=
  Some (order_by (fun a b => Select.le_null (start_date b) (start_date a)) rows).

(** [SELECT ... FROM mdrm_data WHERE col LIKE ? ORDER BY keys LIMIT ?]. With
    a limit of 0 no row is read; otherwise the pattern is looked at for
    each row of the table, and one that is too complex is an
    [OperationalError]. *)
Definition like_items (col : Row → option string) (pattern : string)
    (keys : Row → list (option string)) (limit : Z) (rows : list Row)
    : option (list Row) :=
  if Like.too_complex pattern && negb (limit =? 0)%Z
     && negb (bool_decide (rows = []))
  then None
  else Some (order_by (fun a b => Select.le_keys (keys a) (keys b))
                    (List.filter (fun r => Sql.holds (Like.like pattern (col r))) rows)).

Definition search (args : gmap string string) (st : Store) : reply (list Hit) * Store :=
  let query := PyStr.strip (default "" (args !! "q")) in
  let search_type := default "item_name" (args !! "type") in
  match from_option py_int (Some 50%Z) (args !! "limit") with
  | None => (Failure, st)
  | Some limit =>
      let db := connect st in
      let pattern := String.append "%" (String.append query "%") in
      let results :=
        if String.eqb query "" then execute db limit recent_items
        else if String.eqb search_type "item_name" then
          execute db limit
                  (like_items item_name pattern (fun r => [item_name r]) limit)
        else if String.eqb search_type "mnemonic" then
          execute db limit
                  (like_items mnemonic pattern (fun r => [item_name r]) limit)
        else if String.eqb search_type "item_code" then
          execute db limit
                  (like_items item_code pattern (fun r => [mnemonic r; item_name r]) limit)
        else Some []
      in
      match results with
      | Some rs => (Reply 200 (hit <$> rs), Some db)
      | None => (Failure, Some db)
      end
  end.

Definition get_stats (st : Store) : reply (gmap string stats_value) * Store :=
  let db := connect st in
  match mdrm_summary db, mdrm_data db with
  | Some t, Some rows =>
      let stats := (fun s : Stat => Text (statistic_value s)) <$> t in
      (Reply 200 (<["top_mnemonics" := Groups (top_mnemonics 10 rows)]> stats), Some db)
  | _, _ => (Failure, Some db)
  end.

End Routes.

(** ** A small instance of the library, to run the model on *)

Module Demo.

(** Timestamps are dates [YYYY-MM-DD] at midnight, kept as their text;
    years from 2263 on are out of the range of [datetime64[ns]]. *)
Definition parse (_ : list value) (v : value) : option string :=
  match v with
  | Str s =>
      if (String.length s =? 10)%nat && String.ltb (substring 0 4 s) "2263"
      then Some s else None
  | _ => None
  end.

Definition sample : DataFrame string :=
  mkFrame 2
    [ ("Mnemonic", Object [Str "RCON"; Str "RCFD"]);
      ("Item Code", Object [Int 2170; Str "A123"]);
      ("Start Date", Object [Str "1959-12-31"; Str "2001-03-31"]);
      ("End Date ", Object [Str "9999-12-31"; Str "2010-06-30"]);
      ("Item Name", Object [Str "TOTAL ASSETS"; NaN]);
      ("Confidentiality", Object [Str "N"; Str "Y"]);
      ("ItemType", Object [Str "F"; Str "D"]);
      ("Reporting Form", Object [Str "FFIEC 031"; NaN]);
      ("Description", Object [Str " Loans &amp; leases&#x0D;net "; NaN]);
      ("SeriesGlossary,", Object [NaN; Str "R&amp;D"]) ].

(** The same file without its item-code column. *)
Definition incomplete : DataFrame string :=
  mkFrame 2 (List.filter (fun c : string * Series string => negb (String.eqb c.1 "Item Code"))
                         (columns sample)).

(** The same file with one more column, whose label is the one that the
    label of the end dates becomes when it is cleaned. *)
Definition two_end_dates : DataFrame string :=
  mkFrame 2 (columns sample ++ [("End Date", Object [NaN; Str "2011-01-01"])])%list.

(** The same file with a second description, labelled with a space more. *)
Definition two_descriptions : DataFrame string :=
  mkFrame 2 (columns sample ++ [("Description ", Object [Str "x"; Str "y"])])%list.


(** The same file with an item code that does not fit 64 bits. *)
Definition huge_item_code : DataFrame string :=
  mkFrame 2 (("Mnemonic", Object [Str "RCON"; Str "RCFD"])
             :: ("Item Code", Object [Int 2170; Int (2 ^ 63)])
             :: drop 2 (columns sample)).

(** A header that uses the names of the columns of the table, with one
    line that has no identifier. *)
Definition table_header : DataFrame string :=
  mkFrame 1
    [ ("mdrm_identifier", Object [NaN]);
      ("mnemonic", Object [Str "RCON"]);
      ("item_code", Object [Str "2170"]);
      ("start_date", Object [Str "1959-12-31"]);
      ("end_date", Object [NaN]);
      ("item_name", Object [NaN]);
      ("confidentiality", Object [Str "N"]);
      ("item_type", Object [Str "F"]);
      ("reporting_form", Object [NaN]);
      ("description", Object [Str " x "]);
      ("series_glossary", Object [NaN]) ].

(** A reader that knows three files, told apart by their first byte:
    bytes above 127 do not decode as UTF-8, and an empty file has no
    header. *)
Definition read (bytes : list Byte.byte) (e : encoding) : result (DataFrame string) :=
  match e, forallb (fun b => (Byte.to_nat b <? 128)%nat) bytes, bytes with
  | _, _, [] => Raise ReadError
  | UTF8, false, _ => Raise UnicodeDecodeError
  | _, _, Byte.x50 :: _ => Ok sample
  | _, _, Byte.x45 :: _ => Ok two_end_dates
  | _, _, _ => Ok incomplete
  end.

#[global] Instance pandas : Pandas := {|
  Timestamp := string;
  read_csv := read;
  parse_datetime := parse;
  format_datetimes := fmap (from_option (fun s => s) "NaT");
  isoformat := fun s => String.append s " 00:00:00"
|}.

Definition clock : Clock :=
  mkClock "2026-11-04 09:30:00" "2026-11-04" (fun _ => "2026-11-04 09:30:00").
Definition later : Clock :=
  mkClock "2026-11-05 00:00:01" "2026-11-05" (fun _ => "2026-11-05 00:00:01").

(** A load during which the second changes after the first line. *)
Definition ticking : Clock :=
  mkClock "2026-11-04 09:30:01" "2026-11-04"
          (fun i => match i with O => "2026-11-04 09:30:00" | _ => "2026-11-04 09:30:01" end).

(** The fact table that [sample] loads into. The first end date is out
    of range, so it is [NaT] in the frame and NULL in the table. *)
Definition rows : list Row :=
  [ mkRow 1 (Some "RCON2170") (Some "RCON") (Some "2170")
          (Some "1959-12-31 00:00:00") None (Some "TOTAL ASSETS") (Some "N")
          (Some "F") (Some "FFIEC 031")
          (Some (String.append "Loans & leases" (String.append newline "net")))
          (Some "nan") "2026-11-04 09:30:00";
    mkRow 2 (Some "RCFDA123") (Some "RCFD") (Some "A123")
          (Some "2001-03-31 00:00:00") (Some "2010-06-30 00:00:00") (Some "nan")
          (Some "Y") (Some "D") None (Some "nan") (Some "R&D")
          "2026-11-04 09:30:00" ].

(** The sample after the normaliser. *)
Definition normalised : DataFrame string :=
  match normalise sample with
  | Ok df => df
  | Raise _ => sample
  end.

Definition ascii_file : list Byte.byte := [Byte.x50; Byte.x55; Byte.x42].
Definition latin1_file : list Byte.byte := [Byte.x50; Byte.xe9].
Definition incomplete_file : list Byte.byte := [Byte.x4d; Byte.x6e].
Definition two_end_dates_file : list Byte.byte := [Byte.x45; Byte.x6e].

End Demo.

(** ** A small instance of the run time *)

Module DemoRuntime.

(** [int] on an optional sign followed by digits. *)
Definition int (s : string) : option Z :=
  match s with
  | EmptyString => None
  | String "-" EmptyString => None
  | String "-" s' => (fun d => (- Z.of_uint d)%Z) <$> NilZero.uint_of_string s'
  | _ => Z.of_uint <$> NilZero.uint_of_string s
  end.

#[global] Instance runtime : Runtime := {|
  py_int := int;
  order_by := fun A le l => merge_sort (fun x y => le x y) l;
  order_by_Permutation := fun A le l => merge_sort_Permutation _ l;
  order_by_Sorted := fun A le l Htotal Htrans => StronglySorted_merge_sort _ l
|}.

End DemoRuntime.

(** ** Notions used by the statements *)

(** The number a statistic holds, read back from its text. *)
Definition stat (t : gmap string Stat) (name : string) : option nat :=
  s ← t !! name; PyStr.int_of_str (statistic_value s).

(** A row whose confidentiality is neither ["Y"] nor ["N"], NULL included. *)
Definition other_confidentiality (r : Row) : bool :=
  match confidentiality r with
  | None => true
  | Some s => negb (String.eqb s "Y") && negb (String.eqb s "N")
  end.

(** A row whose end date is NULL. *)
Definition null_end_date (r : Row) : bool :=
  match end_date r with None => true | Some _ => false end.

(** The table the aggregator writes: the fixed statistics, then one row for
    each item type. *)
Definition summary_map (clk : Clock) (rows : list Row) : gmap string Stat :=
  list_to_map ((fun g : string * nat =>
                  (String.append "item_type_" g.1,
                   mkStat (PyStr.str_of_nat g.2) (current_timestamp clk)))
               <$> item_type_distribution rows)
  ∪ list_to_map ((fun q : string * (list Row → nat) =>
                    (q.1, mkStat (PyStr.str_of_nat (q.2 rows)) (current_timestamp clk)))
                 <$> stats_queries (current_date clk)).

(** The texts of a series under [astype(str)]. *)
Definition strings_of `{Pandas} (s : Series Timestamp) : list string :=
  match s with
  | Object xs => str_of_value <$> xs
  | Datetime64 xs => format_datetimes xs
  end.

(** A text with the carriage-return entities, then the ampersand entities
    replaced, then stripped. *)
Definition decode_text (t : string) : string :=
  PyStr.strip (PyStr.replace ampersand_entity "&"
                 (PyStr.replace carriage_return_entity newline t)).

(** The column of decoded texts that the loop over [text_columns] leaves. *)
Definition decoded `{Pandas} (s : Series Timestamp) : Series Timestamp :=
  Object ((fun t => Str (decode_text t)) <$> strings_of s).

(** The column of identifiers made of a mnemonic and an item-code column. *)
Definition identifier_series `{Pandas} (m c : Series Timestamp) : Series Timestamp :=
  Object (zip_with (fun a b => Str (String.append a b)) (strings_of m) (strings_of c)).

(** [u] occurs in [s]. *)
Definition occurs_in (u s : string) : Prop :=
  ∃ a b, s = String.append a (String.append u b).

(** [t] is [s] with every occurrence of [old] replaced by [new]: [s] is
    made of pieces that hold no [old], with [old] between them, and [t] of
    the same pieces with [new] between them. *)
Definition replaced (old new s t : string) : Prop :=
  ∃ pieces,
    s = String.concat old pieces
    ∧ t = String.concat new pieces
    ∧ Forall (fun p => ¬ occurs_in old p) pieces.

(** A text of white space only. *)
Fixpoint blank (s : string) : bool :=
  match s with
  | EmptyString => true
  | String c s' => PyStr.is_space c && blank s'
  end.

(** [s] is [t] without the white space at its two ends. *)
Definition stripped (t s : string) : Prop :=
  ∃ l r,
    t = String.append l (String.append s r)
    ∧ blank l = true ∧ blank r = true
    ∧ (∀ c u, s = String c u → PyStr.is_space c = false)
    ∧ (∀ c u, s = String.append u (String c EmptyString) → PyStr.is_space c = false).

(** [f] applied to the columns that carry the label [col]. *)
Definition map_column `{Pandas} (f : Series Timestamp → Series Timestamp) (col : string)
    (df : DataFrame Timestamp) : DataFrame Timestamp :=
  mkFrame (nrows df)
    ((fun c : string * Series Timestamp =>
        if String.eqb c.1 col then (c.1, f c.2) else c) <$> columns df).

(** The frame after the loops over the date and the text columns. *)
Definition cleaned `{Pandas} (d : DataFrame Timestamp) : DataFrame Timestamp :=
  map_column decoded "Item Name"
    (map_column decoded "SeriesGlossary"
       (map_column decoded "Description"
          (map_column to_datetime "End Date" (map_column to_datetime "Start Date" d)))).

(** At most one column, exactly one column, carries the label. *)
Definition at_most_once `{Pandas} (d : DataFrame Timestamp) (col : string) : bool :=
  (length (select d col) <=? 1)%nat.

Definition once `{Pandas} (d : DataFrame Timestamp) (col : string) : bool :=
  (length (select d col) =? 1)%nat.

(** Once its labels are cleaned, the frame has each date label and each
    text label on one column at most, and when it has both a mnemonic and
    an item code it has one column of each. *)
Definition well_labelled `{Pandas} (df : DataFrame Timestamp) : bool :=
  let d := clean_columns df in
  forallb (at_most_once d) date_columns
  && forallb (at_most_once d) text_columns
  && (negb (has_column d "Mnemonic" && has_column d "Item Code")
      || (once d "Mnemonic" && once d "Item Code")).

(** The identifiers that the normaliser makes for the frame [d], whose
    labels are clean, if it makes any. *)
Definition synthesised `{Pandas} (d : DataFrame Timestamp) : option (Series Timestamp) :=
  match select d "Mnemonic", select d "Item Code" with
  | [m], [c] => Some (identifier_series m c)
  | _, _ => None
  end.

(** The name under which a column labelled [l] reaches the loader's
    selection. *)
Definition table_label (l : string) : string :=
  match List.find (fun p : string * string => String.eqb p.1 l) columns_mapping with
  | Some p => p.2
  | None => l
  end.

(** The columns of the frame that the loader inserts, in the order of the
    statement: those that reach the table as its first column, then those
    that reach it as its second, and so on. *)
Definition inserted_columns `{Pandas} (df : DataFrame Timestamp)
    : list (string * Series Timestamp) :=
  insert_columns ≫= fun col =>
    List.filter (fun c : string * Series Timestamp => String.eqb (table_label c.1) col)
                (columns df).

(** Every value that the loader inserts can be bound. *)
Definition bindable `{Pandas} (df : DataFrame Timestamp) : bool :=
  forallb (fun i => forallb (fun c : string * Series Timestamp => is_ok (sql_cell c.2 i))
                            (inserted_columns df))
          (seq 0 (nrows df)).

(** The first column of the frame, in file order, that reaches the table
    under the name [col]. *)
Definition source_column `{Pandas} (df : DataFrame Timestamp) (col : string)
    : option (Series Timestamp) :=
  snd <$> List.find (fun c : string * Series Timestamp => String.eqb (table_label c.1) col)
                    (columns df).

(** The value of entry [i] of a series in the table. *)
Definition cell `{Pandas} (s : Series Timestamp) (i : nat) : option string :=
  match sql_cell s i with
  | Ok v => v
  | Raise _ => None
  end.

(** The value stored under the name [col] for line [i] of a frame. *)
Definition stored `{Pandas} (df : DataFrame Timestamp) (col : string) (i : nat)
    : option string :=
  s ← source_column df col; cell s i.

(** The row stored for line [i] of a frame. *)
Definition stored_row `{Pandas} (df : DataFrame Timestamp) (clk : Clock) (i : nat) : Row :=
  mkRow (S i)
        (stored df "mdrm_identifier" i) (stored df "mnemonic" i)
        (stored df "item_code" i) (stored df "start_date" i)
        (stored df "end_date" i) (stored df "item_name" i)
        (stored df "confidentiality" i) (stored df "item_type" i)
        (stored df "reporting_form" i) (stored df "description" i)
        (stored df "series_glossary" i) (insert_timestamp clk i).

(** A frame none of whose labels is a column name of [mdrm_data]. *)
Definition source_labels `{Pandas} (df : DataFrame Timestamp) : bool :=
  forallb (fun c => negb (has_column df c)) insert_columns.

(** The field of a row that holds the text column [col]. *)
Definition text_field (col : string) (r : Row) : option string :=
  if String.eqb col "Description" then description r
  else if String.eqb col "SeriesGlossary" then series_glossary r
  else if String.eqb col "Item Name" then item_name r
  else None.

(** The load returns normally. *)
Definition load_completes `{Pandas} (df : DataFrame Timestamp) (clk : Clock) (st : Store) : Prop :=
  ∃ name db, create_database df clk st = (Ok name, Some db).

(** The load completes and stores the lines of the frame with a NULL
    identifier. *)
Definition stores_null_identifiers `{Pandas} (df : DataFrame Timestamp) (clk : Clock)
    (st : Store) : Prop :=
  ∃ name db rows,
    create_database df clk st = (Ok name, Some db)
    ∧ mdrm_data db = Some rows
    ∧ length rows = nrows df
    ∧ ∀ r, r ∈ rows → mdrm_identifier r = None.

(** A row without its [created_at]. *)
Definition without_created_at (r : Row) : Row :=
  mkRow (id r) (mdrm_identifier r) (mnemonic r) (item_code r) (start_date r)
        (end_date r) (item_name r) (confidentiality r) (item_type r)
        (reporting_form r) (description r) (series_glossary r) "".

(** The fact table of a store, the timestamps of the rows left out. *)
Definition fact_table (st : Store) : option (list Row) :=
  match st with
  | Some db => (fun rows : list Row => without_created_at <$> rows) <$> mdrm_data db
  | None => None
  end.

(** The statistics of a store, by name, their timestamps left out. *)
Definition statistics (st : Store) : option (gmap string string) :=
  match st with
  | Some db => (fun t : gmap string Stat => statistic_value <$> t) <$> mdrm_summary db
  | None => None
  end.

Definition without_active_expired (m : gmap string string) : gmap string string :=
  delete "active_items" (delete "expired_items" m).

(** One turn of the renaming loop. *)
Definition rename_step `{Pandas} (d : DataFrame Timestamp) (p : string * string)
    : DataFrame Timestamp :=
  if has_column d p.1 then rename d p.1 p.2 else d.

(** The character [c] occurs in [s]. *)
Fixpoint occurs (c : ascii) (s : string) : bool :=
  match s with
  | EmptyString => false
  | String a s' => Ascii.eqb a c || occurs c s'
  end.

(** ** Notions used by the further properties *)

(** The names of the fixed statistics. *)
Definition fixed_statistics : list string := (stats_queries "").*1.

(** The rows the item-type query keeps. *)
Definition has_item_type (r : Row) : bool := Sql.holds (Sql.not_blank (item_type r)).

(** An object series of [n] entries. *)
Definition object_series {T} (n : nat) (s : Series T) : bool :=
  match s with
  | Object xs => (length xs =? n)%nat
  | Datetime64 _ => false
  end.

(** A frame as [pd.read_csv] gives it: object columns only, each as long as
    the index. *)
Definition raw_frame `{Pandas} (d : DataFrame Timestamp) : Prop :=
  Forall (fun c : string * Series Timestamp => object_series (nrows d) c.2 = true) (columns d).

(** A frame with the columns of [d] and no line. *)
Definition without_lines {T} (d : DataFrame T) : DataFrame T :=
  mkFrame 0 ((fun c : string * Series T =>
                (c.1, match c.2 with
                      | Object _ => Object []
                      | Datetime64 _ => Datetime64 []
                      end)) <$> columns d).

(** A text with its letters A to Z in lower case. *)
Fixpoint folded (s : string) : string :=
  match s with
  | EmptyString => EmptyString
  | String c s' => String (Like.lower c) (folded s')
  end.

(** A query without [%], [_] and NUL. *)
Fixpoint plain (q : string) : bool :=
  match q with
  | EmptyString => true
  | String c q' =>
      negb (Ascii.eqb c "%"%char) && negb (Ascii.eqb c "_"%char)
      && negb (Ascii.eqb c Ascii.zero) && plain q'
  end.

(** The column that a search of type [ty] looks into, and the keys by
    which it orders its hits. *)
Definition searched_column (ty : string) : option (Row → option string) :=
  if String.eqb ty "item_name" then Some item_name
  else if String.eqb ty "mnemonic" then Some mnemonic
  else if String.eqb ty "item_code" then Some item_code
  else None.

Definition sort_keys (ty : string) (r : Row) : list (option string) :=
  if String.eqb ty "item_code" then [mnemonic r; item_name r] else [item_name r].

(** * Properties *)

(** ** Texts and counts *)

Lemma Ok_inj {A} (a b : A) : Ok a = Ok b → a = b.
Proof. intros [= ->]. reflexivity. Qed.


Lemma foldl_pointwise {A B} (f g : A → B → A) (a : A) (l : list B) :
  (∀ x y, f x y = g x y) → foldl f a l = foldl g a l.
Proof.
  intros Hfg. revert a. induction l as [|y l IH]; intros a; [done|].
  cbn [foldl]. by rewrite Hfg, IH.
Qed.


Lemma int_of_str_of_nat n : PyStr.int_of_str (PyStr.str_of_nat n) = Some n.
Proof.
  unfold PyStr.int_of_str, PyStr.str_of_nat.
  rewrite NilZero.usu.
  - simpl. f_equal. apply DecimalNat.Unsigned.of_to.
  - rewrite <- (DecimalNat.Unsigned.of_to n) at 1.
    rewrite DecimalNat.Unsigned.to_of. apply DecimalFacts.unorm_nonnil.
Qed.

(** ** Replacing every occurrence *)

Section Replace.
Variables (old : string) (n : ascii).
Hypothesis n_fresh : occurs n old = false.

Lemma append_new (x : string) : String.append (String n EmptyString) x = String n x.
Proof. reflexivity. Qed.

(** A text without [n] that starts the result starts the input: the
    result shows [n] wherever the input shows [old]. *)
Lemma startswith_replace (u s : string) :
  occurs n u = false →
  PyStr.startswith u (PyStr.replace_from old (String n EmptyString) 0 s) = true →
  PyStr.startswith u s = true.
Proof.
  revert s. induction u as [|a u IH]; intros s Hu Hstart; [reflexivity|].
  cbn [occurs] in Hu. apply orb_false_iff in Hu as [Han Hu].
  destruct s as [|c s]; [discriminate Hstart|].
  cbn [PyStr.replace_from] in Hstart.
  destruct (PyStr.startswith old (String c s)).
  - rewrite append_new in Hstart. cbn [PyStr.startswith] in Hstart.
    rewrite Han in Hstart. discriminate Hstart.
  - cbn [PyStr.startswith] in *. apply andb_true_iff in Hstart as [-> Hstart].
    apply (IH s Hu Hstart).
Qed.

(** After [s.replace(old, n)], no occurrence of [old] is left, when the
    character [n] is not one of [old]. *)
Lemma replace_leaves_none (s : string) (k : nat) :
  old ≠ EmptyString →
  PyStr.contains old (PyStr.replace_from old (String n EmptyString) k s) = false.
Proof.
  intros Hold. destruct old as [|o old'] eqn:Heq; [contradiction|]. clear Hold.
  cbn [occurs] in n_fresh. apply orb_false_iff in n_fresh as [Hon Hn].
  revert k. induction s as [|c s IH]; intros k; [reflexivity|].
  cbn [PyStr.replace_from]. destruct k as [|k]; [|apply IH].
  destruct (PyStr.startswith (String o old') (String c s)) eqn:Hmatch.
  - rewrite append_new. cbn [PyStr.contains PyStr.startswith].
    rewrite Hon. cbn [andb orb]. apply IH.
  - cbn [PyStr.contains]. rewrite IH, orb_false_r.
    cbn [PyStr.startswith] in *.
    destruct (Ascii.eqb o c); [|reflexivity]. cbn [andb] in *.
    destruct (PyStr.startswith old' (PyStr.replace_from (String o old') (String n EmptyString) 0 s))
      eqn:Hstart; [|reflexivity].
    rewrite <- Hmatch. symmetry.
    apply (startswith_replace old' s Hn). rewrite Heq. exact Hstart.
Qed.
End Replace.

(** No carriage-return entity is left by the first replacement. *)
Lemma carriage_returns_all_replaced (t : string) :
  PyStr.contains "&#x0D;" (PyStr.replace "&#x0D;" newline t) = false.
Proof. apply (replace_leaves_none "&#x0D;" (ascii_of_nat 10)); [reflexivity | discriminate]. Qed.

(** ** The summary table *)

(** Inserting rows under fresh, distinct keys never violates the primary
    key. *)
Lemma inserts_ok {A} (now : string) (key val : A → string)
    (f : result (gmap string Stat) → A → result (gmap string Stat))
    (l : list A) (t : gmap string Stat) :
  (∀ acc a, f acc a = (t ← acc; insert_stat now (key a) (val a) t)) →
  NoDup (key <$> l) →
  (∀ k, k ∈ key <$> l → t !! k = None) →
  foldl f (Ok t) l
  = Ok (list_to_map ((fun a => (key a, mkStat (val a) now)) <$> l) ∪ t).
Proof.
  intros Hf. revert t. induction l as [|a l IH]; intros t Hnd Hfresh.
  - cbn. by rewrite (left_id_L ∅ (∪)).
  - rewrite !fmap_cons in *. apply NoDup_cons in Hnd as [Hk Hnd].
    rewrite list_to_map_cons. cbn [foldl]. rewrite Hf.
    change (Ok t ≫= _) with (insert_stat now (key a) (val a) t).
    unfold insert_stat. rewrite Hfresh by (apply elem_of_cons; by left).
    rewrite IH; [|done|].
    + f_equal.
      rewrite <- insert_union_l, insert_union_r; [done|].
      apply not_elem_of_list_to_map_1.
      rewrite <- list_fmap_compose. exact Hk.
    + intros k' Hk'. rewrite lookup_insert_ne.
      * apply Hfresh, elem_of_cons. by right.
      * intros Heq. by rewrite <- Heq in Hk'.
Qed.

Lemma item_type_key_inj : Inj (=) (=) (String.append "item_type_").
Proof. intros a b Hab. by simplify_eq/=. Qed.

Lemma item_type_key_fresh (today ty : string) :
  String.append "item_type_" ty ∉ (stats_queries today).*1.
Proof.
  cbn. intros Hin.
  repeat (apply elem_of_cons in Hin as [Heq|Hin]; [discriminate Heq|]).
  by apply elem_of_nil in Hin.
Qed.

Lemma item_types_NoDup (rows : list Row) : NoDup (item_type_distribution rows).*1.
Proof.
  unfold item_type_distribution, Sql.group_count.
  rewrite <- list_fmap_compose.
  rewrite (list_fmap_ext _ (fun k => k)) by done.
  rewrite list_fmap_id. apply NoDup_remove_dups.
Qed.

(** The aggregator's inserts all succeed, and give [summary_map]. *)
Lemma summary_rows_ok (clk : Clock) (rows : list Row) :
  summary_rows clk rows = Ok (summary_map clk rows).
Proof.
  unfold summary_rows, summary_map.
  set (now := current_timestamp clk). set (today := current_date clk).
  rewrite (inserts_ok now fst (fun p => PyStr.str_of_nat (p.2 rows))).
  - cbn [mbind result_bind].
    rewrite (inserts_ok now (fun p => String.append "item_type_" p.1)
                        (fun p => PyStr.str_of_nat p.2)).
    + by rewrite (right_id_L ∅ (∪)).
    + by intros acc [].
    + change (fun p : string * nat => String.append "item_type_" p.1)
        with (String.append "item_type_" ∘ (fst : string * nat → string)).
      rewrite list_fmap_compose.
      apply (@NoDup_fmap_2 _ _ (String.append "item_type_") item_type_key_inj),
        item_types_NoDup.
    + intros k Hk. rewrite (right_id_L ∅ (∪)).
      apply not_elem_of_list_to_map_1. rewrite <- list_fmap_compose.
      apply list_elem_of_fmap in Hk as ([ty n] & -> & _).
      apply item_type_key_fresh.
  - by intros acc [].
  - apply (bool_decide_unpack _). by vm_compute.
  - intros k _. apply lookup_empty.
Qed.

Lemma summary_map_fixed (clk : Clock) (rows : list Row) (name : string) (q : list Row → nat) :
  (name, q) ∈ stats_queries (current_date clk) →
  summary_map clk rows !! name
  = Some (mkStat (PyStr.str_of_nat (q rows)) (current_timestamp clk)).
Proof.
  intros Hin. unfold summary_map. rewrite lookup_union_r.
  - apply elem_of_list_to_map_1.
    + rewrite <- list_fmap_compose. apply (bool_decide_unpack _). by vm_compute.
    + apply list_elem_of_fmap. by exists (name, q).
  - apply not_elem_of_list_to_map_1. rewrite <- list_fmap_compose.
    intros Hk. apply list_elem_of_fmap in Hk as ([ty n] & -> & _).
    apply (item_type_key_fresh (current_date clk) ty).
    apply list_elem_of_fmap. by exists (String.append "item_type_" ty, q).
Qed.

Lemma stat_summary_map (clk : Clock) (rows : list Row) (name : string) (q : list Row → nat) :
  (name, q) ∈ stats_queries (current_date clk) →
  stat (summary_map clk rows) name = Some (q rows).
Proof.
  intros Hin. unfold stat. rewrite (summary_map_fixed _ _ _ q Hin). cbn.
  apply int_of_str_of_nat.
Qed.

(** The aggregator on a database that holds the fact table and no summary
    table yet. *)
Lemma create_summary_stats_ok (clk : Clock) (db : Database) (rows : list Row) :
  mdrm_data db = Some rows →
  mdrm_summary db = None →
  create_summary_stats clk db = (Ok (), mkDb (Some rows) (Some (summary_map clk rows))).
Proof.
  intros Hdata Hnew. unfold create_summary_stats.
  by rewrite Hnew, Hdata, summary_rows_ok.
Qed.

(** ** Counting under three-valued predicates *)

Lemma leb_negb_ltb (s y : string) : String.leb s y = negb (String.ltb y s).
Proof.
  unfold String.leb, String.ltb. rewrite (String.compare_antisym y s).
  by destruct (String.compare s y).
Qed.

(** A split of the rows in three classes that exclude each other. *)
Lemma count_three_way (p q o : Row → bool) (rows : list Row) :
  (∀ r, (p r, q r, o r) = (true, false, false)
        ∨ (p r, q r, o r) = (false, true, false)
        ∨ (p r, q r, o r) = (false, false, true)) →
  length (List.filter p rows) + length (List.filter q rows) + length (List.filter o rows)
  = length rows.
Proof.
  intros Hsplit. induction rows as [|r rows IH]; [done|].
  cbn [List.filter].
  destruct (Hsplit r) as [Hr|[Hr|Hr]]; injection Hr as -> -> ->; cbn [length]; lia.
Qed.

Lemma confidentiality_split (rows : list Row) :
  Sql.count_where (fun r => Sql.eq (confidentiality r) "Y") rows
  + Sql.count_where (fun r => Sql.eq (confidentiality r) "N") rows
  + length (List.filter other_confidentiality rows)
  = length rows.
Proof.
  unfold Sql.count_where. apply count_three_way. intros r.
  unfold other_confidentiality, Sql.eq. destruct (confidentiality r) as [s|]; cbn.
  - destruct (String.eqb_spec s "Y") as [->|?]; [by left|].
    destruct (String.eqb s "N"); auto.
  - auto.
Qed.

Lemma end_date_split (today : string) (rows : list Row) :
  Sql.count_where (fun r => Sql.gt (end_date r) today) rows
  + Sql.count_where (fun r => Sql.le (end_date r) today) rows
  + length (List.filter null_end_date rows)
  = length rows.
Proof.
  unfold Sql.count_where. apply count_three_way. intros r.
  unfold null_end_date, Sql.gt, Sql.le. destruct (end_date r) as [s|]; cbn.
  - rewrite leb_negb_ltb. destruct (String.ltb today s); auto.
  - auto.
Qed.

(** Query 6 counts every row once, the rows without an end date among the
    expired ones. *)
Lemma status_count_split (today : string) (rows : list Row) :
  status_count today "Active" rows + status_count today "Expired" rows = length rows.
Proof.
  unfold status_count, status. induction rows as [|r rows IH]; [done|].
  cbn [List.filter]. destruct (Sql.holds _); cbn; lia.
Qed.

(** ** The statistics of the summary table *)

Lemma holds_eq (x : option string) (lit : string) :
  Sql.holds (Sql.eq x lit) = bool_decide (x = Some lit).
Proof.
  destruct x as [s|]; cbn; [|done].
  destruct (String.eqb_spec s lit) as [->|Hne].
  - by rewrite bool_decide_eq_true_2.
  - rewrite bool_decide_eq_false_2; [done|]. by intros [= ->].
Qed.

(** C8. On every fact table, the aggregator stores [confidential_items],
    the number of rows whose confidentiality is ["Y"], [public_items], the
    number of rows whose confidentiality is ["N"], and [total_records];
    together with the rows whose confidentiality is neither, NULL
    included, the first two add up to the third. *)
Theorem confidentiality_statistics (clk : Clock) (db : Database) (rows : list Row) :
  mdrm_data db = Some rows →
  mdrm_summary db = None →
  ∃ t c p n,
    create_summary_stats clk db = (Ok (), mkDb (Some rows) (Some t))
    ∧ stat t "confidential_items" = Some c
    ∧ stat t "public_items" = Some p
    ∧ stat t "total_records" = Some n
    ∧ c = length (List.filter (fun r => bool_decide (confidentiality r = Some "Y")) rows)
    ∧ p = length (List.filter (fun r => bool_decide (confidentiality r = Some "N")) rows)
    ∧ c + p + length (List.filter other_confidentiality rows) = n.
Proof.
  intros Hdata Hnew.
  exists (summary_map clk rows),
         (Sql.count_where (fun r => Sql.eq (confidentiality r) "Y") rows),
         (Sql.count_where (fun r => Sql.eq (confidentiality r) "N") rows),
         (length rows).
  split; [by apply create_summary_stats_ok|].
  split; [apply (stat_summary_map clk rows "confidential_items"); set_solver|].
  split; [apply (stat_summary_map clk rows "public_items"); set_solver|].
  split; [apply (stat_summary_map clk rows "total_records" (fun rows => length rows));
          set_solver|].
  split; [|split].
  - unfold Sql.count_where. f_equal. apply filter_ext. intros r. apply holds_eq.
  - unfold Sql.count_where. f_equal. apply filter_ext. intros r. apply holds_eq.
  - apply confidentiality_split.
Qed.

Lemma confidentiality_statistics_witness :
  ∃ t c p n,
    create_summary_stats Demo.clock (mkDb (Some Demo.rows) None)
    = (Ok (), mkDb (Some Demo.rows) (Some t))
    ∧ stat t "confidential_items" = Some c
    ∧ stat t "public_items" = Some p
    ∧ stat t "total_records" = Some n
    ∧ c = length (List.filter (fun r => bool_decide (confidentiality r = Some "Y")) Demo.rows)
    ∧ p = length (List.filter (fun r => bool_decide (confidentiality r = Some "N")) Demo.rows)
    ∧ c + p + length (List.filter other_confidentiality Demo.rows) = n.
Proof.
  apply (confidentiality_statistics Demo.clock (mkDb (Some Demo.rows) None) Demo.rows);
    reflexivity.
Defined.

(** The counts of the end-date statistics and the rows without an end date
    add up to the number of rows. *)
Lemma end_date_statistics (clk : Clock) (rows : list Row) :
  ∃ a e n,
    stat (summary_map clk rows) "active_items" = Some a
    ∧ stat (summary_map clk rows) "expired_items" = Some e
    ∧ stat (summary_map clk rows) "total_records" = Some n
    ∧ a + e + length (List.filter null_end_date rows) = n.
Proof.
  exists (Sql.count_where (fun r => Sql.gt (end_date r) (current_date clk)) rows),
         (Sql.count_where (fun r => Sql.le (end_date r) (current_date clk)) rows),
         (length rows).
  split; [apply (stat_summary_map clk rows "active_items"); set_solver|].
  split; [apply (stat_summary_map clk rows "expired_items"); set_solver|].
  split; [apply (stat_summary_map clk rows "total_records" (fun rows => length rows));
          set_solver|].
  apply end_date_split.
Qed.

(** C1. The table [Demo.rows] has two rows, one of them without an end
    date. The aggregator stores 0 active and 1 expired item for 2 records:
    the row without an end date is in neither count, while Query 6 of the
    query tool counts it as expired. *)
Theorem expired_items_skips_null_end_date :
  ∃ t,
    create_summary_stats Demo.clock (mkDb (Some Demo.rows) None)
    = (Ok (), mkDb (Some Demo.rows) (Some t))
    ∧ stat t "total_records" = Some 2
    ∧ stat t "active_items" = Some 0
    ∧ stat t "expired_items" = Some 1
    ∧ length (List.filter
                (fun r => negb (Sql.holds (Sql.gt (end_date r) (current_date Demo.clock))))
                Demo.rows) = 2
    ∧ status_count (current_date Demo.clock) "Expired" Demo.rows = 2.
Proof.
  exists (summary_map Demo.clock Demo.rows).
  split; [by apply create_summary_stats_ok|].
  repeat split; by vm_compute.
Qed.

(** ** The detail lookup *)

Lemma find_identifier (mdrm_id : string) (rows : list Row) :
  match List.find (fun r => Sql.holds (Sql.eq (mdrm_identifier r) mdrm_id)) rows with
  | Some r => r ∈ rows ∧ mdrm_identifier r = Some mdrm_id
  | None => ∀ r, r ∈ rows → mdrm_identifier r ≠ Some mdrm_id
  end.
Proof.
  induction rows as [|r rows IH]; cbn [List.find].
  - intros r Hr. by apply elem_of_nil in Hr.
  - rewrite holds_eq. case_bool_decide as Hid.
    + split; [apply elem_of_cons; by left | done].
    + destruct (List.find _ rows) as [r'|].
      * destruct IH as [Hin Hr']. split; [apply elem_of_cons; by right | done].
      * intros r' [->|Hin]%elem_of_cons; [done | by apply IH].
Qed.

(** C9. On a store whose fact table is loaded, the lookup of an
    identifier that some row carries answers 200 with a whole row of the
    table that carries it; the lookup of an identifier that no row carries
    answers 404 with an error message. Neither is a server error, and the
    store is left as it was. *)
Theorem get_details_found_or_not_found (mdrm_id : string) (db : Database) (rows : list Row) :
  mdrm_data db = Some rows →
  ((∃ r, r ∈ rows ∧ mdrm_identifier r = Some mdrm_id) →
     ∃ r, (get_details mdrm_id (Some db)).1 = Json 200 r
          ∧ r ∈ rows ∧ mdrm_identifier r = Some mdrm_id)
  ∧ ((∀ r, r ∈ rows → mdrm_identifier r ≠ Some mdrm_id) →
       (get_details mdrm_id (Some db)).1 = JsonError 404 "Item not found")
  ∧ (get_details mdrm_id (Some db)).1 ≠ InternalServerError
  ∧ (get_details mdrm_id (Some db)).2 = Some db.
Proof.
  intros Hdata. unfold get_details. cbn [connect from_option]. rewrite Hdata.
  pose proof (find_identifier mdrm_id rows) as Hfind.
  destruct (List.find _ rows) as [r|]; cbn [fst snd].
  - destruct Hfind as [Hin Hid]. split; [by eauto|]. split; [|done].
    intros Hnone. by destruct (Hnone r Hin).
  - split; [|done].
    intros (r & Hin & Hid). by destruct (Hfind r Hin).
Qed.

Lemma get_details_found_or_not_found_witness :
  (∃ r, (get_details "RCON2170" (Some (mkDb (Some Demo.rows) None))).1 = Json 200 r
        ∧ r ∈ Demo.rows ∧ mdrm_identifier r = Some "RCON2170")
  ∧ (get_details "RCON" (Some (mkDb (Some Demo.rows) None))).1
    = JsonError 404 "Item not found".
Proof.
  split.
  - apply (get_details_found_or_not_found "RCON2170" (mkDb (Some Demo.rows) None) Demo.rows);
      [reflexivity|].
    eexists. split; [apply list_elem_of_here | reflexivity].
  - apply (get_details_found_or_not_found "RCON" (mkDb (Some Demo.rows) None) Demo.rows);
      [reflexivity|].
    intros r Hr. unfold Demo.rows in Hr.
    repeat (apply elem_of_cons in Hr as [->|Hr]; [discriminate|]).
    by apply elem_of_nil in Hr.
Defined.

(** ** The normaliser, column by column *)

Section NormaliserFacts.
Context `{Pandas}.

Lemma frame_eta (d : DataFrame Timestamp) : mkFrame (nrows d) (columns d) = d.
Proof. by destruct d. Qed.

Lemma select_nil (d : DataFrame Timestamp) (col : string) :
  select d col = [] ↔ has_column d col = false.
Proof.
  unfold select, has_column, labels. destruct d as [n cs]. cbn [columns].
  induction cs as [|[l s] cs IH]; cbn [List.filter fmap list_fmap fst snd].
  - split; [intros _|reflexivity]. apply bool_decide_eq_false_2. apply not_elem_of_nil.
  - destruct (String.eqb_spec l col) as [->|Hne]; cbn [fmap list_fmap snd].
    + split; [discriminate|]. intros Hno. apply bool_decide_eq_false_1 in Hno.
      exfalso. apply Hno. apply list_elem_of_here.
    + rewrite IH. split; intros Hno.
      * apply bool_decide_eq_false_2. apply bool_decide_eq_false_1 in Hno.
        rewrite elem_of_cons. intros [->|Hin]; [by apply Hne | by apply Hno].
      * apply bool_decide_eq_false_2. apply bool_decide_eq_false_1 in Hno.
        intros Hin. apply Hno. by apply list_elem_of_further.
Qed.

Lemma has_column_select (d : DataFrame Timestamp) (col : string) :
  has_column d col = negb (bool_decide (select d col = [])).
Proof.
  destruct (has_column d col) eqn:Hcol.
  - symmetry. apply negb_true_iff, bool_decide_eq_false_2. intros Hnil.
    apply select_nil in Hnil. congruence.
  - symmetry. apply negb_false_iff, bool_decide_eq_true_2. by apply select_nil.
Qed.

Lemma select_map_column (f : Series Timestamp → Series Timestamp) (col k : string)
    (d : DataFrame Timestamp) :
  select (map_column f col d) k
  = if String.eqb k col then f <$> select d k else select d k.
Proof.
  unfold select, map_column. cbn [columns]. destruct d as [n cs]. cbn [columns].
  induction cs as [|[l s] cs IH]; [by destruct (String.eqb k col)|].
  cbn [fmap list_fmap fst snd List.filter].
  destruct (String.eqb_spec l col) as [->|Hl]; cbn [fst snd].
  - destruct (String.eqb_spec col k) as [->|Hk].
    + rewrite String.eqb_refl in IH |- *. cbn [fmap list_fmap snd]. by rewrite IH.
    + rewrite IH. destruct (String.eqb_spec k col) as [->|_]; [contradiction | reflexivity].
  - destruct (String.eqb_spec l k) as [->|Hk]; cbn [fmap list_fmap snd]; rewrite IH.
    + destruct (String.eqb_spec k col) as [->|_]; [contradiction | reflexivity].
    + destruct (String.eqb k col); reflexivity.
Qed.

Lemma labels_map_column (f : Series Timestamp → Series Timestamp) (col : string)
    (d : DataFrame Timestamp) :
  labels (map_column f col d) = labels d.
Proof.
  unfold labels, map_column. cbn [columns]. rewrite <- list_fmap_compose.
  apply list_fmap_ext. intros _ [l s] _. cbn. by destruct (String.eqb l col).
Qed.

Lemma has_column_map_column (f : Series Timestamp → Series Timestamp) (col k : string)
    (d : DataFrame Timestamp) :
  has_column (map_column f col d) k = has_column d k.
Proof. unfold has_column. by rewrite labels_map_column. Qed.

Lemma length_select_map_column (f : Series Timestamp → Series Timestamp) (col k : string)
    (d : DataFrame Timestamp) :
  length (select (map_column f col d) k) = length (select d k).
Proof.
  rewrite select_map_column. destruct (String.eqb k col); [apply length_fmap | reflexivity].
Qed.

Lemma at_most_once_map_column (f : Series Timestamp → Series Timestamp) (col k : string)
    (d : DataFrame Timestamp) :
  at_most_once (map_column f col d) k = at_most_once d k.
Proof. unfold at_most_once. by rewrite length_select_map_column. Qed.

Lemma map_column_absent (f : Series Timestamp → Series Timestamp) (col : string)
    (d : DataFrame Timestamp) :
  select d col = [] → map_column f col d = d.
Proof.
  intros Hnil. rewrite <- (frame_eta d) at 2. unfold map_column. f_equal.
  rewrite <- (list_fmap_id (columns d)) at 2. apply list_fmap_ext.
  intros i [l s] Hi. cbn [fst snd]. destruct (String.eqb_spec l col) as [->|_]; [|reflexivity].
  exfalso. apply select_nil in Hnil. apply bool_decide_eq_false_1 in Hnil. apply Hnil.
  unfold labels. apply list_elem_of_fmap. exists (col, s). split; [reflexivity|].
  by apply list_elem_of_lookup_2 in Hi.
Qed.

(** When one column carries the label, [f] on the columns that carry it
    is the assignment of [f] of that column. *)
Lemma setitem_map_column (f : Series Timestamp → Series Timestamp) (col : string)
    (d : DataFrame Timestamp) (s : Series Timestamp) :
  select d col = [s] → setitem d col (f s) = map_column f col d.
Proof.
  intros Hs. unfold setitem, map_column.
  assert (Hcol : has_column d col = true).
  { rewrite has_column_select, Hs. reflexivity. }
  rewrite Hcol. f_equal. apply list_fmap_ext. intros i [l x] Hi. cbn [fst snd].
  destruct (String.eqb_spec l col) as [->|_]; [|reflexivity]. do 2 f_equal.
  apply list_elem_of_lookup_2 in Hi. revert Hs Hi. unfold select.
  generalize (columns d). intros cs. induction cs as [|[l' s'] cs IH]; [discriminate|].
  cbn [List.filter fst]. destruct (String.eqb_spec l' col) as [->|Hne].
  - cbn [fmap list_fmap snd]. intros [= -> Hrest]. rewrite elem_of_cons.
    intros [[= ->]|Hin]; [reflexivity|]. exfalso.
    assert (Hx : x ∈ (List.filter (fun c : string * Series Timestamp => String.eqb c.1 col) cs).*2).
    { apply list_elem_of_fmap. exists (col, x). split; [reflexivity|].
      apply list_elem_of_In, filter_In. split; [by apply list_elem_of_In|].
      apply String.eqb_refl. }
    rewrite Hrest in Hx. by apply elem_of_nil in Hx.
  - intros Hs. rewrite elem_of_cons. intros [[= -> ->]|Hin]; [contradiction | by apply IH].
Qed.

Lemma setitem_const (d : DataFrame Timestamp) (col : string) (s x : Series Timestamp) :
  select d col = [s] → setitem d col x = map_column (fun _ => x) col d.
Proof. intros Hs. exact (setitem_map_column (fun _ => x) col d s Hs). Qed.

Lemma getitem_one (d : DataFrame Timestamp) (col : string) (s : Series Timestamp) :
  select d col = [s] → getitem d col = Ok (OneColumn s).
Proof. intros Hs. unfold getitem. by rewrite Hs. Qed.

Lemma getitem_several (d : DataFrame Timestamp) (col : string) (s1 s2 : Series Timestamp)
    (ss : list (Series Timestamp)) :
  select d col = s1 :: s2 :: ss → getitem d col = Ok (SeveralColumns (s1 :: s2 :: ss)).
Proof. intros Hs. unfold getitem. by rewrite Hs. Qed.

Lemma map_column_compose (f g : Series Timestamp → Series Timestamp) (col : string)
    (d : DataFrame Timestamp) :
  map_column f col (map_column g col d) = map_column (f ∘ g) col d.
Proof.
  unfold map_column. cbn [nrows columns]. f_equal. rewrite <- list_fmap_compose.
  apply list_fmap_ext. intros _ [l s] _. cbn [compose fst snd].
  destruct (String.eqb l col) eqn:Hl; cbn [fst snd]; by rewrite Hl.
Qed.

Lemma map_column_ext (f g : Series Timestamp → Series Timestamp) (col : string)
    (d : DataFrame Timestamp) :
  (∀ s, s ∈ select d col → f s = g s) → map_column f col d = map_column g col d.
Proof.
  intros Hfg. unfold map_column. f_equal. apply list_fmap_ext. intros i [l s] Hi.
  cbn [fst snd]. destruct (String.eqb_spec l col) as [->|_]; [|reflexivity].
  f_equal. apply Hfg. unfold select. apply list_elem_of_fmap. exists (col, s).
  split; [reflexivity|]. apply list_elem_of_lookup_2 in Hi.
  apply list_elem_of_In, filter_In. split; [by apply list_elem_of_In | apply String.eqb_refl].
Qed.

(** The date step raises when several columns carry the label. *)
Lemma convert_date_spec (d : DataFrame Timestamp) (col : string) :
  convert_date d col
  = if at_most_once d col then Ok (map_column to_datetime col d) else Raise ValueError.
Proof.
  unfold convert_date, at_most_once. rewrite has_column_select.
  destruct (select d col) as [|s [|s' ss]] eqn:Hs.
  - cbn. by rewrite map_column_absent.
  - cbn [length Nat.leb bool_decide negb]. rewrite bool_decide_eq_false_2 by discriminate.
    cbn [negb]. rewrite (getitem_one _ _ _ Hs). cbn [mbind result_bind pd_to_datetime].
    by rewrite (setitem_map_column to_datetime _ _ _ Hs).
  - rewrite bool_decide_eq_false_2 by discriminate. cbn [negb].
    rewrite (getitem_several _ _ _ _ _ Hs). reflexivity.
Qed.

Lemma astype_str_strings (s : Series Timestamp) :
  astype_str s = Object (Str <$> strings_of s).
Proof. destruct s as [xs|xs]; cbn; [|done]. by rewrite <- list_fmap_compose. Qed.

(** The three statements on a text column amount to [decode_text] on the
    texts of the column; they raise when several columns carry the
    label. *)
Lemma clean_text_spec (d : DataFrame Timestamp) (col : string) :
  clean_text d col
  = if at_most_once d col then Ok (map_column decoded col d) else Raise AttributeError.
Proof.
  unfold clean_text, at_most_once. rewrite has_column_select.
  destruct (select d col) as [|s [|s' ss]] eqn:Hs.
  - cbn. by rewrite map_column_absent.
  - rewrite bool_decide_eq_false_2 by discriminate. cbn [negb length Nat.leb].
    rewrite (getitem_one _ _ _ Hs). cbn [mbind result_bind astype].
    rewrite astype_str_strings. cbn [str_accessor str_map mbind result_bind].
    rewrite (setitem_const _ _ s _ Hs).
    match goal with |- context [map_column (fun _ => ?x) col d] => set (s1 := x) end.
    assert (H1 : select (map_column (fun _ : Series Timestamp => s1) col d) col = [s1]).
    { rewrite select_map_column, String.eqb_refl, Hs. reflexivity. }
    rewrite (getitem_one _ _ _ H1). subst s1. cbn [mbind result_bind str_accessor str_map].
    match goal with |- context [map_column (fun _ => ?x) col d] => set (s1 := x) in * end.
    rewrite (setitem_const _ _ s1 _ H1).
    match goal with
    | |- context [map_column (fun _ => ?x) col (map_column _ col d)] => set (s2 := x)
    end.
    assert (H2 : select (map_column (fun _ : Series Timestamp => s2) col
                           (map_column (fun _ : Series Timestamp => s1) col d)) col = [s2]).
    { rewrite select_map_column, String.eqb_refl, H1. reflexivity. }
    rewrite (getitem_one _ _ _ H2). subst s2. cbn [mbind result_bind str_accessor str_map].
    match goal with
    | |- context [map_column (fun _ => ?x) col (map_column _ col d)] => set (s2 := x) in *
    end.
    rewrite (setitem_const _ _ s2 _ H2).
    rewrite !map_column_compose. f_equal. apply map_column_ext.
    intros x Hx. rewrite Hs in Hx. apply list_elem_of_singleton in Hx. subst x.
    cbn [compose]. unfold decoded. f_equal.
    rewrite <- !list_fmap_compose. by apply list_fmap_ext.
  - rewrite bool_decide_eq_false_2 by discriminate. cbn [negb].
    rewrite (getitem_several _ _ _ _ _ Hs). reflexivity.
Qed.

Lemma add_strings (xs ys : list string) :
  mapM (fun p => add_value p.1 p.2) (zip (Str <$> xs) (Str <$> ys))
  = Ok (zip_with (fun a b => Str (String.append a b)) xs ys).
Proof.
  revert ys. induction xs as [|x xs IH]; intros [|y ys]; try done.
  cbn [fmap list_fmap zip zip_with mapM]. cbn [zip zip_with] in IH.
  by rewrite IH.
Qed.

Lemma synthesised_Some (d : DataFrame Timestamp) (s : Series Timestamp) :
  synthesised d = Some s ↔
  ∃ m c, select d "Mnemonic" = [m] ∧ select d "Item Code" = [c] ∧ s = identifier_series m c.
Proof.
  unfold synthesised.
  destruct (select d "Mnemonic") as [|m [|m' ms]]; destruct (select d "Item Code") as [|c [|c' cs]];
    split; try discriminate; try (intros (? & ? & [=] & _); fail);
    try (intros (? & ? & _ & [=] & _); fail).
  - intros [= <-]. by eauto.
  - intros (m0 & c0 & [= <-] & [= <-] & ->). reflexivity.
Qed.

(** The synthesis is skipped unless both columns are there, and raises
    when several columns carry one of the two labels. *)
Lemma add_identifier_spec (d : DataFrame Timestamp) :
  add_identifier d
  = if has_column d "Mnemonic" && has_column d "Item Code" then
      match synthesised d with
      | Some s => Ok (setitem d "MDRM_Identifier" s)
      | None => Raise ValueError
      end
    else Ok d.
Proof.
  unfold add_identifier, synthesised. rewrite !has_column_select.
  destruct (select d "Mnemonic") as [|m [|m' ms]] eqn:Hm; [reflexivity| |].
  - destruct (select d "Item Code") as [|c [|c' cs]] eqn:Hc; [reflexivity| |].
    + rewrite !bool_decide_eq_false_2 by discriminate. cbn [negb andb].
      rewrite (getitem_one _ _ _ Hm), (getitem_one _ _ _ Hc).
      cbn [mbind result_bind astype add]. rewrite !astype_str_strings.
      unfold add_series. rewrite add_strings. reflexivity.
    + rewrite !bool_decide_eq_false_2 by discriminate. cbn [negb andb].
      rewrite (getitem_one _ _ _ Hm), (getitem_several _ _ _ _ _ Hc). reflexivity.
  - destruct (select d "Item Code") as [|c cs] eqn:Hc.
    + rewrite (bool_decide_eq_true_2 ([] = [])) by reflexivity.
      cbn [negb]. rewrite andb_false_r. reflexivity.
    + rewrite !bool_decide_eq_false_2 by discriminate. cbn [negb andb].
      rewrite (getitem_several _ _ _ _ _ Hm).
      unfold getitem. rewrite Hc. destruct cs; reflexivity.
Qed.

Lemma date_label (l : string) :
  bool_decide (l ∈ date_columns) = String.eqb l "Start Date" || String.eqb l "End Date".
Proof.
  unfold date_columns.
  destruct (String.eqb_spec l "Start Date") as [->|H1]; [by apply bool_decide_eq_true_2, list_elem_of_here|].
  destruct (String.eqb_spec l "End Date") as [->|H2].
  - apply bool_decide_eq_true_2, list_elem_of_further, list_elem_of_here.
  - apply bool_decide_eq_false_2. rewrite !elem_of_cons, elem_of_nil. tauto.
Qed.

Lemma text_label (l : string) :
  bool_decide (l ∈ text_columns)
  = String.eqb l "Description" || String.eqb l "SeriesGlossary" || String.eqb l "Item Name".
Proof.
  unfold text_columns.
  destruct (String.eqb_spec l "Description") as [->|H1];
    [by apply bool_decide_eq_true_2, list_elem_of_here|].
  destruct (String.eqb_spec l "SeriesGlossary") as [->|H2].
  { apply bool_decide_eq_true_2, list_elem_of_further, list_elem_of_here. }
  destruct (String.eqb_spec l "Item Name") as [->|H3].
  - apply bool_decide_eq_true_2. do 2 apply list_elem_of_further. apply list_elem_of_here.
  - apply bool_decide_eq_false_2. rewrite !elem_of_cons, elem_of_nil. tauto.
Qed.

Lemma select_cleaned (d : DataFrame Timestamp) (k : string) :
  select (cleaned d) k
  = if bool_decide (k ∈ date_columns) then to_datetime <$> select d k
    else if bool_decide (k ∈ text_columns) then decoded <$> select d k
    else select d k.
Proof.
  unfold cleaned. rewrite !select_map_column, date_label, text_label.
  destruct (String.eqb_spec k "Item Name") as [->|H1]; [reflexivity|].
  destruct (String.eqb_spec k "SeriesGlossary") as [->|H2]; [reflexivity|].
  destruct (String.eqb_spec k "Description") as [->|H3]; [reflexivity|].
  destruct (String.eqb_spec k "End Date") as [->|H4]; [reflexivity|].
  destruct (String.eqb_spec k "Start Date") as [->|H5]; reflexivity.
Qed.

Lemma columns_cleaned (d : DataFrame Timestamp) :
  columns (cleaned d)
  = (fun c : string * Series Timestamp =>
       (c.1, if bool_decide (c.1 ∈ date_columns) then to_datetime c.2
             else if bool_decide (c.1 ∈ text_columns) then decoded c.2
             else c.2)) <$> columns d.
Proof.
  unfold cleaned, map_column. cbn [columns]. rewrite <- !list_fmap_compose.
  apply list_fmap_ext. intros _ [l s] _. cbn [compose fst snd].
  rewrite date_label, text_label.
  destruct (String.eqb_spec l "Start Date") as [->|H1]; [reflexivity|].
  cbn [fst snd]. destruct (String.eqb_spec l "End Date") as [->|H2]; [reflexivity|].
  cbn [fst snd]. destruct (String.eqb_spec l "Description") as [->|H3]; [reflexivity|].
  cbn [fst snd]. destruct (String.eqb_spec l "SeriesGlossary") as [->|H4]; [reflexivity|].
  cbn [fst snd]. destruct (String.eqb_spec l "Item Name") as [->|H5]; reflexivity.
Qed.

Lemma labels_cleaned (d : DataFrame Timestamp) : labels (cleaned d) = labels d.
Proof. unfold cleaned. by rewrite !labels_map_column. Qed.

Lemma synthesised_cleaned (d : DataFrame Timestamp) : synthesised (cleaned d) = synthesised d.
Proof. unfold synthesised. rewrite !select_cleaned. reflexivity. Qed.

(** The two loops: the dates raise first. *)
Lemma loops_spec (d : DataFrame Timestamp) :
  (df ← foldl (fun r col => df ← r; convert_date df col) (Ok d) date_columns;
   foldl (fun r col => df ← r; clean_text df col) (Ok df) text_columns)
  = if forallb (at_most_once d) date_columns
    then if forallb (at_most_once d) text_columns
         then Ok (cleaned d) else Raise AttributeError
    else Raise ValueError.
Proof.
  cbn [foldl date_columns text_columns forallb mbind result_bind].
  rewrite convert_date_spec.
  destruct (at_most_once d "Start Date"); [|reflexivity].
  cbn [mbind result_bind andb]. rewrite convert_date_spec, at_most_once_map_column.
  destruct (at_most_once d "End Date"); [|reflexivity].
  cbn [mbind result_bind andb]. rewrite clean_text_spec, !at_most_once_map_column.
  destruct (at_most_once d "Description"); [|reflexivity].
  cbn [mbind result_bind andb]. rewrite clean_text_spec, !at_most_once_map_column.
  destruct (at_most_once d "SeriesGlossary"); [|reflexivity].
  cbn [mbind result_bind andb]. rewrite clean_text_spec, !at_most_once_map_column.
  destruct (at_most_once d "Item Name"); reflexivity.
Qed.

Lemma has_column_cleaned (d : DataFrame Timestamp) (k : string) :
  has_column (cleaned d) k = has_column d k.
Proof. unfold has_column. by rewrite labels_cleaned. Qed.

Lemma select_setitem_ne (d : DataFrame Timestamp) (k col : string) (s : Series Timestamp) :
  col ≠ k → select (setitem d k s) col = select d col.
Proof.
  intros Hne. unfold setitem, select. cbn [columns]. destruct (has_column d k).
  - induction (columns d) as [|[l x] cs IH]; [reflexivity|].
    cbn [fmap list_fmap fst snd List.filter].
    destruct (String.eqb_spec l k) as [->|Hl]; cbn [fst snd].
    + destruct (String.eqb_spec k col) as [->|_]; [contradiction | exact IH].
    + destruct (String.eqb l col); cbn [fmap list_fmap snd]; by rewrite IH.
  - rewrite List.filter_app. cbn [List.filter fst].
    destruct (String.eqb_spec k col) as [->|_]; [contradiction|]. by rewrite app_nil_r.
Qed.

Lemma select_setitem_eq (d : DataFrame Timestamp) (k : string) (s : Series Timestamp) :
  select (setitem d k s) k
  = if has_column d k then (fun _ => s) <$> select d k else [s].
Proof.
  unfold setitem. destruct (has_column d k) eqn:Hk.
  - unfold select. cbn [columns]. induction (columns d) as [|[l x] cs IH]; [reflexivity|].
    cbn [fmap list_fmap fst snd List.filter].
    destruct (String.eqb_spec l k) as [->|Hl]; cbn [fst snd].
    + rewrite String.eqb_refl. cbn [fmap list_fmap snd]. by rewrite IH.
    + destruct (String.eqb_spec l k) as [->|_]; [contradiction | exact IH].
  - apply select_nil in Hk. unfold select in *. cbn [columns].
    rewrite List.filter_app, fmap_app, Hk. cbn [List.filter fst].
    by rewrite String.eqb_refl.
Qed.

Lemma labels_setitem (d : DataFrame Timestamp) (k : string) (s : Series Timestamp) :
  labels (setitem d k s) = (labels d ++ if has_column d k then [] else [k])%list.
Proof.
  unfold setitem, labels. cbn [columns]. destruct (has_column d k).
  - rewrite app_nil_r, <- list_fmap_compose. apply list_fmap_ext.
    intros _ [l x] _. cbn. by destruct (String.eqb l k).
  - by rewrite fmap_app.
Qed.

(** The frame that the normaliser returns when it returns one. *)
Lemma normalise_spec (df : DataFrame Timestamp) :
  normalise df
  = let d := clean_columns df in
    if forallb (at_most_once d) date_columns then
      if forallb (at_most_once d) text_columns then
        if has_column d "Mnemonic" && has_column d "Item Code" then
          match synthesised d with
          | Some s => Ok (setitem (cleaned d) "MDRM_Identifier" s)
          | None => Raise ValueError
          end
        else Ok (cleaned d)
      else Raise AttributeError
    else Raise ValueError.
Proof.
  unfold normalise. cbn zeta. set (d := clean_columns df).
  transitivity
    (r ← (df ← foldl (fun r col => df ← r; convert_date df col) (Ok d) date_columns;
          foldl (fun r col => df ← r; clean_text df col) (Ok df) text_columns);
     add_identifier r).
  { destruct (foldl _ (Ok d) date_columns); reflexivity. }
  rewrite loops_spec.
  destruct (forallb (at_most_once d) date_columns); [|reflexivity].
  destruct (forallb (at_most_once d) text_columns); [|reflexivity].
  cbn [mbind result_bind]. rewrite add_identifier_spec, !has_column_cleaned.
  by rewrite synthesised_cleaned.
Qed.

Lemma once_select (d : DataFrame Timestamp) (col : string) :
  once d col = true ↔ ∃ s, select d col = [s].
Proof.
  unfold once. destruct (select d col) as [|s [|s' ss]]; cbn; split;
    try discriminate; try (intros [? [=]]; fail); eauto.
Qed.

(** The normaliser returns a frame exactly on the frames that are well
    labelled. *)
Lemma normalise_well_labelled (df : DataFrame Timestamp) :
  if well_labelled df
  then normalise df
       = Ok (match synthesised (clean_columns df) with
             | Some s => setitem (cleaned (clean_columns df)) "MDRM_Identifier" s
             | None => cleaned (clean_columns df)
             end)
  else is_ok (normalise df) = false.
Proof.
  rewrite normalise_spec. unfold well_labelled. cbn zeta. set (d := clean_columns df).
  destruct (forallb (at_most_once d) date_columns); [|reflexivity].
  destruct (forallb (at_most_once d) text_columns); [|reflexivity].
  cbn [andb]. rewrite !has_column_select. unfold synthesised, once.
  destruct (select d "Mnemonic") as [|m [|m' ms]]; [reflexivity| |].
  - destruct (select d "Item Code") as [|c [|c' cs]]; reflexivity.
  - destruct (select d "Item Code") as [|c [|c' cs]]; reflexivity.
Qed.

Lemma normalise_nrows (df df' : DataFrame Timestamp) :
  normalise df = Ok df' → nrows df' = nrows df.
Proof.
  pose proof (normalise_well_labelled df) as Hn. destruct (well_labelled df).
  - rewrite Hn. intros Heq. apply Ok_inj in Heq. subst df'.
    destruct (synthesised (clean_columns df)); reflexivity.
  - intros Heq. rewrite Heq in Hn. discriminate Hn.
Qed.

(** A column that is not the identifier comes out of the normaliser
    converted if its label is a date label, decoded if it is a text
    label, and as it went in otherwise. *)
Lemma normalise_select (df df' : DataFrame Timestamp) (k : string) :
  normalise df = Ok df' →
  k ≠ "MDRM_Identifier" →
  select df' k
  = if bool_decide (k ∈ date_columns) then to_datetime <$> select (clean_columns df) k
    else if bool_decide (k ∈ text_columns) then decoded <$> select (clean_columns df) k
    else select (clean_columns df) k.
Proof.
  intros Hok Hk. pose proof (normalise_well_labelled df) as Hn.
  destruct (well_labelled df); [|rewrite Hok in Hn; discriminate Hn].
  rewrite Hn in Hok. apply Ok_inj in Hok. subst df'.
  destruct (synthesised (clean_columns df)).
  - rewrite select_setitem_ne by exact Hk. apply select_cleaned.
  - apply select_cleaned.
Qed.

(** The identifier columns that the normaliser leaves. *)
Lemma normalise_identifier (df df' : DataFrame Timestamp) :
  normalise df = Ok df' →
  select df' "MDRM_Identifier"
  = match synthesised (clean_columns df) with
    | Some s => if has_column (clean_columns df) "MDRM_Identifier"
                then (fun _ => s) <$> select (clean_columns df) "MDRM_Identifier"
                else [s]
    | None => select (clean_columns df) "MDRM_Identifier"
    end.
Proof.
  intros Hok. pose proof (normalise_well_labelled df) as Hn.
  destruct (well_labelled df); [|rewrite Hok in Hn; discriminate Hn].
  rewrite Hn in Hok. apply Ok_inj in Hok. subst df'.
  destruct (synthesised (clean_columns df)).
  - rewrite select_setitem_eq, has_column_cleaned, select_cleaned. reflexivity.
  - rewrite select_cleaned. reflexivity.
Qed.

Lemma normalise_labels (df df' : DataFrame Timestamp) :
  normalise df = Ok df' →
  labels df'
  = (labels (clean_columns df)
     ++ if has_column (clean_columns df) "Mnemonic"
           && has_column (clean_columns df) "Item Code"
           && negb (has_column (clean_columns df) "MDRM_Identifier")
        then ["MDRM_Identifier"] else [])%list.
Proof.
  intros Hok. pose proof (normalise_spec df) as Hn. rewrite Hok in Hn. cbn zeta in Hn.
  destruct (forallb _ date_columns); [|discriminate Hn].
  destruct (forallb _ text_columns); [|discriminate Hn].
  destruct (has_column (clean_columns df) "Mnemonic" && has_column (clean_columns df) "Item Code").
  - destruct (synthesised (clean_columns df)); [|discriminate Hn].
    apply Ok_inj in Hn. subst df'. rewrite labels_setitem, has_column_cleaned, labels_cleaned.
    cbn [andb]. by destruct (has_column (clean_columns df) "MDRM_Identifier").
  - apply Ok_inj in Hn. subst df'. rewrite labels_cleaned. cbn [andb]. by rewrite app_nil_r.
Qed.

End NormaliserFacts.
(** ** The loader *)

Lemma find_app_list {A} (p : A → bool) (l1 l2 : list A) :
  List.find p (l1 ++ l2)%list
  = match List.find p l1 with
    | Some x => Some x
    | None => List.find p l2
    end.
Proof.
  induction l1 as [|x l1 IH]; [reflexivity|]. cbn [app List.find].
  destruct (p x); [reflexivity | exact IH].
Qed.

Lemma find_fmap {A B} (p : B → bool) (f : A → B) (l : list A) :
  List.find p (f <$> l) = f <$> List.find (fun x => p (f x)) l.
Proof.
  induction l as [|x l IH]; [reflexivity|]. cbn [fmap list_fmap List.find].
  destruct (p (f x)); [reflexivity | exact IH].
Qed.

Lemma find_filter_same {A} (p : A → bool) (l : list A) :
  List.find p (List.filter p l) = List.find p l.
Proof.
  induction l as [|x l IH]; [reflexivity|]. cbn [List.filter List.find].
  destruct (p x) eqn:Hx; [|exact IH]. cbn [List.find]. by rewrite Hx.
Qed.

Lemma find_None {A} (p : A → bool) (l : list A) :
  List.find p l = None ↔ ∀ x, x ∈ l → p x = false.
Proof.
  induction l as [|x l IH]; cbn [List.find].
  - split; [|reflexivity]. intros _ x Hx. by apply elem_of_nil in Hx.
  - destruct (p x) eqn:Hx.
    + split; [discriminate|]. intros Hall. rewrite Hall in Hx; [discriminate Hx|].
      apply list_elem_of_here.
    + rewrite IH. split.
      * intros Hall y Hy. apply elem_of_cons in Hy as [->|Hy]; [exact Hx | by apply Hall].
      * intros Hall y Hy. apply Hall. by apply list_elem_of_further.
Qed.

(** In the selection [df[cols]], the first column under a label of [cols]
    is the first column of the frame under that label. *)
Lemma find_bind_filter {A} (f : A → string) (cols : list string) (cs : list A) (col : string) :
  col ∈ cols →
  List.find (fun c => String.eqb (f c) col)
            (cols ≫= fun a => List.filter (fun c => String.eqb (f c) a) cs)
  = List.find (fun c => String.eqb (f c) col) cs.
Proof.
  induction cols as [|a cols IH]; intros Hcol; [by apply elem_of_nil in Hcol|].
  cbn [mbind list_bind]. rewrite find_app_list.
  destruct (decide (a = col)) as [->|Hne].
  - rewrite find_filter_same.
    destruct (List.find (fun c => String.eqb (f c) col) cs) eqn:Hfind; [reflexivity|].
    apply find_None. intros x Hx. rewrite find_None in Hfind. apply Hfind.
    apply list_elem_of_bind in Hx as (b & Hx & _).
    apply list_elem_of_In, filter_In in Hx as [Hx _]. by apply list_elem_of_In.
  - assert (Hnone : List.find (fun c => String.eqb (f c) col)
                              (List.filter (fun c => String.eqb (f c) a) cs) = None).
    { apply find_None. intros x Hx. apply list_elem_of_In, filter_In in Hx as [_ Hx].
      apply String.eqb_eq in Hx. rewrite Hx. by apply String.eqb_neq. }
    rewrite Hnone. apply IH. apply elem_of_cons in Hcol as [->|Hcol]; [contradiction | exact Hcol].
Qed.

Lemma filter_fmap_list {A B} (p : B → bool) (f : A → B) (l : list A) :
  List.filter p (f <$> l) = f <$> List.filter (fun x => p (f x)) l.
Proof.
  induction l as [|x l IH]; [reflexivity|]. cbn [fmap list_fmap List.filter].
  destruct (p (f x)); cbn [fmap list_fmap]; by rewrite IH.
Qed.

Lemma forallb_fmap {A B} (p : B → bool) (f : A → B) (l : list A) :
  forallb p (f <$> l) = forallb (fun x => p (f x)) l.
Proof.
  induction l as [|x l IH]; [reflexivity|]. cbn [fmap list_fmap forallb]. by rewrite IH.
Qed.

Lemma forallb_ext_in {A} (p q : A → bool) (l : list A) :
  (∀ x, x ∈ l → p x = q x) → forallb p l = forallb q l.
Proof.
  induction l as [|x l IH]; intros Hpq; [reflexivity|]. cbn [forallb].
  rewrite Hpq by apply list_elem_of_here. rewrite IH; [reflexivity|].
  intros y Hy. apply Hpq. by apply list_elem_of_further.
Qed.

Lemma filter_negb_nil {A} (p : A → bool) (l : list A) :
  List.filter (fun x => negb (p x)) l = [] ↔ forallb p l = true.
Proof.
  induction l as [|x l IH]; [done|]. cbn [List.filter forallb].
  destruct (p x); cbn [negb andb]; [exact IH|]. split; discriminate.
Qed.

(** [mapM] on a function that raises one exception only. *)
Lemma mapM_result {A B} (f : A → result B) (ok : A → bool) (g : A → B) (e : exn)
    (l : list A) :
  (∀ x, f x = if ok x then Ok (g x) else Raise e) →
  mapM f l = if forallb ok l then Ok (g <$> l) else Raise e.
Proof.
  intros Hf. induction l as [|x l IH]; [reflexivity|].
  cbn [mapM forallb fmap list_fmap]. rewrite (Hf x), IH.
  destruct (ok x); [|reflexivity]. cbn [mbind result_bind andb].
  destruct (forallb ok l); reflexivity.
Qed.

Section LoaderFacts.
Context `{Pandas}.

(** *** Renaming *)

(** The label that a column labelled [l] has after the turns [m] of the
    renaming loop. *)
Lemma rename_step_columns (d : DataFrame Timestamp) (p : string * string) :
  rename_step d p
  = mkFrame (nrows d)
      ((fun c : string * Series Timestamp =>
          (if String.eqb c.1 p.1 then p.2 else c.1, c.2)) <$> columns d).
Proof.
  unfold rename_step, rename. destruct (has_column d p.1) eqn:Hcol.
  - f_equal. apply list_fmap_ext. intros _ [l s] _. cbn [fst snd].
    by destruct (String.eqb l p.1).
  - rewrite <- (frame_eta d) at 1. f_equal.
    rewrite <- (list_fmap_id (columns d)) at 1. apply list_fmap_ext.
    intros i [l s] Hi. cbn [fst snd].
    destruct (String.eqb_spec l p.1) as [Heq|_]; [|reflexivity]. exfalso.
    apply bool_decide_eq_false_1 in Hcol. apply Hcol. rewrite <- Heq.
    unfold labels. apply list_elem_of_fmap. exists (l, s). split; [reflexivity|].
    by apply list_elem_of_lookup_2 in Hi.
Qed.

Lemma find_label_None (m : list (string * string)) (l : string) :
  l ∉ m.*1 → List.find (fun p : string * string => String.eqb p.1 l) m = None.
Proof.
  intros Hl. apply find_None. intros p Hp. apply String.eqb_neq. intros Heq.
  apply Hl. apply list_elem_of_fmap. by exists p.
Qed.

Lemma rename_fold (m : list (string * string)) (d : DataFrame Timestamp) :
  (∀ k, k ∈ m.*2 → k ∉ m.*1) →
  foldl rename_step d m
  = mkFrame (nrows d)
      ((fun c : string * Series Timestamp =>
          (match List.find (fun p : string * string => String.eqb p.1 c.1) m with
           | Some p => p.2
           | None => c.1
           end, c.2)) <$> columns d).
Proof.
  revert d. induction m as [|p m IH]; intros d Hnew.
  - cbn [foldl List.find]. rewrite <- (frame_eta d) at 1. f_equal.
    rewrite <- (list_fmap_id (columns d)) at 1. apply list_fmap_ext. by intros _ [l s] _.
  - cbn [foldl]. rewrite IH.
    + rewrite rename_step_columns. cbn [nrows columns]. f_equal.
      rewrite <- list_fmap_compose. apply list_fmap_ext. intros _ [l s] _.
      cbn [compose fst snd List.find]. f_equal.
      destruct (String.eqb_spec l p.1) as [->|Hl].
      * rewrite String.eqb_refl. rewrite find_label_None; [reflexivity|].
        intros Hin. apply (Hnew p.2).
        -- rewrite fmap_cons. apply list_elem_of_here.
        -- rewrite fmap_cons. by apply list_elem_of_further.
      * destruct (String.eqb_spec p.1 l) as [Heq|_]; [by symmetry in Heq | reflexivity].
    + intros k Hk Hk'. apply (Hnew k); rewrite fmap_cons; by apply list_elem_of_further.
Qed.

(** The renaming loop gives each column the name under which it reaches
    the table. *)
Lemma rename_columns_spec (d : DataFrame Timestamp) :
  rename_columns d
  = mkFrame (nrows d)
      ((fun c : string * Series Timestamp => (table_label c.1, c.2)) <$> columns d).
Proof.
  unfold rename_columns. rewrite (foldl_pointwise _ rename_step) by (by intros ? []).
  rewrite rename_fold; [reflexivity|].
  apply (proj1 (Forall_forall (fun k => k ∉ columns_mapping.*1) columns_mapping.*2)).
  apply (bool_decide_unpack _). vm_compute. exact I.
Qed.

Lemma rename_columns_nrows (df : DataFrame Timestamp) : nrows (rename_columns df) = nrows df.
Proof. by rewrite rename_columns_spec. Qed.

Lemma has_column_rename_columns (d : DataFrame Timestamp) (col : string) :
  has_column (rename_columns d) col = bool_decide (col ∈ table_label <$> labels d).
Proof.
  rewrite rename_columns_spec. unfold has_column, labels. cbn [columns].
  by rewrite <- !list_fmap_compose.
Qed.

(** A column of the table is reached when a column of the frame has its
    name already, or the label that the loop renames to it. *)
Lemma table_label_cases (l col : string) :
  col ∈ insert_columns →
  table_label l = col ↔ l = col ∨ (l, col) ∈ columns_mapping.
Proof.
  intros Hcol. unfold table_label.
  assert (Hfind : ∀ m : list (string * string),
            match List.find (fun p : string * string => String.eqb p.1 l) m with
            | Some p => p ∈ m ∧ p.1 = l
            | None => l ∉ m.*1
            end).
  { induction m as [|p m IH]; cbn [List.find]; [apply not_elem_of_nil|].
    destruct (String.eqb_spec p.1 l) as [Heq|Hne].
    - split; [apply list_elem_of_here | exact Heq].
    - destruct (List.find _ m) as [q|].
      + destruct IH as [Hq Hl]. split; [by apply list_elem_of_further | exact Hl].
      + rewrite fmap_cons. apply not_elem_of_cons. split; [by intros -> | exact IH]. }
  specialize (Hfind columns_mapping).
  assert (Hfun : ∀ a b, (l, a) ∈ columns_mapping → (l, b) ∈ columns_mapping → a = b).
  { intros a b Ha Hb.
    assert (Hnd : NoDup columns_mapping.*1).
    { apply (bool_decide_unpack _). vm_compute. exact I. }
    apply list_elem_of_lookup in Ha as [i Hi], Hb as [j Hj].
    assert (Hij : i = j).
    { apply (NoDup_lookup _ i j l Hnd); rewrite list_lookup_fmap; [by rewrite Hi | by rewrite Hj]. }
    subst j. rewrite Hi in Hj. by injection Hj. }
  assert (Hdisj : ∀ k, k ∈ insert_columns → k ∉ columns_mapping.*1).
  { apply (proj1 (Forall_forall (fun k => k ∉ columns_mapping.*1) insert_columns)).
    apply (bool_decide_unpack _). vm_compute. exact I. }
  destruct (List.find _ columns_mapping) as [[l' new]|].
  - destruct Hfind as [Hin Hl]. cbn [fst snd] in *. subst l'. split.
    + intros <-. by right.
    + intros [->|Hmap]; [|by apply (Hfun new col)].
      exfalso. apply (Hdisj col Hcol). apply list_elem_of_fmap. by exists (col, new).
  - split; [by left|]. intros [->|Hmap]; [reflexivity|].
    exfalso. apply Hfind. apply list_elem_of_fmap. by exists (l, col).
Qed.

(** *** The selection *)

Lemma select_columns_spec (d : DataFrame Timestamp) :
  select_columns (rename_columns d) insert_columns
  = if forallb (has_column (rename_columns d)) insert_columns
    then Ok (mkFrame (nrows d)
               ((fun c : string * Series Timestamp => (table_label c.1, c.2))
                  <$> inserted_columns d))
    else Raise (KeyError (List.filter (fun c => negb (has_column (rename_columns d) c))
                                      insert_columns)).
Proof.
  unfold select_columns.
  destruct (forallb (has_column (rename_columns d)) insert_columns) eqn:Hall.
  - apply filter_negb_nil in Hall. rewrite Hall. f_equal.
    rewrite rename_columns_spec. cbn [nrows columns]. f_equal.
    unfold inserted_columns. generalize insert_columns. intros cols.
    induction cols as [|col cols IH]; [reflexivity|].
    cbn [mbind list_bind]. rewrite fmap_app. f_equal; [|exact IH].
    apply filter_fmap_list.
  - destruct (List.filter _ insert_columns) eqn:Hf; [|reflexivity].
    apply filter_negb_nil in Hf. congruence.
Qed.

(** *** The insertion *)

Lemma sql_cell_cases (s : Series Timestamp) (i : nat) :
  sql_cell s i = if is_ok (sql_cell s i) then Ok (cell s i) else Raise OverflowError.
Proof.
  unfold cell. destruct s as [xs|xs]; cbn [sql_cell].
  - destruct (xs !! i) as [[|t|z]|]; try reflexivity. by destruct (Select.int64 z).
  - by destruct (xs !! i) as [[t|]|].
Qed.

Lemma parameters_spec (d : DataFrame Timestamp) (i : nat) :
  parameters d i
  = if forallb (fun c : string * Series Timestamp => is_ok (sql_cell c.2 i)) (columns d)
    then Ok ((fun c : string * Series Timestamp => (c.1, cell c.2 i)) <$> columns d)
    else Raise OverflowError.
Proof.
  unfold parameters. apply mapM_result. intros [l s]. cbn [fst snd].
  rewrite (sql_cell_cases s i) at 1. by destruct (is_ok (sql_cell s i)).
Qed.

Lemma to_sql_spec (d : DataFrame Timestamp) (clk : Clock) (rows : list Row) :
  to_sql d clk rows
  = if forallb (fun i => forallb (fun c : string * Series Timestamp => is_ok (sql_cell c.2 i))
                                 (columns d))
               (seq 0 (nrows d))
    then Ok (rows
             ++ ((fun i => to_row ((fun c : string * Series Timestamp => (c.1, cell c.2 i))
                                     <$> columns d)
                                  (insert_timestamp clk i) (S (length rows + i)))
                   <$> seq 0 (nrows d)))%list
    else Raise OverflowError.
Proof.
  unfold to_sql.
  rewrite (mapM_result _
             (fun i => forallb (fun c : string * Series Timestamp => is_ok (sql_cell c.2 i))
                               (columns d))
             (fun i => to_row ((fun c : string * Series Timestamp => (c.1, cell c.2 i))
                                 <$> columns d)
                              (insert_timestamp clk i) (S (length rows + i)))
             OverflowError).
  - by destruct (forallb _ (seq 0 (nrows d))).
  - intros i. rewrite parameters_spec. by destruct (forallb _ (columns d)).
Qed.

(** The value that the statement gives to a column of the table is the
    value of the first column of the frame that reaches it. *)
Lemma given_stored (df : DataFrame Timestamp) (i : nat) (col : string) :
  col ∈ insert_columns →
  given ((fun c : string * Series Timestamp => (c.1, cell c.2 i))
           <$> ((fun c : string * Series Timestamp => (table_label c.1, c.2))
                  <$> inserted_columns df)) col
  = stored df col i.
Proof.
  intros Hcol. unfold given, stored, source_column, inserted_columns.
  rewrite !find_fmap. cbn [fst snd].
  rewrite (find_bind_filter (fun c : string * Series Timestamp => table_label c.1)
             insert_columns (columns df) col Hcol).
  by destruct (List.find _ (columns df)) as [[l s]|].
Qed.

Lemma to_row_stored (df : DataFrame Timestamp) (clk : Clock) (i : nat) :
  to_row ((fun c : string * Series Timestamp => (c.1, cell c.2 i))
            <$> ((fun c : string * Series Timestamp => (table_label c.1, c.2))
                   <$> inserted_columns df))
         (insert_timestamp clk i) (S i)
  = stored_row df clk i.
Proof.
  assert (Hall : Forall (fun col => col ∈ insert_columns) insert_columns).
  { apply Forall_forall. by intros col Hcol. }
  unfold insert_columns at 2, columns_mapping in Hall. cbn [fmap list_fmap snd] in Hall.
  repeat setoid_rewrite Forall_cons in Hall.
  destruct Hall as (H1 & H2 & H3 & H4 & H5 & H6 & H7 & H8 & H9 & H10 & H11 & _).
  unfold to_row, stored_row.
  rewrite (given_stored df i _ H1), (given_stored df i _ H2), (given_stored df i _ H3),
    (given_stored df i _ H4), (given_stored df i _ H5), (given_stored df i _ H6),
    (given_stored df i _ H7), (given_stored df i _ H8), (given_stored df i _ H9),
    (given_stored df i _ H10), (given_stored df i _ H11).
  reflexivity.
Qed.

(** *** What the loader leaves *)

(** The loader does not read the store it is given: the file is removed
    first. It raises on a column of the table that the frame does not
    reach, then on a value that cannot be bound, and leaves an empty
    table both times; otherwise it stores a row for each line. *)
Lemma create_database_spec (df : DataFrame Timestamp) (clk : Clock) (st : Store) :
  create_database df clk st
  = if forallb (has_column (rename_columns df)) insert_columns then
      if bindable df then
        (Ok "mdrm_database.db",
         Some (mkDb (Some (stored_row df clk <$> seq 0 (nrows df)))
                    (Some (summary_map clk (stored_row df clk <$> seq 0 (nrows df))))))
      else (Raise OverflowError, Some (mkDb (Some []) None))
    else (Raise (KeyError (List.filter (fun c => negb (has_column (rename_columns df) c))
                                       insert_columns)),
          Some (mkDb (Some []) None)).
Proof.
  assert (Hfresh : ∀ r, (let (r0, db) := load df clk empty_db in (r0, Some db)) = r →
                        create_database df clk st = r).
  { intros r <-. unfold create_database. by destruct st. }
  apply Hfresh. unfold load.
  cbn [create_table_mdrm_data empty_db mdrm_data mdrm_summary].
  rewrite select_columns_spec.
  destruct (forallb (has_column (rename_columns df)) insert_columns); [|reflexivity].
  rewrite to_sql_spec. cbn [nrows columns default from_option]. unfold Datatypes.id.
  cbn [length app Nat.add].
  assert (Hbind : forallb (fun i => forallb (fun c : string * Series Timestamp =>
                                               is_ok (sql_cell c.2 i))
                                            ((fun c : string * Series Timestamp =>
                                                (table_label c.1, c.2))
                                               <$> inserted_columns df))
                          (seq 0 (nrows df))
                  = bindable df).
  { unfold bindable. apply forallb_ext_in. intros i _. rewrite forallb_fmap. reflexivity. }
  rewrite Hbind. destruct (bindable df); [|reflexivity].
  assert (Hrows : (fun i => to_row ((fun c : string * Series Timestamp => (c.1, cell c.2 i))
                                      <$> ((fun c : string * Series Timestamp =>
                                              (table_label c.1, c.2))
                                             <$> inserted_columns df))
                                   (insert_timestamp clk i) (S i))
                  <$> seq 0 (nrows df)
                  = stored_row df clk <$> seq 0 (nrows df)).
  { apply list_fmap_ext. intros _ i _. apply to_row_stored. }
  rewrite Hrows.
  by rewrite (create_summary_stats_ok clk
                (mkDb (Some (stored_row df clk <$> seq 0 (nrows df))) None)
                (stored_row df clk <$> seq 0 (nrows df))).
Qed.

(** The store a run leaves does not depend on the store it finds, unless
    the run stops before the load. *)
Lemma create_database_fresh (df : DataFrame Timestamp) (clk : Clock) (st st' : Store) :
  create_database df clk st = create_database df clk st'.
Proof. rewrite !create_database_spec. reflexivity. Qed.

(** A load that completes stores one row for each line of the frame, in
    order, with the fields of [stored_row]. *)
Lemma stored_rows (df : DataFrame Timestamp) (clk : Clock) (st : Store)
    (name : string) (db : Database) :
  create_database df clk st = (Ok name, Some db) →
  forallb (has_column (rename_columns df)) insert_columns = true
  ∧ bindable df = true
  ∧ db = mkDb (Some (stored_row df clk <$> seq 0 (nrows df)))
              (Some (summary_map clk (stored_row df clk <$> seq 0 (nrows df)))).
Proof.
  rewrite create_database_spec.
  destruct (forallb _ insert_columns); [|discriminate].
  destruct (bindable df); [|discriminate].
  intros [= _ <-]. done.
Qed.

(** The load raises when a column of the table is not reached. *)
Lemma load_fails_without (df : DataFrame Timestamp) (clk : Clock) (st : Store)
    (col : string) :
  col ∈ insert_columns →
  has_column (rename_columns df) col = false →
  ∃ missing, col ∈ missing
             ∧ create_database df clk st
               = (Raise (KeyError missing), Some (mkDb (Some []) None)).
Proof.
  intros Hcol Hnone. rewrite create_database_spec.
  destruct (forallb (has_column (rename_columns df)) insert_columns) eqn:Hall.
  - rewrite forallb_forall in Hall. rewrite (Hall col) in Hnone; [discriminate Hnone|].
    by apply list_elem_of_In.
  - eexists. split; [|reflexivity]. apply list_elem_of_In, filter_In.
    split; [by apply list_elem_of_In | by rewrite Hnone].
Qed.

(** Each column of the table has one label that the loop renames to it. *)
Lemma mapping_inj (old old' new : string) :
  (old, new) ∈ columns_mapping → (old', new) ∈ columns_mapping → old = old'.
Proof.
  intros Hin Hin'.
  assert (Hnd : NoDup columns_mapping.*2).
  { apply (bool_decide_unpack _). vm_compute. exact I. }
  apply list_elem_of_lookup in Hin as [i Hi], Hin' as [j Hj].
  assert (Hij : i = j).
  { apply (NoDup_lookup _ i j new Hnd); rewrite list_lookup_fmap; [by rewrite Hi | by rewrite Hj]. }
  subst j. rewrite Hi in Hj. by injection Hj.
Qed.

(** A column of the table is reached by a column of the frame that has its
    name or the label renamed to it. *)
Lemma has_column_renamed (d : DataFrame Timestamp) (old new : string) :
  (old, new) ∈ columns_mapping →
  has_column (rename_columns d) new = has_column d new || has_column d old.
Proof.
  intros Hmap. rewrite has_column_rename_columns.
  assert (Hcol : new ∈ insert_columns).
  { apply list_elem_of_fmap. by exists (old, new). }
  unfold has_column.
  destruct (bool_decide (new ∈ labels d)) eqn:Hnew; cbn [orb].
  - apply bool_decide_eq_true_1 in Hnew. apply bool_decide_eq_true_2.
    apply list_elem_of_fmap. exists new. split; [|exact Hnew].
    symmetry. apply (table_label_cases new new Hcol). by left.
  - apply bool_decide_eq_false_1 in Hnew.
    destruct (bool_decide (old ∈ labels d)) eqn:Hold.
    + apply bool_decide_eq_true_1 in Hold. apply bool_decide_eq_true_2.
      apply list_elem_of_fmap. exists old. split; [|exact Hold].
      symmetry. apply (table_label_cases old new Hcol). by right.
    + apply bool_decide_eq_false_1 in Hold. apply bool_decide_eq_false_2.
      intros Hin. apply list_elem_of_fmap in Hin as (l & Hl & Hin). symmetry in Hl.
      apply (table_label_cases l new Hcol) in Hl as [->|Hl]; [by apply Hnew|].
      apply Hold. by rewrite (mapping_inj old l new Hmap Hl).
Qed.

(** The first column of a frame under a label. *)
Lemma find_head (d : DataFrame Timestamp) (col : string) :
  snd <$> List.find (fun c : string * Series Timestamp => String.eqb c.1 col) (columns d)
  = head (select d col).
Proof.
  unfold select. induction (columns d) as [|[l x] cs IH]; [reflexivity|].
  cbn [List.filter List.find fst]. destruct (String.eqb l col); [reflexivity | exact IH].
Qed.

(** The column stored under a name of the table, when the frame has no
    column of that name: the first one under the label that is renamed
    to it. *)
Lemma source_column_renamed (d : DataFrame Timestamp) (old new : string) :
  (old, new) ∈ columns_mapping →
  has_column d new = false →
  source_column d new = head (select d old).
Proof.
  intros Hmap Hnew. unfold source_column. rewrite <- (find_head d old). f_equal.
  assert (Hcol : new ∈ insert_columns).
  { apply list_elem_of_fmap. by exists (old, new). }
  apply bool_decide_eq_false_1 in Hnew. revert Hnew. unfold labels.
  induction (columns d) as [|[l x] cs IH]; intros Hnew; [reflexivity|].
  cbn [List.find fst]. rewrite fmap_cons in Hnew. apply not_elem_of_cons in Hnew as [Hl Hnew].
  cbn [fst] in Hl.
  destruct (String.eqb_spec (table_label l) new) as [Heq|Hne].
  - apply (table_label_cases l new Hcol) in Heq as [->|Hin]; [contradiction|].
    rewrite (mapping_inj l old new Hin Hmap). by rewrite String.eqb_refl.
  - destruct (String.eqb_spec l old) as [->|_]; [|by apply IH].
    exfalso. apply Hne. apply (table_label_cases old new Hcol). by right.
Qed.

(** A load that completes could bind every value of the columns it
    inserts. *)
Lemma bindable_cell (df : DataFrame Timestamp) (l : string) (s : Series Timestamp) (i : nat) :
  bindable df = true →
  (l, s) ∈ columns df →
  table_label l ∈ insert_columns →
  (i < nrows df)%nat →
  sql_cell s i = Ok (cell s i).
Proof.
  intros Hbind Hin Hl Hi. unfold bindable in Hbind. rewrite forallb_forall in Hbind.
  assert (Hrow := Hbind i). rewrite forallb_forall in Hrow.
  assert (Hok : is_ok (sql_cell s i) = true).
  { apply (Hrow (proj2 (in_seq _ _ _) (conj (Nat.le_0_l i) Hi)) (l, s)).
    apply list_elem_of_In. unfold inserted_columns. apply list_elem_of_bind.
    exists (table_label l). split; [|exact Hl].
    apply list_elem_of_In, filter_In. split; [by apply list_elem_of_In | apply String.eqb_refl]. }
  rewrite (sql_cell_cases s i), Hok. reflexivity.
Qed.

End LoaderFacts.
(** ** Replaced and stripped texts *)

Lemma append_cons (c : ascii) (a b : string) :
  String.append (String c a) b = String c (String.append a b).
Proof. reflexivity. Qed.

Lemma append_nil (a : string) : String.append "" a = a.
Proof. reflexivity. Qed.

Lemma append_assoc (a b c : string) :
  String.append (String.append a b) c = String.append a (String.append b c).
Proof.
  induction a as [|x a IH]; [reflexivity|]. by rewrite !append_cons, IH.
Qed.

Lemma append_empty_r (a : string) : String.append a "" = a.
Proof. induction a as [|x a IH]; [reflexivity|]. by rewrite append_cons, IH. Qed.

Lemma length_append (a b : string) :
  String.length (String.append a b) = (String.length a + String.length b)%nat.
Proof.
  induction a as [|x a IH]; [reflexivity|]. rewrite append_cons. cbn [String.length plus].
  by rewrite IH.
Qed.

Lemma startswith_append (p s : string) :
  PyStr.startswith p s = true ↔ ∃ r, s = String.append p r.
Proof.
  revert s. induction p as [|a p IH]; intros s; cbn [PyStr.startswith].
  - split; [intros _; by exists s | reflexivity].
  - destruct s as [|b s].
    + split; [discriminate | intros [r Hr]; rewrite append_cons in Hr; discriminate Hr].
    + rewrite andb_true_iff, IH. split.
      * intros [Hab [r ->]]. apply Ascii.eqb_eq in Hab. subst b. by exists r.
      * intros [r Hr]. rewrite append_cons in Hr. injection Hr as -> ->.
        split; [apply Ascii.eqb_refl | by exists r].
Qed.

(** The characters of a match that are passed over. *)
Lemma replace_skip (old new u rest : string) :
  PyStr.replace_from old new (String.length u) (String.append u rest)
  = PyStr.replace_from old new 0 rest.
Proof.
  induction u as [|c u IH]; [reflexivity|].
  rewrite append_cons. cbn [String.length PyStr.replace_from]. exact IH.
Qed.

Lemma concat_head (sep p : string) (ps : list string) :
  ∃ tail, String.concat sep (p :: ps) = String.append p tail.
Proof.
  destruct ps as [|q ps]; cbn [String.concat].
  - exists "". by rewrite append_empty_r.
  - by eexists.
Qed.

Lemma concat_cons_char (sep : string) (c : ascii) (p : string) (ps : list string) :
  String.concat sep (String c p :: ps) = String c (String.concat sep (p :: ps)).
Proof. destruct ps; reflexivity. Qed.

Lemma concat_cons_empty (sep p : string) (ps : list string) :
  String.concat sep ("" :: p :: ps) = String.append sep (String.concat sep (p :: ps)).
Proof. reflexivity. Qed.

(** [s.replace(old, new)] cuts [s] at the occurrences of [old], from the
    left, and joins the pieces with [new]. *)
Lemma replace_pieces (old new : string) :
  old ≠ "" →
  ∀ n s, (String.length s ≤ n)%nat →
    ∃ p ps,
      s = String.concat old (p :: ps)
      ∧ PyStr.replace_from old new 0 s = String.concat new (p :: ps)
      ∧ Forall (fun q => ¬ occurs_in old q) (p :: ps).
Proof.
  intros Hold.
  assert (Hempty : ¬ occurs_in old "").
  { intros (a & b & Heq). destruct a; [|rewrite append_cons in Heq; discriminate Heq].
    rewrite append_nil in Heq.
    destruct old; [by apply Hold | rewrite append_cons in Heq; discriminate Heq]. }
  assert (Hbase : ∃ p ps, "" = String.concat old (p :: ps)
                          ∧ PyStr.replace_from old new 0 "" = String.concat new (p :: ps)
                          ∧ Forall (fun q => ¬ occurs_in old q) (p :: ps)).
  { exists "", []. split; [reflexivity|]. split; [reflexivity|].
    apply Forall_cons_2; [exact Hempty | apply Forall_nil_2]. }
  induction n as [|n IH]; intros s Hlen.
  { destruct s; [exact Hbase | cbn [String.length] in Hlen; lia]. }
  destruct s as [|c s]; [exact Hbase|]. cbn [String.length] in Hlen.
  cbn [PyStr.replace_from].
  destruct (PyStr.startswith old (String c s)) eqn:Hstart.
  - apply startswith_append in Hstart as [r Hr].
    destruct old as [|o old'] eqn:Heq; [by destruct Hold|].
    rewrite append_cons in Hr. injection Hr as -> ->.
    replace (String.length (String o old') - 1)%nat with (String.length old')
      by (cbn [String.length]; lia).
    rewrite replace_skip.
    destruct (IH r) as (p & ps & Hs & Hrep & Hall).
    { rewrite length_append in Hlen. lia. }
    exists "", (p :: ps). split; [|split].
    + rewrite concat_cons_empty, <- Hs. reflexivity.
    + rewrite concat_cons_empty, <- Hrep. reflexivity.
    + apply Forall_cons_2; [exact Hempty | exact Hall].
  - destruct (IH s) as (p & ps & Hs & Hrep & Hall); [lia|].
    exists (String c p), ps. split; [|split].
    + rewrite concat_cons_char, <- Hs. reflexivity.
    + rewrite concat_cons_char, <- Hrep. reflexivity.
    + apply Forall_cons in Hall as [Hp Hps]. apply Forall_cons_2; [|exact Hps].
      intros (a & b & Hocc).
      destruct a as [|x a]; [rewrite append_nil in Hocc | rewrite append_cons in Hocc].
      * assert (Htrue : PyStr.startswith old (String c s) = true); [|congruence].
        apply startswith_append. destruct (concat_head old p ps) as [tail Htail].
        exists (String.append b tail).
        rewrite Hs, Htail, <- append_assoc, <- Hocc. reflexivity.
      * injection Hocc as _ Hocc. apply Hp. by exists a, b.
Qed.

Lemma replace_spec (old new s : string) :
  old ≠ "" → replaced old new s (PyStr.replace old new s).
Proof.
  intros Hold.
  destruct (replace_pieces old new Hold (String.length s) s) as (p & ps & Hs & Hrep & Hall);
    [lia|].
  exists (p :: ps). split; [exact Hs|]. split; [exact Hrep | exact Hall].
Qed.

Lemma lstrip_blank (s : string) :
  ∃ l, s = String.append l (PyStr.lstrip_with PyStr.is_space s) ∧ blank l = true.
Proof.
  induction s as [|c s (l & Hs & Hl)]; [by exists ""|]. cbn [PyStr.lstrip_with].
  destruct (PyStr.is_space c) eqn:Hc.
  - exists (String c l). rewrite append_cons. cbn [blank]. rewrite Hc, Hl, <- Hs. done.
  - by exists "".
Qed.

Lemma lstrip_head (s u : string) (c : ascii) :
  PyStr.lstrip_with PyStr.is_space s = String c u → PyStr.is_space c = false.
Proof.
  induction s as [|a s IH]; [discriminate|]. cbn [PyStr.lstrip_with].
  destruct (PyStr.is_space a) eqn:Ha; [exact IH|]. by intros [= <- _].
Qed.

Lemma rstrip_blank (u : string) :
  ∃ r, u = String.append (PyStr.rstrip_with PyStr.is_space u) r ∧ blank r = true.
Proof.
  induction u as [|c u (r & Hu & Hr)]; [by exists ""|]. cbn [PyStr.rstrip_with].
  destruct (PyStr.rstrip_with PyStr.is_space u) as [|d x].
  - rewrite append_nil in Hu. subst u. destruct (PyStr.is_space c) eqn:Hc.
    + exists (String c r). rewrite append_nil. cbn [blank]. by rewrite Hc, Hr.
    + by exists r.
  - exists r. rewrite !append_cons in *. by rewrite <- Hu.
Qed.

Lemma rstrip_last (u v : string) (c : ascii) :
  PyStr.rstrip_with PyStr.is_space u = String.append v (String c "") →
  PyStr.is_space c = false.
Proof.
  revert v. induction u as [|a u IH]; intros v; cbn [PyStr.rstrip_with].
  - destruct v; [rewrite append_nil | rewrite append_cons]; discriminate.
  - destruct (PyStr.rstrip_with PyStr.is_space u) as [|d x].
    + destruct (PyStr.is_space a) eqn:Ha.
      * destruct v; [rewrite append_nil | rewrite append_cons]; discriminate.
      * destruct v as [|b v]; [rewrite append_nil | rewrite append_cons].
        -- by intros [= <-].
        -- intros [= _ Hv]. destruct v; [rewrite append_nil in Hv | rewrite append_cons in Hv];
             discriminate Hv.
    + destruct v as [|b v]; [rewrite append_nil | rewrite append_cons].
      * discriminate.
      * intros [= _ Hv]. by apply (IH v).
Qed.

(** [s.strip()] has no white space at its ends and differs from [s] by
    white space at the ends only. *)
Lemma strip_spec (t : string) : stripped t (PyStr.strip t).
Proof.
  unfold PyStr.strip. destruct (lstrip_blank t) as (l & Ht & Hl).
  destruct (rstrip_blank (PyStr.lstrip_with PyStr.is_space t)) as (r & Hu & Hr).
  exists l, r. split; [by rewrite <- Hu|]. split; [exact Hl|]. split; [exact Hr|]. split.
  - intros c u Hs. rewrite Hs, append_cons in Hu.
    by apply (lstrip_head t _ c Hu).
  - intros c u Hs. by apply (rstrip_last _ u c Hs).
Qed.

Lemma decode_text_spec (t : string) :
  ∃ t1 t2,
    replaced carriage_return_entity newline t t1
    ∧ replaced ampersand_entity "&" t1 t2
    ∧ stripped t2 (decode_text t).
Proof.
  eexists _, _. split; [|split].
  - by apply replace_spec.
  - by apply replace_spec.
  - apply strip_spec.
Qed.
(** ** The normaliser and the loader on the columns of the claims *)

Section Columns.
Context `{Pandas}.

Lemma well_labelled_normalise (df : DataFrame Timestamp) :
  well_labelled df = true → ∃ df', normalise df = Ok df'.
Proof.
  intros Hwl. pose proof (normalise_well_labelled df) as Hn. rewrite Hwl in Hn. by eexists.
Qed.

Lemma text_not_date (col : string) :
  col ∈ text_columns → (col ∉ date_columns) ∧ col ≠ "MDRM_Identifier".
Proof.
  unfold text_columns, date_columns. rewrite !elem_of_cons, !elem_of_nil.
  intros [->|[->|[->|[]]]]; (split; [intros [|[|[]]]|]); discriminate.
Qed.

Lemma date_not_identifier (col : string) : col ∈ date_columns → col ≠ "MDRM_Identifier".
Proof.
  unfold date_columns. rewrite !elem_of_cons, !elem_of_nil.
  intros [->|[->|[]]]; discriminate.
Qed.

Lemma text_column_normalised (df df' : DataFrame Timestamp) (col : string) :
  normalise df = Ok df' →
  col ∈ text_columns →
  select df' col = decoded <$> select (clean_columns df) col.
Proof.
  intros Hok Hcol. destruct (text_not_date col Hcol) as [Hd Hid].
  rewrite (normalise_select df df' col Hok Hid).
  rewrite (bool_decide_eq_false_2 _ Hd), (bool_decide_eq_true_2 _ Hcol). reflexivity.
Qed.

Lemma date_column_normalised (df df' : DataFrame Timestamp) (col : string) :
  normalise df = Ok df' →
  col ∈ date_columns →
  select df' col = to_datetime <$> select (clean_columns df) col.
Proof.
  intros Hok Hcol.
  rewrite (normalise_select df df' col Hok (date_not_identifier col Hcol)).
  rewrite (bool_decide_eq_true_2 _ Hcol). reflexivity.
Qed.

Lemma has_column_normalise (df df' : DataFrame Timestamp) (k : string) :
  normalise df = Ok df' →
  k ≠ "MDRM_Identifier" →
  has_column df' k = has_column (clean_columns df) k.
Proof.
  intros Hok Hk. unfold has_column. rewrite (normalise_labels df df' Hok).
  apply bool_decide_ext. rewrite elem_of_app. split; [|by left].
  intros [Hin|Hin]; [exact Hin|]. destruct (_ && _ && _); [|by apply elem_of_nil in Hin].
  apply list_elem_of_singleton in Hin. contradiction.
Qed.

Lemma forallb_false_at {A} (p : A → bool) (l : list A) (x : A) :
  x ∈ l → p x = false → forallb p l = false.
Proof.
  intros Hin Hx. apply not_true_is_false. intros Hall. rewrite forallb_forall in Hall.
  rewrite (Hall x) in Hx; [discriminate Hx|]. by apply list_elem_of_In.
Qed.

Lemma text_field_stored (df : DataFrame Timestamp) (clk : Clock) (i : nat) (col : string) :
  col ∈ text_columns →
  (col, table_label col) ∈ columns_mapping
  ∧ text_field col (stored_row df clk i) = stored df (table_label col) i.
Proof.
  unfold text_columns. rewrite !elem_of_cons, elem_of_nil.
  intros [->|[->|[->|[]]]]; (split; [|reflexivity]);
    apply (bool_decide_unpack _); vm_compute; exact I.
Qed.

(** C4, as amended. When one column carries the label of a text column,
    the normaliser returns, and each value [v] of the column has become a
    text [t3]: the text [str(v)], with every carriage-return entity
    replaced by a newline ([t1]), then every ampersand entity replaced
    by an ampersand ([t2]), then without the white space at its two
    ends. The column keeps its length and nothing else is done to it.
    When several columns carry the label once the labels are cleaned,
    the normaliser raises: an [AttributeError], unless a date label is
    carried by several columns as well, which raises a [ValueError]
    before. *)
Theorem text_columns_decoded (df : DataFrame Timestamp) (col : string) :
  col ∈ text_columns →
  (at_most_once (clean_columns df) col = false →
   normalise df = if forallb (at_most_once (clean_columns df)) date_columns
                  then Raise AttributeError else Raise ValueError)
  ∧ (well_labelled df = true →
     ∃ df',
       normalise df = Ok df'
       ∧ ∀ xs, select (clean_columns df) col = [Object xs] →
           ∃ ys,
             select df' col = [Object ys]
             ∧ length ys = length xs
             ∧ ∀ i v, xs !! i = Some v →
                 ∃ t1 t2 t3,
                   replaced carriage_return_entity newline (str_of_value v) t1
                   ∧ replaced ampersand_entity "&" t1 t2
                   ∧ stripped t2 t3
                   ∧ ys !! i = Some (Str t3)).
Proof.
  intros Hcol. split.
  - intros Hmany. rewrite normalise_spec. cbn zeta.
    destruct (forallb _ date_columns); [|reflexivity].
    rewrite (forallb_false_at _ text_columns col Hcol Hmany). reflexivity.
  - intros Hwl. destruct (well_labelled_normalise df Hwl) as [df' Hok].
    exists df'. split; [exact Hok|]. intros xs Hxs.
    exists ((fun t => Str (decode_text t)) <$> (str_of_value <$> xs)).
    split; [|split].
    + rewrite (text_column_normalised df df' col Hok Hcol), Hxs. reflexivity.
    + by rewrite !length_fmap.
    + intros i v Hv. destruct (decode_text_spec (str_of_value v)) as (t1 & t2 & H1 & H2 & H3).
      exists t1, t2, (decode_text (str_of_value v)).
      split; [exact H1|]. split; [exact H2|]. split; [exact H3|].
      rewrite !list_lookup_fmap, Hv. reflexivity.
Qed.

(** C7, as amended. When one column carries the label of a date column,
    the normaliser returns a frame with as many lines, in which a value
    of the column that is missing or that the parser cannot read has
    become [NaT] and every other value its timestamp; a column that
    holds timestamps already is kept. When several columns carry the
    label once the labels are cleaned, [pd.to_datetime] raises a
    [ValueError]. *)
Theorem date_columns_coerced (df : DataFrame Timestamp) (col : string) :
  col ∈ date_columns →
  (at_most_once (clean_columns df) col = false → normalise df = Raise ValueError)
  ∧ (well_labelled df = true →
     ∃ df',
       normalise df = Ok df'
       ∧ nrows df' = nrows df
       ∧ ∀ s, select (clean_columns df) col = [s] →
           ∃ ys,
             select df' col = [Datetime64 ys]
             ∧ match s with
               | Datetime64 ts => ys = ts
               | Object xs =>
                   length ys = length xs
                   ∧ ∀ i v, xs !! i = Some v →
                       (∃ t, v ≠ NaN ∧ parse_datetime xs v = Some t
                              ∧ ys !! i = Some (Some t))
                       ∨ ((v = NaN ∨ parse_datetime xs v = None) ∧ ys !! i = Some None)
               end).
Proof.
  intros Hcol. split.
  - intros Hmany. rewrite normalise_spec. cbn zeta.
    rewrite (forallb_false_at _ date_columns col Hcol Hmany). reflexivity.
  - intros Hwl. destruct (well_labelled_normalise df Hwl) as [df' Hok].
    exists df'. split; [exact Hok|]. split; [exact (normalise_nrows df df' Hok)|].
    intros s Hs. pose proof (date_column_normalised df df' col Hok Hcol) as Hdate.
    rewrite Hs in Hdate. destruct s as [xs|ts].
    + exists (to_datetime_scalar xs <$> xs). split; [exact Hdate|]. split.
      * by rewrite length_fmap.
      * intros i v Hi. rewrite list_lookup_fmap, Hi. cbn [fmap option_fmap option_map].
        destruct v as [|t|z]; cbn [to_datetime_scalar].
        -- right. split; [by left | reflexivity].
        -- destruct (parse_datetime xs (Str t)) as [u|] eqn:Hp.
           ++ left. exists u. split; [discriminate|]. split; reflexivity.
           ++ right. split; [by right | reflexivity].
        -- destruct (parse_datetime xs (Int z)) as [u|] eqn:Hp.
           ++ left. exists u. split; [discriminate|]. split; reflexivity.
           ++ right. split; [by right | reflexivity].
    + exists ts. split; [exact Hdate | reflexivity].
Qed.


End Columns.

Section Synthesis.
Context `{Pandas}.

Lemma synthesised_None (d : DataFrame Timestamp) :
  has_column d "Mnemonic" && has_column d "Item Code" = false → synthesised d = None.
Proof.
  rewrite !has_column_select. unfold synthesised.
  destruct (select d "Mnemonic") as [|m [|m' ms]]; [reflexivity| |].
  - destruct (select d "Item Code") as [|c [|c' cs]]; [reflexivity| |].
    + rewrite !bool_decide_eq_false_2 by discriminate. discriminate.
    + reflexivity.
  - reflexivity.
Qed.

(** The columns that reach the table as its identifier are not touched by
    the loops over the date and the text columns. *)
Lemma stored_identifier_cleaned (d : DataFrame Timestamp) (i : nat) :
  stored (cleaned d) "mdrm_identifier" i = stored d "mdrm_identifier" i.
Proof.
  unfold stored, source_column. rewrite columns_cleaned, find_fmap. cbn [fst].
  destruct (List.find _ (columns d)) as [[l s]|] eqn:Hfind; [|reflexivity].
  cbn [fmap option_fmap option_map snd fst mbind option_bind].
  apply find_some in Hfind as [_ Hl]. cbn [fst] in Hl. apply String.eqb_eq in Hl.
  assert (Hcol : "mdrm_identifier" ∈ insert_columns).
  { apply (bool_decide_unpack _). vm_compute. exact I. }
  assert (Hmap : ("MDRM_Identifier", "mdrm_identifier") ∈ columns_mapping).
  { apply (bool_decide_unpack _). vm_compute. exact I. }
  apply (table_label_cases l _ Hcol) in Hl as [->|Hl]; [reflexivity|].
  rewrite (mapping_inj l _ _ Hl Hmap). reflexivity.
Qed.

(** The identifier columns of the result when the identifiers are
    synthesised: there is one at least, and each holds them. *)
Lemma identifier_columns (df df' : DataFrame Timestamp) (s : Series Timestamp) :
  normalise df = Ok df' →
  synthesised (clean_columns df) = Some s →
  head (select df' "MDRM_Identifier") = Some s
  ∧ ∀ x, x ∈ select df' "MDRM_Identifier" → x = s.
Proof.
  intros Hok Hsyn. rewrite (normalise_identifier df df' Hok), Hsyn.
  destruct (has_column (clean_columns df) "MDRM_Identifier") eqn:Hhas.
  - rewrite has_column_select in Hhas.
    destruct (select (clean_columns df) "MDRM_Identifier") as [|x xs].
    + rewrite bool_decide_eq_true_2 in Hhas by reflexivity. discriminate Hhas.
    + split; [reflexivity|]. intros y Hy.
      apply list_elem_of_fmap in Hy as (z & -> & _). reflexivity.
  - split; [reflexivity|]. intros y Hy. by apply list_elem_of_singleton in Hy.
Qed.

(** C3, as amended. On a frame that the normaliser accepts: when both a
    mnemonic and an item-code column are there, every identifier column
    of the result holds, line by line, the text of the mnemonic followed
    by the text of the item code, and a load that completes stores that
    text, provided that no column of the file is named [mdrm_identifier]
    already. When one of the two is absent, the synthesis is skipped and
    the identifier columns are those of the file: the load raises on
    [mdrm_identifier] when there is none, and a load that completes
    stores what the first of them holds, NULL where it holds nothing. *)
Theorem identifier_synthesis (df : DataFrame Timestamp) :
  well_labelled df = true →
  ∃ df',
    normalise df = Ok df'
    ∧ if has_column (clean_columns df) "Mnemonic" && has_column (clean_columns df) "Item Code"
      then
        ∃ m c,
          select (clean_columns df) "Mnemonic" = [m]
          ∧ select (clean_columns df) "Item Code" = [c]
          ∧ select df' "MDRM_Identifier" ≠ []
          ∧ (∀ s, s ∈ select df' "MDRM_Identifier" → s = identifier_series m c)
          ∧ (has_column (clean_columns df) "mdrm_identifier" = false →
             ∀ clk st name db rows i r a b,
               create_database df' clk st = (Ok name, Some db) →
               mdrm_data db = Some rows →
               rows !! i = Some r →
               strings_of m !! i = Some a →
               strings_of c !! i = Some b →
               mdrm_identifier r = Some (String.append a b))
      else
        select df' "MDRM_Identifier" = select (clean_columns df) "MDRM_Identifier"
        ∧ ∀ clk st,
            (has_column (clean_columns df) "MDRM_Identifier" = false →
             has_column (clean_columns df) "mdrm_identifier" = false →
             ∃ missing,
               "mdrm_identifier" ∈ missing
               ∧ create_database df' clk st
                 = (Raise (KeyError missing), Some (mkDb (Some []) None)))
            ∧ (∀ name db rows i r,
                 create_database df' clk st = (Ok name, Some db) →
                 mdrm_data db = Some rows →
                 rows !! i = Some r →
                 mdrm_identifier r = stored (clean_columns df) "mdrm_identifier" i).
Proof.
  intros Hwl. destruct (well_labelled_normalise df Hwl) as [df' Hok].
  exists df'. split; [exact Hok|].
  pose proof (normalise_identifier df df' Hok) as Hid.
  assert (Hmap : ("MDRM_Identifier", "mdrm_identifier") ∈ columns_mapping).
  { apply (bool_decide_unpack _). vm_compute. exact I. }
  set (d := clean_columns df) in *.
  destruct (has_column d "Mnemonic" && has_column d "Item Code") eqn:Hboth.
  - unfold well_labelled in Hwl. cbn zeta in Hwl. fold d in Hwl. rewrite Hboth in Hwl.
    apply andb_true_iff in Hwl as [_ Honce]. cbn [negb orb] in Honce.
    apply andb_true_iff in Honce as [Hm Hc].
    apply once_select in Hm as [m Hm]. apply once_select in Hc as [c Hc].
    exists m, c. split; [exact Hm|]. split; [exact Hc|].
    assert (Hsyn : synthesised d = Some (identifier_series m c)).
    { unfold synthesised. rewrite Hm, Hc. reflexivity. }
    destruct (identifier_columns df df' _ Hok Hsyn) as [Hhead Hall].
    split; [intros Hnil; rewrite Hnil in Hhead; discriminate Hhead|].
    split; [exact Hall|].
    intros Hlow clk st name db rows i r a b Hload Hdata Hr Ha Hb.
    apply stored_rows in Hload as (_ & _ & ->). cbn [mdrm_data] in Hdata.
    injection Hdata as <-.
    apply list_lookup_fmap_Some in Hr as (j & -> & Hj).
    apply lookup_seq in Hj as [-> _]. cbn [plus stored_row mdrm_identifier].
    unfold stored. rewrite (source_column_renamed df' _ _ Hmap).
    + rewrite Hhead. cbn [mbind option_bind]. unfold cell, identifier_series.
      cbn [sql_cell]. rewrite lookup_zip_with, Ha, Hb. reflexivity.
    + rewrite (has_column_normalise df df' _ Hok); [exact Hlow | discriminate].
  - rewrite (synthesised_None d Hboth) in Hid. split; [exact Hid|].
    pose proof (normalise_well_labelled df) as Hn. rewrite Hwl, Hok in Hn.
    fold d in Hn. rewrite (synthesised_None d Hboth) in Hn. apply Ok_inj in Hn.
    intros clk st. split.
    + intros Hupper Hlower.
      apply load_fails_without; [apply (bool_decide_unpack _); vm_compute; exact I|].
      rewrite (has_column_renamed df' _ _ Hmap), Hn, !has_column_cleaned, Hupper, Hlower.
      reflexivity.
    + intros name db rows i r Hload Hdata Hr.
      apply stored_rows in Hload as (_ & _ & ->). cbn [mdrm_data] in Hdata.
      injection Hdata as <-.
      apply list_lookup_fmap_Some in Hr as (j & -> & Hj).
      apply lookup_seq in Hj as [-> _]. cbn [plus stored_row mdrm_identifier].
      rewrite Hn. apply stored_identifier_cleaned.
Qed.

(** C2, as amended. The loader selects the insert columns from the whole
    frame. When a column of the table is not reached, the selection
    raises and leaves the new table empty. When they all are and a value
    cannot be bound, [to_sql] raises, the rows inserted so far are undone
    and the table is left empty as well. Otherwise the load completes and
    stores as many rows as the frame has lines. No row is dropped on its
    own. *)
Theorem load_is_all_or_nothing (df : DataFrame Timestamp) (clk : Clock) (st : Store) :
  if forallb (has_column (rename_columns df)) insert_columns
  then if bindable df
       then ∃ rows t,
              create_database df clk st
              = (Ok "mdrm_database.db", Some (mkDb (Some rows) (Some t)))
              ∧ length rows = nrows df
       else create_database df clk st
            = (Raise OverflowError, Some (mkDb (Some []) None))
  else ∃ missing,
         missing ≠ []
         ∧ create_database df clk st
           = (Raise (KeyError missing), Some (mkDb (Some []) None)).
Proof.
  rewrite create_database_spec.
  destruct (forallb _ insert_columns) eqn:Hall.
  - destruct (bindable df); [|reflexivity].
    do 2 eexists. split; [reflexivity|]. by rewrite length_fmap, length_seq.
  - eexists. split; [|reflexivity]. intros Hnil. apply filter_negb_nil in Hnil. congruence.
Qed.

End Synthesis.

(** ** The claims on the sample file *)

Lemma sample_description :
  select (clean_columns Demo.sample) "Description"
  = [Object [Str " Loans &amp; leases&#x0D;net "; NaN]].
Proof. vm_compute. reflexivity. Qed.

Lemma sample_well_labelled : well_labelled Demo.sample = true.
Proof. vm_compute. reflexivity. Qed.

Lemma sample_normalised : normalise Demo.sample = Ok Demo.normalised.
Proof. vm_compute. reflexivity. Qed.

Lemma sample_loaded :
  create_database Demo.normalised Demo.clock None
  = (Ok "mdrm_database.db",
     Some (mkDb (Some Demo.rows) (Some (summary_map Demo.clock Demo.rows)))).
Proof. vm_compute. reflexivity. Qed.

Lemma text_columns_decoded_witness :
  ∃ df' ys,
    normalise Demo.sample = Ok df'
    ∧ select df' "Description" = [Object ys]
    ∧ length ys = 2
    ∧ ∀ i v, [Str " Loans &amp; leases&#x0D;net "; NaN] !! i = Some v →
        ∃ t1 t2 t3,
          replaced carriage_return_entity newline (str_of_value v) t1
          ∧ replaced ampersand_entity "&" t1 t2
          ∧ stripped t2 t3
          ∧ ys !! i = Some (Str t3).
Proof.
  destruct (@text_columns_decoded Demo.pandas Demo.sample "Description") as [_ Hdecoded].
  - apply (bool_decide_unpack _). vm_compute. exact I.
  - destruct (Hdecoded sample_well_labelled) as (df' & Hok & Hcol).
    destruct (Hcol _ sample_description) as (ys & Hys & Hlen & Hall).
    exists df', ys. split; [exact Hok|]. split; [exact Hys|]. split; [exact Hlen | exact Hall].
Defined.

Lemma date_columns_coerced_witness :
  ∃ df' ys,
    normalise Demo.sample = Ok df'
    ∧ nrows df' = nrows Demo.sample
    ∧ select df' "End Date" = [Datetime64 ys]
    ∧ length ys = 2
    ∧ ∀ i v, [Str "9999-12-31"; Str "2010-06-30"] !! i = Some v →
             (∃ t, v ≠ NaN
                   ∧ parse_datetime [Str "9999-12-31"; Str "2010-06-30"] v = Some t
                   ∧ ys !! i = Some (Some t))
             ∨ ((v = NaN ∨ parse_datetime [Str "9999-12-31"; Str "2010-06-30"] v = None)
                ∧ ys !! i = Some None).
Proof.
  destruct (@date_columns_coerced Demo.pandas Demo.sample "End Date") as [_ Hcoerced].
  - apply (bool_decide_unpack _). vm_compute. exact I.
  - destruct (Hcoerced sample_well_labelled) as (df' & Hok & Hn & Hcol).
    assert (Hs : select (clean_columns Demo.sample) "End Date"
                 = [Object [Str "9999-12-31"; Str "2010-06-30"]]) by (vm_compute; reflexivity).
    destruct (Hcol _ Hs) as (ys & Hys & Hlen & Hall).
    exists df', ys. split; [exact Hok|]. split; [exact Hn|]. split; [exact Hys|].
    split; [exact Hlen | exact Hall].
Defined.


Lemma identifier_synthesis_witness :
  ∃ df' r,
    normalise Demo.sample = Ok df'
    ∧ select df' "MDRM_Identifier" = [Object [Str "RCON2170"; Str "RCFDA123"]]
    ∧ create_database df' Demo.clock None
      = (Ok "mdrm_database.db",
         Some (mkDb (Some Demo.rows) (Some (summary_map Demo.clock Demo.rows))))
    ∧ Demo.rows !! 0 = Some r
    ∧ mdrm_identifier r = Some "RCON2170".
Proof.
  destruct (@identifier_synthesis Demo.pandas Demo.sample sample_well_labelled)
    as (df' & Hok & Hid).
  assert (Hboth : has_column (clean_columns Demo.sample) "Mnemonic"
                  && has_column (clean_columns Demo.sample) "Item Code" = true)
    by (vm_compute; reflexivity).
  rewrite Hboth in Hid. destruct Hid as (m & c & Hm & Hc & _ & _ & Hstored).
  assert (Hm' : select (clean_columns Demo.sample) "Mnemonic"
                = [Object [Str "RCON"; Str "RCFD"]]) by (vm_compute; reflexivity).
  assert (Hc' : select (clean_columns Demo.sample) "Item Code"
                = [Object [Int 2170; Str "A123"]]) by (vm_compute; reflexivity).
  rewrite Hm' in Hm. rewrite Hc' in Hc. injection Hm as <-. injection Hc as <-.
  rewrite sample_normalised in Hok. apply Ok_inj in Hok. subst df'.
  assert (Hlow : has_column (clean_columns Demo.sample) "mdrm_identifier" = false)
    by (vm_compute; reflexivity).
  eexists _, _. split; [exact sample_normalised|].
  split; [vm_compute; reflexivity|]. split; [exact sample_loaded|]. split; [reflexivity|].
  exact (Hstored Hlow Demo.clock None _ _ _ 0 _ "RCON" "2170" sample_loaded eq_refl eq_refl
           eq_refl eq_refl).
Defined.

(** C3, the claim as stated. The frame [Demo.incomplete] has no item-code
    column: no identifier is synthesised, and the load raises instead of
    storing rows with a NULL identifier; [main] exits with status 1 and
    leaves an empty table. *)
Lemma absent_item_code_stores_nothing :
  ∃ df',
    normalise Demo.incomplete = Ok df'
    ∧ select df' "MDRM_Identifier" = []
    ∧ main (Some Demo.incomplete_file) Demo.clock None = (1, Some (mkDb (Some []) None))
    ∧ create_database df' Demo.clock None
      = (Raise (KeyError ["mdrm_identifier"; "item_code"]), Some (mkDb (Some []) None))
    ∧ ¬ stores_null_identifiers df' Demo.clock None.
Proof.
  eexists. split; [vm_compute; reflexivity|].
  split; [vm_compute; reflexivity|].
  split; [vm_compute; reflexivity|].
  assert (Hload : ∀ x : result string * Store,
            x = (Raise (KeyError ["mdrm_identifier"; "item_code"]), Some (mkDb (Some []) None)) →
                       ¬ ∃ name db rows,
                           x = (Ok name, Some db) ∧ mdrm_data db = Some rows
                           ∧ length rows = 2 ∧ ∀ r, r ∈ rows → mdrm_identifier r = None).
  { intros x -> (name & db & rows & Hx & _). discriminate Hx. }
  split; [vm_compute; reflexivity|].
  apply Hload. vm_compute. reflexivity.
Qed.

(** C2, the claim as stated. The lines of [Demo.incomplete] lack a column
    of the insert list: the load does not complete without them, it
    raises, and [main] exits with status 1. *)
Lemma missing_column_aborts_load :
  ∃ df',
    normalise Demo.incomplete = Ok df'
    ∧ (main (Some Demo.incomplete_file) Demo.clock None).1 = 1
    ∧ create_database df' Demo.clock None
      = (Raise (KeyError ["mdrm_identifier"; "item_code"]), Some (mkDb (Some []) None))
    ∧ ¬ load_completes df' Demo.clock None.
Proof.
  eexists. split; [vm_compute; reflexivity|].
  split; [vm_compute; reflexivity|].
  assert (Hload : ∀ x : result string * Store,
            x = (Raise (KeyError ["mdrm_identifier"; "item_code"]), Some (mkDb (Some []) None)) →
            ¬ ∃ name db, x = (Ok name, Some db)).
  { intros x -> (name & db & Hx). discriminate Hx. }
  split; [vm_compute; reflexivity|].
  apply Hload. vm_compute. reflexivity.
Qed.

(** C4, the claim as stated. In [Demo.two_descriptions] two labels become
    [Description] when they are cleaned: the normaliser raises at the
    first statement on that label, and no text is decoded. *)
Lemma second_description_raises :
  labels Demo.two_descriptions !! 8 = Some "Description"
  ∧ labels Demo.two_descriptions !! 10 = Some "Description "
  ∧ select (clean_columns Demo.two_descriptions) "Description"
    = [Object [Str " Loans &amp; leases&#x0D;net "; NaN]; Object [Str "x"; Str "y"]]
  ∧ normalise Demo.two_descriptions = Raise AttributeError.
Proof. repeat split; vm_compute; reflexivity. Qed.

(** C7, the claim as stated. In [Demo.two_end_dates] two labels become
    [End Date] when they are cleaned: [pd.to_datetime] raises on the
    frame that [df['End Date']] then is, whatever the values are. *)
Lemma second_end_date_raises :
  labels Demo.two_end_dates !! 3 = Some "End Date "
  ∧ labels Demo.two_end_dates !! 10 = Some "End Date"
  ∧ select (clean_columns Demo.two_end_dates) "End Date"
    = [Object [Str "9999-12-31"; Str "2010-06-30"]; Object [NaN; Str "2011-01-01"]]
  ∧ normalise Demo.two_end_dates = Raise ValueError.
Proof. repeat split; vm_compute; reflexivity. Qed.


(** ** Reading the source file *)

Section Reading.
Context `{Pandas}.

Lemma main_fails (bytes : list Byte.byte) (clk : Clock) (st : Store) :
  is_ok (clean_csv_data bytes).2 = false → main (Some bytes) clk st = (1, st).
Proof. unfold main. by destruct (clean_csv_data bytes).2. Qed.

Lemma is_ok_normalise (df : DataFrame Timestamp) : is_ok (normalise df) = well_labelled df.
Proof.
  pose proof (normalise_well_labelled df) as Hn.
  destruct (well_labelled df); [by rewrite Hn | exact Hn].
Qed.

(** C6, as amended. When the read under UTF-8 raises a decoding error,
    the normaliser reads the file once more, under Latin-1, and no third
    time; when the second read raises, [main] exits with status 1 and
    leaves the store alone. Another error of the first read is not
    retried. A frame that was read, under either encoding, is normalised
    without error exactly when it is well labelled; otherwise the
    normaliser raises, and [main] exits with status 1 whenever it does. *)
Theorem encoding_retry (bytes : list Byte.byte) :
  (read_csv bytes UTF8 = Raise UnicodeDecodeError →
     (clean_csv_data bytes).1 = [UTF8; Latin1]
     ∧ (∀ df, read_csv bytes Latin1 = Ok df →
              is_ok (clean_csv_data bytes).2 = well_labelled df)
     ∧ (is_ok (read_csv bytes Latin1) = false → is_ok (clean_csv_data bytes).2 = false))
  ∧ (∀ df, read_csv bytes UTF8 = Ok df →
       (clean_csv_data bytes).1 = [UTF8]
       ∧ is_ok (clean_csv_data bytes).2 = well_labelled df)
  ∧ (∀ e, read_csv bytes UTF8 = Raise e → e ≠ UnicodeDecodeError →
       (clean_csv_data bytes).1 = [UTF8]
       ∧ is_ok (clean_csv_data bytes).2 = false)
  ∧ (is_ok (clean_csv_data bytes).2 = false →
     ∀ clk st, main (Some bytes) clk st = (1, st)).
Proof.
  split; [|split; [|split]].
  - intros Hutf8.
    assert (Hclean : clean_csv_data bytes
                     = ([UTF8; Latin1], df ← read_csv bytes Latin1; normalise df)).
    { unfold clean_csv_data, read_source. rewrite Hutf8. reflexivity. }
    rewrite Hclean. cbn [fst snd]. split; [reflexivity|]. split.
    + intros df ->. cbn [mbind result_bind]. apply is_ok_normalise.
    + by destruct (read_csv bytes Latin1).
  - intros df Hutf8.
    assert (Hclean : clean_csv_data bytes = ([UTF8], normalise df)).
    { unfold clean_csv_data, read_source. rewrite Hutf8. reflexivity. }
    rewrite Hclean. cbn [fst snd]. split; [reflexivity | apply is_ok_normalise].
  - intros e Hutf8 He.
    assert (Hclean : clean_csv_data bytes = ([UTF8], Raise e)).
    { unfold clean_csv_data, read_source. rewrite Hutf8. by destruct e. }
    rewrite Hclean. split; reflexivity.
  - intros Hfail clk st. by apply main_fails.
Qed.

End Reading.

Lemma encoding_retry_witness :
  (clean_csv_data Demo.latin1_file).1 = [UTF8; Latin1]
  ∧ is_ok (clean_csv_data Demo.latin1_file).2 = well_labelled Demo.sample
  ∧ (clean_csv_data Demo.ascii_file).1 = [UTF8]
  ∧ is_ok (clean_csv_data Demo.ascii_file).2 = well_labelled Demo.sample.
Proof.
  destruct (@encoding_retry Demo.pandas Demo.latin1_file) as (Hretry & _).
  destruct (Hretry eq_refl) as (Htried & Hok & _).
  destruct (@encoding_retry Demo.pandas Demo.ascii_file) as (_ & Hfirst & _).
  destruct (Hfirst Demo.sample eq_refl) as (Htried' & Hok').
  exact (conj Htried (conj (Hok Demo.sample eq_refl) (conj Htried' Hok'))).
Defined.

(** C6, the claim as stated. The file [Demo.two_end_dates_file] decodes
    under UTF-8 and is read once, but it is not processed without error:
    two of its labels become [End Date], the normaliser raises, and
    [main] exits with status 1. *)
Lemma decoded_file_is_rejected :
  read_csv Demo.two_end_dates_file UTF8 = Ok Demo.two_end_dates
  ∧ (clean_csv_data Demo.two_end_dates_file).1 = [UTF8]
  ∧ (clean_csv_data Demo.two_end_dates_file).2 = Raise ValueError
  ∧ main (Some Demo.two_end_dates_file) Demo.clock None = (1, None).
Proof. repeat split; vm_compute; reflexivity. Qed.
(** ** Running the pipeline again *)

Section Erasure.
Variable g : Row → Row.

Lemma filter_fmap_row (p : Row → bool) (rows : list Row) :
  (∀ r, p (g r) = p r) →
  List.filter p (g <$> rows) = g <$> List.filter p rows.
Proof.
  intros Hp. induction rows as [|r rows IH]; [reflexivity|].
  rewrite fmap_cons. cbn [List.filter]. rewrite Hp, IH.
  destruct (p r); reflexivity.
Qed.

Lemma omap_fmap_row (col : Row → option string) (rows : list Row) :
  (∀ r, col (g r) = col r) → omap col (g <$> rows) = omap col rows.
Proof.
  intros Hcol. induction rows as [|r rows IH]; [reflexivity|].
  rewrite fmap_cons. cbn [omap list_omap]. rewrite Hcol.
  cbn [omap list_omap] in IH. rewrite IH. reflexivity.
Qed.

Lemma count_where_fmap_row (p : Row → option bool) (rows : list Row) :
  (∀ r, p (g r) = p r) → Sql.count_where p (g <$> rows) = Sql.count_where p rows.
Proof.
  intros Hp. unfold Sql.count_where. rewrite filter_fmap_row.
  - apply length_fmap.
  - intros r. rewrite Hp. reflexivity.
Qed.

Lemma count_distinct_fmap_row (col : Row → option string) (p : Row → option bool)
    (rows : list Row) :
  (∀ r, col (g r) = col r) → (∀ r, p (g r) = p r) →
  Sql.count_distinct col p (g <$> rows) = Sql.count_distinct col p rows.
Proof.
  intros Hcol Hp. unfold Sql.count_distinct. rewrite filter_fmap_row.
  - rewrite omap_fmap_row by exact Hcol. reflexivity.
  - intros r. rewrite Hp. reflexivity.
Qed.

Lemma group_count_fmap_row (col : Row → option string) (p : Row → option bool)
    (rows : list Row) :
  (∀ r, col (g r) = col r) → (∀ r, p (g r) = p r) →
  Sql.group_count col p (g <$> rows) = Sql.group_count col p rows.
Proof.
  intros Hcol Hp. unfold Sql.group_count. rewrite filter_fmap_row.
  - rewrite omap_fmap_row by exact Hcol. apply list_fmap_ext. intros _ k _.
    f_equal. apply count_where_fmap_row. intros r. rewrite Hcol. reflexivity.
  - intros r. rewrite Hp. reflexivity.
Qed.
End Erasure.

(** The statistics read the rows apart from their [created_at]. *)
Lemma stats_queries_erase (today : string) (rows : list Row) :
  Forall (fun q : string * (list Row → nat) => q.2 (without_created_at <$> rows) = q.2 rows)
         (stats_queries today)
  ∧ item_type_distribution (without_created_at <$> rows) = item_type_distribution rows.
Proof.
  split.
  - unfold stats_queries. repeat apply Forall_cons_2; cbn [snd]; try apply Forall_nil_2.
    + apply length_fmap.
    + by apply count_distinct_fmap_row.
    + by apply count_distinct_fmap_row.
    + by apply count_distinct_fmap_row.
    + by apply count_where_fmap_row.
    + by apply count_where_fmap_row.
    + by apply count_where_fmap_row.
    + by apply count_where_fmap_row.
  - by apply group_count_fmap_row.
Qed.

Lemma summary_values (clk : Clock) (rows : list Row) :
  statistic_value <$> summary_map clk rows
  = list_to_map ((fun g : string * nat =>
                    (String.append "item_type_" g.1, PyStr.str_of_nat g.2))
                 <$> item_type_distribution rows)
    ∪ list_to_map ((fun q : string * (list Row → nat) => (q.1, PyStr.str_of_nat (q.2 rows)))
                   <$> stats_queries (current_date clk)).
Proof.
  unfold summary_map. rewrite map_fmap_union, <- !list_to_map_fmap, <- !list_fmap_compose.
  reflexivity.
Qed.

(** Two tables that differ in [created_at] only have the same statistics,
    apart from the two that compare with the current date. *)
Lemma summary_values_erase (clk1 clk2 : Clock) (rows1 rows2 : list Row) :
  without_created_at <$> rows1 = without_created_at <$> rows2 →
  without_active_expired (statistic_value <$> summary_map clk1 rows1)
  = without_active_expired (statistic_value <$> summary_map clk2 rows2)
  ∧ (current_date clk1 = current_date clk2 →
     statistic_value <$> summary_map clk1 rows1 = statistic_value <$> summary_map clk2 rows2).
Proof.
  intros Herase.
  assert (Hq : ∀ today, Forall (fun q : string * (list Row → nat) => q.2 rows1 = q.2 rows2)
                               (stats_queries today)).
  { intros today.
    destruct (stats_queries_erase today rows1) as [H1 _].
    destruct (stats_queries_erase today rows2) as [H2 _].
    rewrite Forall_forall in H1, H2. apply Forall_forall. intros q Hin.
    rewrite <- (H1 q Hin), <- (H2 q Hin), Herase. reflexivity. }
  assert (Hg : item_type_distribution rows1 = item_type_distribution rows2).
  { destruct (stats_queries_erase "" rows1) as [_ H1].
    destruct (stats_queries_erase "" rows2) as [_ H2].
    rewrite <- H1, <- H2, Herase. reflexivity. }
  assert (Hsame : ∀ today,
            (fun q : string * (list Row → nat) => (q.1, PyStr.str_of_nat (q.2 rows1)))
              <$> stats_queries today
            = (fun q : string * (list Row → nat) => (q.1, PyStr.str_of_nat (q.2 rows2)))
                <$> stats_queries today).
  { intros today. apply list_fmap_ext. intros i q Hi.
    pose proof (Hq today) as Hall. rewrite Forall_lookup in Hall.
    rewrite (Hall i q Hi). reflexivity. }
  rewrite !summary_values, Hg, (Hsame (current_date clk1)). split.
  - apply map_eq. intros k. unfold without_active_expired.
    rewrite !lookup_delete, !lookup_union. unfold stats_queries.
    rewrite !fmap_cons, !list_to_map_cons. cbn [fst snd].
    rewrite !lookup_insert. repeat case_decide; reflexivity.
  - intros ->. reflexivity.
Qed.

Section Idempotence.
Context `{Pandas}.

(** Without the removal of the file, a second load would stop at
    [CREATE TABLE]. *)
Lemma load_on_loaded_database (df : DataFrame Timestamp) (clk : Clock) (db : Database)
    (rows : list Row) :
  mdrm_data db = Some rows → load df clk db = (Raise OperationalError, db).
Proof. intros Hdata. unfold load, create_table_mdrm_data. rewrite Hdata. reflexivity. Qed.

(** C5. Run twice on the same source file, from any store and at any two
    times, the pipeline ends with the same status, leaves the same fact
    table up to [created_at], keys included, and the same statistics
    apart from [active_items] and [expired_items]; these two agree as
    well when the current date is the same. The second run does not see
    what the first one left, since the loader removes the store
    before it creates it. *)
Theorem pipeline_idempotent (csv : option (list Byte.byte)) (clk1 clk2 : Clock) (st : Store) :
  let run1 := main csv clk1 st in
  let run2 := main csv clk2 run1.2 in
  run2.1 = run1.1
  ∧ fact_table run2.2 = fact_table run1.2
  ∧ without_active_expired <$> statistics run2.2
    = without_active_expired <$> statistics run1.2
  ∧ (current_date clk1 = current_date clk2 → statistics run2.2 = statistics run1.2).
Proof.
  cbn zeta. unfold main. destruct csv as [bytes|]; [|done].
  destruct (clean_csv_data bytes).2 as [df|e]; [|done].
  rewrite !create_database_spec.
  destruct (forallb (has_column (rename_columns df)) insert_columns); [|done].
  destruct (bindable df); [|done].
  cbn [fst snd fact_table statistics mdrm_data mdrm_summary fmap option_fmap option_map].
  set (rows1 := stored_row df clk1 <$> seq 0 (nrows df)).
  set (rows2 := stored_row df clk2 <$> seq 0 (nrows df)).
  assert (Herase : without_created_at <$> rows2 = without_created_at <$> rows1).
  { subst rows1 rows2. rewrite <- !list_fmap_compose. apply list_fmap_ext.
    intros _ i _. reflexivity. }
  destruct (summary_values_erase clk2 clk1 rows2 rows1 Herase) as [Hstats Hsame].
  split; [reflexivity|]. split; [by rewrite Herase|].
  split; [by rewrite Hstats|]. intros Hdate. by rewrite Hsame.
Qed.

End Idempotence.

Lemma pipeline_idempotent_witness :
  let run1 := main (Some Demo.ascii_file) Demo.clock None in
  let run2 := main (Some Demo.ascii_file) Demo.later run1.2 in
  run2.1 = run1.1
  ∧ fact_table run2.2 = fact_table run1.2
  ∧ without_active_expired <$> statistics run2.2
    = without_active_expired <$> statistics run1.2
  ∧ (current_date Demo.clock = current_date Demo.later → statistics run2.2 = statistics run1.2).
Proof.
  exact (@pipeline_idempotent Demo.pandas (Some Demo.ascii_file) Demo.clock Demo.later None).
Defined.

(** ** The model on small inputs *)

Example replace_every_carriage_return :
  PyStr.replace "&#x0D;" newline "a&#x0D;b&#x0D;"
  = String.append "a" (String.append newline (String.append "b" newline)).
Proof. reflexivity. Qed.

Example replace_ampersand_once :
  PyStr.replace "&amp;" "&" "R&amp;D &amp;amp; x" = "R&D &amp; x".
Proof. reflexivity. Qed.

Example strip_both_ends :
  PyStr.strip (String.append newline "  a b  ") = "a b".
Proof. reflexivity. Qed.

Example str_of_integers :
  PyStr.str_of_Z 2170 = "2170" ∧ PyStr.str_of_Z 0 = "0" ∧ PyStr.str_of_Z (-5) = "-5".
Proof. repeat split; reflexivity. Qed.

Example rcon_2170 :
  add_value (Str (str_of_value (Str "RCON"))) (Str (str_of_value (Str "2170")))
  = Ok (Str "RCON2170").
Proof. reflexivity. Qed.

(** The sample file loads into [Demo.rows]; its first end date is out of
    range and is stored as NULL. *)
Example sample_loads :
  main (Some Demo.ascii_file) Demo.clock None
  = (0, Some (mkDb (Some Demo.rows) (Some (summary_map Demo.clock Demo.rows)))).
Proof. vm_compute. reflexivity. Qed.

(** A header that uses the names of the table's columns: no identifier is
    synthesised, the load completes and the identifier of the row is
    NULL, as its own column has it. *)
Example table_header_loads :
  ∃ df' db r,
    normalise Demo.table_header = Ok df'
    ∧ create_database df' Demo.clock None = (Ok "mdrm_database.db", Some db)
    ∧ mdrm_data db = Some [r]
    ∧ mdrm_identifier r = None
    ∧ mnemonic r = Some "RCON"
    ∧ item_code r = Some "2170"
    ∧ description r = Some " x ".
Proof.
  eexists _, _, _. split; [vm_compute; reflexivity|]. split; [vm_compute; reflexivity|].
  split; [reflexivity|]. repeat split; reflexivity.
Qed.

(** An item code that does not fit 64 bits cannot be bound: the load
    raises and the table is left empty. *)
Example huge_item_code_aborts :
  ∃ df',
    normalise Demo.huge_item_code = Ok df'
    ∧ bindable df' = false
    ∧ create_database df' Demo.clock None
      = (Raise OverflowError, Some (mkDb (Some []) None)).
Proof.
  eexists. split; [vm_compute; reflexivity|]. split; vm_compute; reflexivity.
Qed.

(** Two lines inserted in different seconds differ in [created_at]. *)
Example ticking_load :
  ∃ db rows,
    create_database Demo.normalised Demo.ticking None = (Ok "mdrm_database.db", Some db)
    ∧ mdrm_data db = Some rows
    ∧ created_at <$> rows = ["2026-11-04 09:30:00"; "2026-11-04 09:30:01"].
Proof.
  eexists _, _. split; [vm_compute; reflexivity|]. split; reflexivity.
Qed.

(** * Further properties of the loader and the aggregator *)

(** ** The item-type rows of the summary *)

Lemma sum_indicator (x : string) (ks : list string) :
  NoDup ks →
  sum_list ((fun k => if decide (k = x) then 1 else 0) <$> ks)
  = if decide (x ∈ ks) then 1 else 0.
Proof.
  induction ks as [|k ks IH]; intros Hnd; [reflexivity|].
  apply NoDup_cons in Hnd as [Hk Hnd]. rewrite fmap_cons. cbn [sum_list].
  rewrite IH by exact Hnd.
  destruct (decide (k = x)) as [->|Hne], (decide (x ∈ ks)) as [Hin|Hnin];
    destruct (decide (x ∈ _ :: ks)) as [Hin'|Hnin']; try reflexivity;
    try contradiction.
  - destruct Hnin'. apply elem_of_cons. by left.
  - destruct Hnin'. apply elem_of_cons. by right.
  - apply elem_of_cons in Hin' as [Heq|Hin']; [by destruct Hne | contradiction].
Qed.

(** Counting each distinct key of a list gives the length of the list. *)
Lemma sum_count_distinct (ks : list string) :
  sum_list ((fun k => length (List.filter (fun x => String.eqb x k) ks)) <$> remove_dups ks)
  = length ks.
Proof.
  induction ks as [|x ks IH]; [reflexivity|].
  assert (Hstep : ∀ D : list string,
            sum_list ((fun k => length (List.filter (fun y => String.eqb y k) (x :: ks))) <$> D)
            = sum_list ((fun k => length (List.filter (fun y => String.eqb y k) ks)) <$> D)
              + sum_list ((fun k => if decide (k = x) then 1 else 0) <$> D)).
  { assert (Hhead : ∀ k, length (List.filter (fun y => String.eqb y k) (x :: ks))
                         = length (List.filter (fun y => String.eqb y k) ks)
                           + (if decide (k = x) then 1 else 0)).
    { intros k. cbn [List.filter].
      destruct (decide (k = x)) as [Heq|Hneq], (String.eqb_spec x k) as [Heq'|Hne];
        cbn [length]; try lia.
      - subst k. contradiction.
      - subst k. contradiction. }
    induction D as [|k D IHD]; [reflexivity|].
    rewrite !fmap_cons. cbn [sum_list]. rewrite IHD, Hhead.
    unfold Datatypes.id. destruct (decide (k = x)); lia. }
  cbn [remove_dups]. destruct (decide_rel elem_of x ks) as [Hin|Hnin].
  - rewrite Hstep, IH, sum_indicator by apply NoDup_remove_dups.
    rewrite (decide_True (P := x ∈ remove_dups ks)) by (by apply elem_of_remove_dups).
    cbn [length]. lia.
  - rewrite fmap_cons. cbn [sum_list]. rewrite Hstep, IH, sum_indicator
      by apply NoDup_remove_dups.
    rewrite (decide_False (P := x ∈ remove_dups ks)) by (by rewrite elem_of_remove_dups).
    cbn [List.filter]. rewrite String.eqb_refl. cbn [length].
    replace (List.filter (fun y => String.eqb y x) ks) with (@nil string); [cbn; lia|].
    symmetry. clear -Hnin. induction ks as [|y ks IH]; [reflexivity|].
    cbn [List.filter]. apply not_elem_of_cons in Hnin as [Hne Hnin].
    destruct (String.eqb_spec y x) as [->|_]; [by destruct Hne | by apply IH].
Qed.

Lemma count_key_omap (col : Row → option string) (k : string) (rows : list Row) :
  Sql.count_where (fun r => Sql.eq (col r) k) rows
  = length (List.filter (fun x => String.eqb x k) (omap col rows)).
Proof.
  unfold Sql.count_where. induction rows as [|r rows IH]; [reflexivity|].
  cbn [List.filter omap list_omap]. cbn [omap list_omap] in IH.
  unfold Sql.eq at 1. destruct (col r) as [x|]; cbn [fmap option_fmap option_map Sql.holds from_option].
  - cbn [List.filter]. destruct (String.eqb x k); cbn [length]; by rewrite IH.
  - exact IH.
Qed.

Lemma group_count_sum (col : Row → option string) (p : Row → option bool) (rows : list Row) :
  sum_list (Sql.group_count col p rows).*2
  = length (omap col (List.filter (fun r => Sql.holds (p r)) rows)).
Proof.
  unfold Sql.group_count. rewrite <- list_fmap_compose.
  rewrite <- (sum_count_distinct (omap col _)). f_equal.
  apply list_fmap_ext. intros _ k _. cbn. apply count_key_omap.
Qed.

Lemma summary_map_item_type (clk : Clock) (rows : list Row) (ty : string) (n : nat) :
  (ty, n) ∈ item_type_distribution rows →
  summary_map clk rows !! String.append "item_type_" ty
  = Some (mkStat (PyStr.str_of_nat n) (current_timestamp clk)).
Proof.
  intros Hin. unfold summary_map. apply lookup_union_Some_l.
  apply elem_of_list_to_map_1.
  - rewrite <- list_fmap_compose.
    change (fst ∘ _) with (String.append "item_type_" ∘ (fst : string * nat → string)).
    rewrite list_fmap_compose.
    apply (@NoDup_fmap_2 _ _ (String.append "item_type_") item_type_key_inj),
      item_types_NoDup.
  - apply list_elem_of_fmap. by exists (ty, n).
Qed.

Lemma filter_twice {A} (p q : A → bool) (l : list A) :
  List.filter p (List.filter q l) = List.filter (fun x => q x && p x) l.
Proof.
  induction l as [|x l IH]; [reflexivity|]. cbn [List.filter].
  destruct (q x); cbn [List.filter andb]; [|exact IH].
  destruct (p x); by rewrite IH.
Qed.

Lemma item_type_distribution_spec (rows : list Row) (ty : string) (n : nat) :
  (ty, n) ∈ item_type_distribution rows ↔
  (∃ r, r ∈ rows ∧ item_type r = Some ty) ∧ ty ≠ ""
  ∧ n = length (List.filter (fun r => bool_decide (item_type r = Some ty)) rows).
Proof.
  unfold item_type_distribution, Sql.group_count.
  set (kept := List.filter (fun r => Sql.holds (Sql.not_blank (item_type r))) rows).
  assert (Hkept : ∀ r, r ∈ kept ↔ r ∈ rows ∧ ∃ t, item_type r = Some t ∧ t ≠ "").
  { intros r. subst kept. rewrite !list_elem_of_In, filter_In.
    unfold Sql.not_blank. destruct (item_type r) as [t|]; cbn.
    - destruct (String.eqb_spec t "") as [->|Hne]; cbn.
      + split; [intros [_ [=]] | intros [_ (t & [= <-] & Ht)]; by destruct Ht].
      + split; [intros [Hr _]; eauto | tauto].
    - split; [intros [_ [=]] | intros [_ (t & [=] & _)]]. }
  assert (Hcount : ∀ k, k ≠ "" →
            Sql.count_where (fun r => Sql.eq (item_type r) k) kept
            = length (List.filter (fun r => bool_decide (item_type r = Some k)) rows)).
  { intros k Hk. unfold Sql.count_where. subst kept. rewrite filter_twice. f_equal.
    apply filter_ext. intros r. rewrite holds_eq. unfold Sql.not_blank.
    destruct (item_type r) as [t|]; cbn [Sql.holds from_option].
    - destruct (String.eqb_spec t "") as [->|Hne]; cbn [negb andb]; [|reflexivity].
      symmetry. apply bool_decide_eq_false_2. intros [= <-]. by destruct Hk.
    - reflexivity. }
  rewrite list_elem_of_fmap. split.
  - intros (k & [= -> ->] & Hk). apply elem_of_remove_dups, list_elem_of_omap in Hk
      as (r & Hr & Hty). apply Hkept in Hr as (Hr & t & Ht & Hne).
    assert (t = k) as -> by congruence.
    split; [by eauto|]. split; [done|]. by apply Hcount.
  - intros ((r & Hr & Hty) & Hne & ->). exists ty. split.
    + f_equal. symmetry. by apply Hcount.
    + apply elem_of_remove_dups, list_elem_of_omap. exists r. split; [|done].
      apply Hkept. eauto.
Qed.

Lemma kept_item_types (rows : list Row) :
  length (omap item_type (List.filter has_item_type rows))
  = length (List.filter has_item_type rows).
Proof.
  induction rows as [|r rows IH]; [reflexivity|]. cbn [List.filter].
  destruct (has_item_type r) eqn:Hr; [|exact IH].
  cbn [omap list_omap]. cbn [omap list_omap] in IH.
  unfold has_item_type, Sql.not_blank in Hr.
  destruct (item_type r); [|discriminate Hr]. cbn [length]. by rewrite IH.
Qed.

(** X1. The aggregator stores one row [item_type_<code>] for each code
    that is neither NULL nor empty, holding the number of rows with that
    code, which is positive; these numbers add up to the number of rows
    whose code is neither NULL nor empty. *)
Theorem item_type_statistics (clk : Clock) (db : Database) (rows : list Row) :
  mdrm_data db = Some rows →
  mdrm_summary db = None →
  ∃ t,
    create_summary_stats clk db = (Ok (), mkDb (Some rows) (Some t))
    ∧ (∀ ty n, (ty, n) ∈ item_type_distribution rows →
         stat t (String.append "item_type_" ty) = Some n
         ∧ ty ≠ ""
         ∧ (0 < n)%nat
         ∧ n = length (List.filter (fun r => bool_decide (item_type r = Some ty)) rows))
    ∧ (∀ r ty, r ∈ rows → item_type r = Some ty → ty ≠ "" →
         ∃ n, (ty, n) ∈ item_type_distribution rows)
    ∧ sum_list (item_type_distribution rows).*2 = length (List.filter has_item_type rows).
Proof.
  intros Hdata Hnew. exists (summary_map clk rows).
  split; [by apply create_summary_stats_ok|]. split; [|split].
  - intros ty n Hin. split.
    + unfold stat. rewrite (summary_map_item_type clk rows ty n Hin). cbn.
      apply int_of_str_of_nat.
    + apply item_type_distribution_spec in Hin as ((r & Hr & Hty) & Hne & ->).
      split; [exact Hne|]. split; [|reflexivity].
      apply list_elem_of_In in Hr.
      assert (Hin : In r (List.filter (fun r => bool_decide (item_type r = Some ty)) rows)).
      { apply filter_In. split; [exact Hr|]. by apply bool_decide_eq_true_2. }
      destruct (List.filter _ rows); [destruct Hin | cbn; lia].
  - intros r ty Hr Hty Hne. eexists. apply item_type_distribution_spec.
    split; [by eauto|]. split; [exact Hne | reflexivity].
  - unfold item_type_distribution. rewrite group_count_sum. apply kept_item_types.
Qed.

Lemma item_type_statistics_witness :
  ∃ t,
    create_summary_stats Demo.clock (mkDb (Some Demo.rows) None)
    = (Ok (), mkDb (Some Demo.rows) (Some t))
    ∧ stat t "item_type_F" = Some 1
    ∧ sum_list (item_type_distribution Demo.rows).*2
      = length (List.filter has_item_type Demo.rows).
Proof.
  destruct (item_type_statistics Demo.clock (mkDb (Some Demo.rows) None) Demo.rows
              eq_refl eq_refl) as (t & Hrun & Hrows & _ & Hsum).
  exists t. split; [exact Hrun|]. split; [|exact Hsum].
  apply (Hrows "F" 1). apply (bool_decide_unpack _). vm_compute. exact I.
Defined.

(** ** The keys and the bounds of the summary *)

Lemma list_to_map_is_Some {A} (l : list (string * A)) (k : string) :
  is_Some ((list_to_map l : gmap string A) !! k) ↔ k ∈ l.*1.
Proof.
  rewrite <- not_eq_None_Some. split.
  - intros Hk. destruct (decide (k ∈ l.*1)) as [Hin|Hnin]; [exact Hin|].
    destruct Hk. by apply not_elem_of_list_to_map_1.
  - intros Hin Hnone. by apply not_elem_of_list_to_map in Hnone.
Qed.

Lemma length_remove_dups_le (ks : list string) : (length (remove_dups ks) ≤ length ks)%nat.
Proof.
  induction ks as [|k ks IH]; [reflexivity|]. cbn [remove_dups].
  destruct (decide_rel elem_of k ks); cbn [length]; lia.
Qed.

Lemma length_omap_le {A B} (f : A → option B) (l : list A) :
  (length (omap f l) ≤ length l)%nat.
Proof.
  induction l as [|x l IH]; [reflexivity|]. cbn [omap list_omap]. cbn [omap list_omap] in IH.
  destruct (f x); cbn [length]; lia.
Qed.

Lemma count_where_le (p : Row → option bool) (rows : list Row) :
  (Sql.count_where p rows ≤ length rows)%nat.
Proof. unfold Sql.count_where. apply filter_length_le. Qed.

Lemma count_distinct_le (col : Row → option string) (p : Row → option bool) (rows : list Row) :
  (Sql.count_distinct col p rows ≤ length rows)%nat.
Proof.
  unfold Sql.count_distinct.
  etransitivity; [apply length_remove_dups_le|].
  etransitivity; [apply length_omap_le|]. apply filter_length_le.
Qed.

Lemma summary_map_keys (clk : Clock) (rows : list Row) (k : string) :
  is_Some (summary_map clk rows !! k) ↔
  k ∈ fixed_statistics
  ∨ ∃ ty r, k = String.append "item_type_" ty
            ∧ r ∈ rows ∧ item_type r = Some ty ∧ ty ≠ "".
Proof.
  unfold summary_map. rewrite lookup_union_is_Some, !list_to_map_is_Some.
  rewrite <- !list_fmap_compose. split.
  - intros [Hk|Hk]; [right|left].
    + apply list_elem_of_fmap in Hk as ([ty n] & -> & Hin).
      apply item_type_distribution_spec in Hin as ((r & Hr & Hty) & Hne & _).
      by exists ty, r.
    + exact Hk.
  - intros [Hk|(ty & r & -> & Hr & Hty & Hne)]; [right; exact Hk | left].
    apply list_elem_of_fmap.
    exists (ty, length (List.filter (fun r => bool_decide (item_type r = Some ty)) rows)).
    split; [reflexivity|]. apply item_type_distribution_spec. by eauto.
Qed.

(** X2. The summary table holds the eight fixed statistics and the
    item-type rows, and no other row; a name [item_type_<code>] is there
    exactly when some row of the fact table has that code and the code is
    not empty. *)
Theorem summary_table_keys (clk : Clock) (db : Database) (rows : list Row) :
  mdrm_data db = Some rows →
  mdrm_summary db = None →
  ∃ t,
    create_summary_stats clk db = (Ok (), mkDb (Some rows) (Some t))
    ∧ ∀ k, is_Some (t !! k) ↔
           k ∈ fixed_statistics
           ∨ ∃ ty r, k = String.append "item_type_" ty
                     ∧ r ∈ rows ∧ item_type r = Some ty ∧ ty ≠ "".
Proof.
  intros Hdata Hnew. exists (summary_map clk rows).
  split; [by apply create_summary_stats_ok | apply summary_map_keys].
Qed.

Lemma summary_table_keys_witness :
  ∃ t,
    create_summary_stats Demo.clock (mkDb (Some Demo.rows) None)
    = (Ok (), mkDb (Some Demo.rows) (Some t))
    ∧ is_Some (t !! "item_type_D") ∧ ¬ is_Some (t !! "top_mnemonics").
Proof.
  destruct (summary_table_keys Demo.clock (mkDb (Some Demo.rows) None) Demo.rows
              eq_refl eq_refl) as (t & Hrun & Hkeys).
  exists t. split; [exact Hrun|]. split.
  - apply Hkeys. right. eexists "D", _. split; [reflexivity|].
    split; [apply list_elem_of_further, list_elem_of_here|]. split; [reflexivity | discriminate].
  - intros Hk. apply Hkeys in Hk as [Hk|(ty & r & Hk & _)].
    + revert Hk. apply (bool_decide_unpack _). vm_compute. exact I.
    + discriminate Hk.
Defined.

Lemma fixed_statistic_bounded (clk : Clock) (rows : list Row) (name : string) :
  name ∈ fixed_statistics →
  ∃ n, stat (summary_map clk rows) name = Some n ∧ (n ≤ length rows)%nat.
Proof.
  intros Hname.
  assert (Hall : Forall (fun q : string * (list Row → nat) => (q.2 rows ≤ length rows)%nat)
                        (stats_queries (current_date clk))).
  { unfold stats_queries. repeat apply Forall_cons_2; cbn [snd]; try apply Forall_nil_2.
    - reflexivity.
    - apply count_distinct_le.
    - apply count_distinct_le.
    - apply count_distinct_le.
    - apply count_where_le.
    - apply count_where_le.
    - apply count_where_le.
    - apply count_where_le. }
  assert (Hq : ∃ q, (name, q) ∈ stats_queries (current_date clk)).
  { revert Hname. unfold fixed_statistics, stats_queries. cbn [fmap list_fmap fst].
    rewrite !elem_of_cons, elem_of_nil.
    intros [->|[->|[->|[->|[->|[->|[->|[->|[]]]]]]]]]; eexists;
      repeat (first [apply list_elem_of_here | apply list_elem_of_further]). }
  destruct Hq as [q Hq]. exists (q rows). split; [by apply stat_summary_map|].
  rewrite Forall_forall in Hall. apply (Hall (name, q) Hq).
Qed.

(** X3. None of the fixed statistics exceeds [total_records], which is the
    number of rows of the fact table. *)
Theorem statistics_bounded (clk : Clock) (db : Database) (rows : list Row) :
  mdrm_data db = Some rows →
  mdrm_summary db = None →
  ∃ t,
    create_summary_stats clk db = (Ok (), mkDb (Some rows) (Some t))
    ∧ stat t "total_records" = Some (length rows)
    ∧ ∀ name, name ∈ fixed_statistics → ∃ n, stat t name = Some n ∧ (n ≤ length rows)%nat.
Proof.
  intros Hdata Hnew. exists (summary_map clk rows).
  split; [by apply create_summary_stats_ok|]. split.
  - apply (stat_summary_map clk rows "total_records" (fun rows => length rows)).
    apply list_elem_of_here.
  - apply fixed_statistic_bounded.
Qed.

Lemma statistics_bounded_witness :
  ∃ t,
    create_summary_stats Demo.clock (mkDb (Some Demo.rows) None)
    = (Ok (), mkDb (Some Demo.rows) (Some t))
    ∧ ∃ n, stat t "unique_reporting_forms" = Some n ∧ (n ≤ 2)%nat.
Proof.
  destruct (statistics_bounded Demo.clock (mkDb (Some Demo.rows) None) Demo.rows
              eq_refl eq_refl) as (t & Hrun & _ & Hle).
  exists t. split; [exact Hrun|]. apply Hle.
  apply (bool_decide_unpack _). vm_compute. exact I.
Defined.

(** ** What a run leaves in the store *)

Section Runs.
Context `{Pandas}.


(** X5. A run ends with status 0 or 1. With status 0 the store holds the
    fact table and its summary. With status 1 the store is either the one
    the run found, or a store with an empty fact table and no summary:
    a run that fails never leaves a part of the rows, and it loses what
    the store held when it fails after the file was read. *)
Theorem run_outcomes (csv : option (list Byte.byte)) (clk : Clock) (st : Store) :
  ((main csv clk st).1 = 0 ∧
     ∃ rows, (main csv clk st).2 = Some (mkDb (Some rows) (Some (summary_map clk rows))))
  ∨ ((main csv clk st).1 = 1 ∧
       ((main csv clk st).2 = st
        ∨ ((main csv clk st).2 = Some (mkDb (Some []) None)
           ∧ ∃ bytes df, csv = Some bytes ∧ (clean_csv_data bytes).2 = Ok df))).
Proof.
  unfold main. destruct csv as [bytes|]; [|right; split; [reflexivity | by left]].
  destruct (clean_csv_data bytes).2 as [df|e] eqn:Hclean;
    [|right; split; [reflexivity | by left]].
  rewrite create_database_spec.
  destruct (forallb _ insert_columns); [destruct (bindable df)|]; cbn [fst snd].
  - left. split; [reflexivity|]. by eexists.
  - right. split; [reflexivity|]. right. split; [reflexivity|]. by eauto.
  - right. split; [reflexivity|]. right. split; [reflexivity|]. by eauto.
Qed.

End Runs.

(** The sample file loads; the file without item codes empties a loaded
    store. *)
Lemma sample_runs :
  (main (Some Demo.ascii_file) Demo.clock None).1 = 0
  ∧ main (Some Demo.incomplete_file) Demo.later
         (Some (mkDb (Some Demo.rows) (Some (summary_map Demo.clock Demo.rows))))
    = (1, Some (mkDb (Some []) None)).
Proof. split; vm_compute; reflexivity. Qed.


(** ** Stripped texts *)

Section Strip.
Variable p : ascii → bool.

Lemma lstrip_with_fixed (s : string) :
  PyStr.lstrip_with p (PyStr.lstrip_with p s) = PyStr.lstrip_with p s.
Proof.
  induction s as [|c s IH]; [reflexivity|]. cbn [PyStr.lstrip_with].
  destruct (p c) eqn:Hc; [exact IH|]. cbn [PyStr.lstrip_with]. by rewrite Hc.
Qed.

Lemma rstrip_with_cons (c : ascii) (s : string) :
  PyStr.rstrip_with p (String c s)
  = match PyStr.rstrip_with p s with
    | EmptyString => if p c then EmptyString else String c EmptyString
    | r => String c r
    end.
Proof. reflexivity. Qed.

Lemma rstrip_with_fixed (s : string) :
  PyStr.rstrip_with p (PyStr.rstrip_with p s) = PyStr.rstrip_with p s.
Proof.
  induction s as [|c s IH]; [reflexivity|]. rewrite rstrip_with_cons.
  destruct (PyStr.rstrip_with p s) as [|d r] eqn:Hr.
  - destruct (p c) eqn:Hc; [reflexivity|]. rewrite rstrip_with_cons. cbn. by rewrite Hc.
  - rewrite rstrip_with_cons, IH. reflexivity.
Qed.

(** Stripping the end of a text whose start is stripped leaves its start
    stripped. *)
Lemma lstrip_rstrip (s : string) :
  PyStr.lstrip_with p s = s →
  PyStr.lstrip_with p (PyStr.rstrip_with p s) = PyStr.rstrip_with p s.
Proof.
  destruct s as [|c s]; [reflexivity|]. rewrite rstrip_with_cons. cbn [PyStr.lstrip_with].
  destruct (p c) eqn:Hc.
  - intros Hs. exfalso.
    assert (Hlen : ∀ u, (String.length (PyStr.lstrip_with p u) ≤ String.length u)%nat).
    { induction u as [|a u IH]; [reflexivity|]. cbn [PyStr.lstrip_with].
      destruct (p a); cbn [String.length]; [lia | reflexivity]. }
    pose proof (Hlen s) as Hle. rewrite Hs in Hle. cbn [String.length] in Hle. lia.
  - intros _. destruct (PyStr.rstrip_with p s); cbn [PyStr.lstrip_with]; by rewrite Hc.
Qed.
End Strip.

(** [strip] leaves a stripped text as it is. *)
Lemma strip_strip (s : string) : PyStr.strip (PyStr.strip s) = PyStr.strip s.
Proof.
  unfold PyStr.strip.
  rewrite (lstrip_rstrip PyStr.is_space) by apply lstrip_with_fixed.
  apply rstrip_with_fixed.
Qed.

(** ** What the loaded rows hold *)

Section LoadedRows.
Context `{Pandas}.

Lemma source_labels_free (df : DataFrame Timestamp) (col : string) :
  source_labels df = true → col ∈ insert_columns → has_column df col = false.
Proof.
  intros Hsrc Hcol. unfold source_labels in Hsrc. rewrite forallb_forall in Hsrc.
  apply negb_true_iff, Hsrc. by apply list_elem_of_In.
Qed.

(** A load that completes from a frame whose labels are not names of the
    table found each column under the label that is renamed, and stores
    the first column under that label. *)
Lemma loaded_columns (df : DataFrame Timestamp) (clk : Clock) (st : Store)
    (name : string) (db : Database) (old new : string) :
  source_labels df = true →
  create_database df clk st = (Ok name, Some db) →
  (old, new) ∈ columns_mapping →
  has_column df old = true ∧ source_column df new = head (select df old).
Proof.
  intros Hsrc Hload Hmap.
  assert (Hnew : new ∈ insert_columns).
  { apply list_elem_of_fmap. by exists (old, new). }
  pose proof (source_labels_free df new Hsrc Hnew) as Hfree.
  split; [|by apply source_column_renamed].
  apply stored_rows in Hload as (Hall & _ & _). rewrite forallb_forall in Hall.
  assert (Hreach : has_column (rename_columns df) new = true).
  { apply Hall. by apply list_elem_of_In. }
  rewrite (has_column_renamed df old new Hmap), Hfree in Hreach. exact Hreach.
Qed.

(** X6. In a table loaded from a cleaned frame none of whose labels is a
    name of a column of the table, the item name, the description and the
    series glossary of a row carry no white space at either end:
    stripping them again changes nothing. *)
Theorem stored_texts_stripped (df df' : DataFrame Timestamp) (clk : Clock) (st : Store)
    (name : string) (db : Database) (rows : list Row) (r : Row) (col t : string) :
  normalise df = Ok df' →
  source_labels df' = true →
  create_database df' clk st = (Ok name, Some db) →
  mdrm_data db = Some rows →
  r ∈ rows →
  col ∈ text_columns →
  text_field col r = Some t →
  PyStr.strip t = t.
Proof.
  intros Hok Hsrc Hload Hdata Hr Hcol Ht.
  destruct (text_field_stored df' clk 0 col Hcol) as [Hmap _].
  destruct (loaded_columns df' clk st name db _ _ Hsrc Hload Hmap) as [_ Hsource].
  apply stored_rows in Hload as (_ & _ & ->). cbn [mdrm_data] in Hdata.
  injection Hdata as <-.
  apply list_elem_of_fmap in Hr as (i & -> & _).
  destruct (text_field_stored df' clk i col Hcol) as [_ Hfield].
  rewrite Hfield in Ht. unfold stored in Ht.
  rewrite Hsource, (text_column_normalised df df' col Hok Hcol) in Ht.
  destruct (select (clean_columns df) col) as [|s ss]; [discriminate Ht|].
  cbn [fmap list_fmap head mbind option_bind] in Ht. unfold cell, decoded in Ht.
  cbn [sql_cell] in Ht. rewrite list_lookup_fmap in Ht.
  destruct (strings_of s !! i) as [x|]; [|discriminate Ht].
  cbn in Ht. injection Ht as <-. unfold decode_text. apply strip_strip.
Qed.

End LoadedRows.

Lemma stored_texts_stripped_witness :
  PyStr.strip (String.append "Loans & leases" (String.append newline "net"))
  = String.append "Loans & leases" (String.append newline "net").
Proof.
  apply (@stored_texts_stripped Demo.pandas Demo.sample Demo.normalised Demo.clock None
           "mdrm_database.db" (mkDb (Some Demo.rows) (Some (summary_map Demo.clock Demo.rows)))
           Demo.rows (mkRow 1 (Some "RCON2170") (Some "RCON") (Some "2170")
            (Some "1959-12-31 00:00:00") None (Some "TOTAL ASSETS") (Some "N")
            (Some "F") (Some "FFIEC 031")
            (Some (String.append "Loans & leases" (String.append newline "net")))
            (Some "nan") "2026-11-04 09:30:00") "Description").
  - vm_compute. reflexivity.
  - vm_compute. reflexivity.
  - vm_compute. reflexivity.
  - reflexivity.
  - apply list_elem_of_here.
  - apply (bool_decide_unpack _). vm_compute. exact I.
  - reflexivity.
Defined.

Section NeverNull.
Context `{Pandas}.

Lemma cell_object (xs : list value) (i : nat) (v : value) :
  sql_cell (Object xs : Series Timestamp) i = Ok (cell (Object xs) i) →
  xs !! i = Some v →
  from_option (fun t => t) "nan" (cell (Object xs : Series Timestamp) i) = str_of_value v.
Proof.
  unfold cell. cbn [sql_cell]. intros Hok Hv. rewrite Hv in *.
  destruct v as [|t|z]; [reflexivity | reflexivity|].
  destruct (Select.int64 z); [reflexivity | discriminate Hok].
Qed.

Lemma select_elem (d : DataFrame Timestamp) (col : string) (s : Series Timestamp) :
  s ∈ select d col → (col, s) ∈ columns d.
Proof.
  unfold select. intros Hs. apply list_elem_of_fmap in Hs as ([l x] & -> & Hin).
  apply list_elem_of_In, filter_In in Hin as [Hin Hl]. cbn [fst snd] in *.
  apply String.eqb_eq in Hl. subst l. by apply list_elem_of_In.
Qed.

(** X7. When the file is read into object columns and none of its labels
    is a name of a column of the table, every row of a loaded table has
    an identifier and the three texts, none of them NULL, and its
    identifier is its mnemonic followed by its item code, the text
    ["nan"] standing for the one that is NULL. *)
Theorem loaded_row_identifier (df df' : DataFrame Timestamp) (clk : Clock) (st : Store)
    (name : string) (db : Database) (rows : list Row) (r : Row) :
  raw_frame (clean_columns df) →
  normalise df = Ok df' →
  source_labels df' = true →
  create_database df' clk st = (Ok name, Some db) →
  mdrm_data db = Some rows →
  r ∈ rows →
  mdrm_identifier r
  = Some (String.append (from_option (fun t => t) "nan" (mnemonic r))
                        (from_option (fun t => t) "nan" (item_code r)))
  ∧ is_Some (item_name r) ∧ is_Some (description r) ∧ is_Some (series_glossary r).
Proof.
  intros Hraw Hok Hsrc Hload Hdata Hr.
  pose proof (fun old new => loaded_columns df' clk st name db old new Hsrc Hload)
    as Hpresent.
  destruct (stored_rows df' clk st name db Hload) as (_ & Hbind & ->).
  cbn [mdrm_data] in Hdata. injection Hdata as <-.
  apply list_elem_of_fmap in Hr as (i & -> & Hi).
  apply elem_of_seq in Hi as [_ Hi]. cbn [plus] in Hi.
  set (d := clean_columns df) in *.
  assert (Hobj : ∀ col s, s ∈ select d col → ∃ xs, s = Object xs ∧ length xs = nrows df').
  { intros col s Hs. apply select_elem in Hs. unfold raw_frame in Hraw.
    rewrite Forall_forall in Hraw. specialize (Hraw _ Hs). cbn [snd] in Hraw.
    destruct s as [xs|ts]; [|discriminate Hraw]. exists xs. split; [reflexivity|].
    apply Nat.eqb_eq in Hraw. rewrite Hraw, (normalise_nrows df df' Hok). reflexivity. }
  assert (Hsome : ∀ col, has_column d col = true → ∃ s ss, select d col = s :: ss).
  { intros col Hcol. destruct (select d col) as [|s ss] eqn:Hsel; [|by eauto].
    apply select_nil in Hsel. congruence. }
  assert (Htext : ∀ col, col ∈ text_columns → is_Some (text_field col (stored_row df' clk i))).
  { intros col Hcol. destruct (text_field_stored df' clk i col Hcol) as [Hmap ->].
    destruct (Hpresent _ _ Hmap) as [Hhas Hsource].
    unfold stored. rewrite Hsource, (text_column_normalised df df' col Hok Hcol).
    rewrite (has_column_normalise df df' col Hok) in Hhas
      by (by destruct (text_not_date col Hcol)).
    fold d in Hhas |- *.
    destruct (Hsome col Hhas) as (s & ss & Hsel). rewrite Hsel.
    destruct (Hobj col s) as (xs & -> & Hxs); [rewrite Hsel; apply list_elem_of_here|].
    destruct (lookup_lt_is_Some_2 xs i) as [v Hv]; [lia|].
    cbn [fmap list_fmap head mbind option_bind]. unfold cell, decoded.
    cbn [sql_cell strings_of]. rewrite !list_lookup_fmap, Hv. by eexists. }
  split; [|repeat split].
  - assert (Hmm : ("Mnemonic", "mnemonic") ∈ columns_mapping).
    { apply (bool_decide_unpack _). vm_compute. exact I. }
    assert (Hmc : ("Item Code", "item_code") ∈ columns_mapping).
    { apply (bool_decide_unpack _). vm_compute. exact I. }
    assert (Hmi : ("MDRM_Identifier", "mdrm_identifier") ∈ columns_mapping).
    { apply (bool_decide_unpack _). vm_compute. exact I. }
    destruct (Hpresent _ _ Hmm) as [Hm Hsm]. destruct (Hpresent _ _ Hmc) as [Hc Hsc].
    destruct (Hpresent _ _ Hmi) as [_ Hsi].
    rewrite (has_column_normalise df df' _ Hok) in Hm by discriminate.
    rewrite (has_column_normalise df df' _ Hok) in Hc by discriminate.
    fold d in Hm, Hc.
    pose proof (normalise_well_labelled df) as Hwl.
    destruct (well_labelled df) eqn:Hwell; [|rewrite Hok in Hwl; discriminate Hwl].
    unfold well_labelled in Hwell. cbn zeta in Hwell. fold d in Hwell.
    rewrite Hm, Hc in Hwell. apply andb_true_iff in Hwell as [_ Honce].
    cbn [andb negb orb] in Honce. apply andb_true_iff in Honce as [Hom Hoc].
    apply once_select in Hom as [m Hsm0]. apply once_select in Hoc as [c Hsc0].
    assert (Hsyn : synthesised d = Some (identifier_series m c)).
    { unfold synthesised. rewrite Hsm0, Hsc0. reflexivity. }
    destruct (identifier_columns df df' _ Hok Hsyn) as [Hhead _].
    assert (Hselm : select df' "Mnemonic" = [m]).
    { rewrite (normalise_select df df' _ Hok) by discriminate. exact Hsm0. }
    assert (Hselc : select df' "Item Code" = [c]).
    { rewrite (normalise_select df df' _ Hok) by discriminate. exact Hsc0. }
    destruct (Hobj "Mnemonic" m) as (ms & -> & Hms); [rewrite Hsm0; apply list_elem_of_here|].
    destruct (Hobj "Item Code" c) as (cs & -> & Hcs); [rewrite Hsc0; apply list_elem_of_here|].
    destruct (lookup_lt_is_Some_2 ms i) as [vm Hvm]; [lia|].
    destruct (lookup_lt_is_Some_2 cs i) as [vc Hvc]; [lia|].
    assert (Hin : ∀ l s, select df' l = [s] → (l, s) ∈ columns df').
    { intros l s Hs. apply select_elem. rewrite Hs. apply list_elem_of_here. }
    assert (Hcm : sql_cell (Object ms : Series Timestamp) i = Ok (cell (Object ms) i)).
    { apply (bindable_cell df' "Mnemonic" _ i Hbind (Hin _ _ Hselm)); [|exact Hi].
      apply (bool_decide_unpack _). vm_compute. exact I. }
    assert (Hcc : sql_cell (Object cs : Series Timestamp) i = Ok (cell (Object cs) i)).
    { apply (bindable_cell df' "Item Code" _ i Hbind (Hin _ _ Hselc)); [|exact Hi].
      apply (bool_decide_unpack _). vm_compute. exact I. }
    cbn [stored_row mdrm_identifier mnemonic item_code]. unfold stored.
    rewrite Hsi, Hsm, Hsc, Hhead, Hselm, Hselc. cbn [head mbind option_bind].
    rewrite (cell_object ms i vm Hcm Hvm), (cell_object cs i vc Hcc Hvc).
    unfold cell, identifier_series. cbn [sql_cell strings_of].
    rewrite lookup_zip_with, !list_lookup_fmap, Hvm, Hvc. reflexivity.
  - apply (Htext "Item Name"). apply (bool_decide_unpack _). vm_compute. exact I.
  - apply (Htext "Description"). apply (bool_decide_unpack _). vm_compute. exact I.
  - apply (Htext "SeriesGlossary"). apply (bool_decide_unpack _). vm_compute. exact I.
Qed.

End NeverNull.

Lemma loaded_row_identifier_witness :
  ∃ r, Demo.rows !! 1 = Some r
       ∧ mdrm_identifier r
         = Some (String.append (from_option (fun t => t) "nan" (mnemonic r))
                               (from_option (fun t => t) "nan" (item_code r)))
       ∧ is_Some (item_name r) ∧ is_Some (description r) ∧ is_Some (series_glossary r).
Proof.
  eexists. split; [reflexivity|].
  apply (@loaded_row_identifier Demo.pandas Demo.sample Demo.normalised Demo.clock None
           "mdrm_database.db" (mkDb (Some Demo.rows) (Some (summary_map Demo.clock Demo.rows)))
           Demo.rows).
  - apply (bool_decide_unpack _). vm_compute. exact I.
  - vm_compute. reflexivity.
  - vm_compute. reflexivity.
  - vm_compute. reflexivity.
  - reflexivity.
  - apply list_elem_of_further, list_elem_of_here.
Defined.

(** ** Duplicate identifiers *)

Lemma find_first {A} (p : A → bool) (l : list A) (x : A) :
  List.find p l = Some x →
  ∃ i, l !! i = Some x ∧ p x = true ∧ ∀ j y, (j < i)%nat → l !! j = Some y → p y = false.
Proof.
  induction l as [|a l IH]; [discriminate|]. cbn [List.find].
  destruct (p a) eqn:Ha.
  - intros [= <-]. exists 0. split; [reflexivity|]. split; [exact Ha|]. intros j y Hj. lia.
  - intros Hfind. destruct (IH Hfind) as (i & Hi & Hx & Hbefore).
    exists (S i). split; [exact Hi|]. split; [exact Hx|].
    intros [|j] y Hj Hy; [by injection Hy as <-|].
    apply (Hbefore j y); [lia | exact Hy].
Qed.

(** X8. The record that the detail route answers with is a row of the
    table that carries the identifier looked up, and the first such row:
    when several rows carry it, no row before the one returned does. *)
Theorem get_details_first_row (mdrm_id : string) (db : Database) (rows : list Row) (r : Row) :
  mdrm_data db = Some rows →
  (get_details mdrm_id (Some db)).1 = Json 200 r →
  ∃ i, rows !! i = Some r
       ∧ mdrm_identifier r = Some mdrm_id
       ∧ ∀ j r', (j < i)%nat → rows !! j = Some r' → mdrm_identifier r' ≠ Some mdrm_id.
Proof.
  intros Hdata. unfold get_details. cbn [connect from_option]. rewrite Hdata.
  destruct (List.find _ rows) as [r0|] eqn:Hfind; cbn [fst]; [|discriminate].
  intros [= <-]. apply find_first in Hfind as (i & Hi & Hr & Hbefore).
  exists i. split; [exact Hi|]. rewrite holds_eq in Hr. apply bool_decide_eq_true_1 in Hr.
  split; [exact Hr|]. intros j r' Hj Hr' Hid.
  specialize (Hbefore j r' Hj Hr'). rewrite holds_eq in Hbefore.
  apply bool_decide_eq_false_1 in Hbefore. contradiction.
Qed.

Lemma get_details_first_row_witness :
  ∃ i, (Demo.rows ++ Demo.rows)%list !! i = Some (mkRow 2 (Some "RCFDA123") (Some "RCFD") (Some "A123")
          (Some "2001-03-31 00:00:00") (Some "2010-06-30 00:00:00") (Some "nan")
          (Some "Y") (Some "D") None (Some "nan") (Some "R&D")
          "2026-11-04 09:30:00")
       ∧ ∀ j r', (j < i)%nat → (Demo.rows ++ Demo.rows)%list !! j = Some r' →
                 mdrm_identifier r' ≠ Some "RCFDA123".
Proof.
  destruct (get_details_first_row "RCFDA123" (mkDb (Some (Demo.rows ++ Demo.rows)%list) None)
              (Demo.rows ++ Demo.rows)%list _ eq_refl eq_refl) as (i & Hi & _ & Hbefore).
  exists i. split; [exact Hi | exact Hbefore].
Defined.

(** ** The normaliser and the other columns; a file without lines *)

Section OtherColumns.
Context `{Pandas}.

(** X9. The normaliser returns a frame exactly when the frame it is given
    is well labelled. It then keeps the lines of the frame and every
    column it is not told to clean: the columns under a label other than
    the two dates, the three texts and the identifier come out as they
    went in, and the labels are those of the cleaned header, followed by
    the identifier when it is synthesised and the file had no such
    column. *)
Theorem normaliser_keeps_other_columns (df : DataFrame Timestamp) :
  is_ok (normalise df) = well_labelled df
  ∧ ∀ df',
      normalise df = Ok df' →
      nrows df' = nrows df
      ∧ (∀ k, k ∉ text_columns → k ∉ date_columns → k ≠ "MDRM_Identifier" →
              select df' k = select (clean_columns df) k)
      ∧ labels df'
        = (labels (clean_columns df)
           ++ if has_column (clean_columns df) "Mnemonic"
                 && has_column (clean_columns df) "Item Code"
                 && negb (has_column (clean_columns df) "MDRM_Identifier")
              then ["MDRM_Identifier"] else [])%list.
Proof.
  split; [apply is_ok_normalise|]. intros df' Hok.
  split; [exact (normalise_nrows df df' Hok)|]. split.
  - intros k Ht Hd Hk. rewrite (normalise_select df df' k Hok Hk).
    rewrite (bool_decide_eq_false_2 _ Hd), (bool_decide_eq_false_2 _ Ht). reflexivity.
  - exact (normalise_labels df df' Hok).
Qed.

(** X10. A frame with every column of the table and no line loads into an
    empty fact table; the summary then holds the eight fixed statistics,
    each of them 0, and no item-type row. *)
Theorem header_only_load (df : DataFrame Timestamp) (clk : Clock) (st : Store) :
  nrows df = 0 →
  forallb (has_column (rename_columns df)) insert_columns = true →
  ∃ t,
    create_database df clk st = (Ok "mdrm_database.db", Some (mkDb (Some []) (Some t)))
    ∧ (∀ k, is_Some (t !! k) ↔ k ∈ fixed_statistics)
    ∧ ∀ name, name ∈ fixed_statistics → stat t name = Some 0.
Proof.
  intros Hn Hall. rewrite create_database_spec, Hall.
  assert (Hbind : bindable df = true).
  { unfold bindable. rewrite Hn. reflexivity. }
  rewrite Hbind, Hn. cbn [seq fmap list_fmap].
  exists (summary_map clk []). split; [reflexivity|]. split.
  - intros k. rewrite summary_map_keys. split; [|by left].
    intros [Hk|(ty & r & _ & Hr & _)]; [exact Hk | by apply elem_of_nil in Hr].
  - intros name Hname.
    destruct (fixed_statistic_bounded clk [] name Hname) as (n & Hstat & Hn0).
    cbn [length] in Hn0. rewrite Hstat. f_equal. lia.
Qed.

End OtherColumns.

Lemma header_only_load_witness :
  ∃ t,
    create_database (without_lines Demo.normalised) Demo.clock None
    = (Ok "mdrm_database.db", Some (mkDb (Some []) (Some t)))
    ∧ stat t "total_records" = Some 0
    ∧ stat t "expired_items" = Some 0.
Proof.
  destruct (@header_only_load Demo.pandas (without_lines Demo.normalised) Demo.clock None)
    as (t & Hrun & _ & Hzero).
  - reflexivity.
  - vm_compute. reflexivity.
  - exists t. split; [exact Hrun|]. split; apply Hzero.
    + apply list_elem_of_here.
    + do 7 apply list_elem_of_further. apply list_elem_of_here.
Defined.

(** * Further properties of the query tool *)

(** ** Counts by group *)

Lemma filter_length_pos {A} (p : A → bool) (l : list A) :
  (0 < length (List.filter p l))%nat ↔ ∃ x, x ∈ l ∧ p x = true.
Proof.
  split.
  - destruct (List.filter p l) as [|x l'] eqn:Hf; cbn; [lia|]. intros _.
    assert (Hx : In x (List.filter p l)) by (rewrite Hf; by left).
    apply filter_In in Hx as [Hx Hp]. exists x. by rewrite list_elem_of_In.
  - intros (x & Hx & Hp).
    assert (Hin : In x (List.filter p l)).
    { apply filter_In. by rewrite <- list_elem_of_In. }
    destruct (List.filter p l); [destruct Hin | cbn; lia].
Qed.

Lemma group_by_case_spec (label : Row → string) (rows : list Row) (s : string) (n : nat) :
  (s, n) ∈ Select.group_by_case label rows ↔
  n = length (List.filter (fun r => String.eqb (label r) s) rows) ∧ (0 < n)%nat.
Proof.
  unfold Select.group_by_case. rewrite list_elem_of_fmap. split.
  - intros (k & [= -> ->] & Hk). split; [reflexivity|].
    apply elem_of_remove_dups, list_elem_of_fmap in Hk as (r & -> & Hr).
    apply filter_length_pos. exists r. split; [exact Hr | apply String.eqb_refl].
  - intros [-> Hpos]. exists s. split; [reflexivity|].
    apply filter_length_pos in Hpos as (r & Hr & Heq).
    apply String.eqb_eq in Heq as <-.
    apply elem_of_remove_dups, list_elem_of_fmap. by exists r.
Qed.

Lemma status_cases (today : string) (r : Row) :
  status today r = "Active" ∨ status today r = "Expired".
Proof. unfold status. destruct (Sql.holds _); [by left | by right]. Qed.

Lemma status_count_active (today : string) (rows : list Row) :
  status_count today "Active" rows
  = Sql.count_where (fun r => Sql.gt (end_date r) today) rows.
Proof.
  unfold status_count, Sql.count_where. f_equal. apply filter_ext. intros r.
  unfold status. by destruct (Sql.holds _).
Qed.

Lemma stat_active (clk : Clock) (rows : list Row) :
  stat (summary_map clk rows) "active_items"
  = Some (Sql.count_where (fun r => Sql.gt (end_date r) (current_date clk)) rows).
Proof.
  apply (stat_summary_map clk rows "active_items"
           (Sql.count_where (fun r => Sql.gt (end_date r) (current_date clk)))).
  do 6 apply list_elem_of_further. apply list_elem_of_here.
Qed.

Lemma stat_expired (clk : Clock) (rows : list Row) :
  stat (summary_map clk rows) "expired_items"
  = Some (Sql.count_where (fun r => Sql.le (end_date r) (current_date clk)) rows).
Proof.
  apply (stat_summary_map clk rows "expired_items"
           (Sql.count_where (fun r => Sql.le (end_date r) (current_date clk)))).
  do 7 apply list_elem_of_further. apply list_elem_of_here.
Qed.

(** X11. Run on the day of the load, Query 6 prints at most the two lines
    Active and Expired, and none with a count of 0. The count of Active is
    the statistic [active_items]; the count of Expired is the statistic
    [expired_items] plus the number of rows without an end date. *)
Theorem query6_agrees_with_summary (clk : Clock) (db : Database) (rows : list Row) :
  mdrm_data db = Some rows →
  mdrm_summary db = None →
  ∃ t lines a e,
    create_summary_stats clk db = (Ok (), mkDb (Some rows) (Some t))
    ∧ query6 (current_date clk) (mkDb (Some rows) (Some t)) = Some lines
    ∧ stat t "active_items" = Some a
    ∧ stat t "expired_items" = Some e
    ∧ ∀ s n, (s, n) ∈ lines ↔
        (0 < n)%nat
        ∧ ((s = "Active" ∧ n = a)
           ∨ (s = "Expired" ∧ n = (e + length (List.filter null_end_date rows))%nat)).
Proof.
  intros Hdata Hnew.
  exists (summary_map clk rows), (Select.group_by_case (status (current_date clk)) rows),
         (Sql.count_where (fun r => Sql.gt (end_date r) (current_date clk)) rows),
         (Sql.count_where (fun r => Sql.le (end_date r) (current_date clk)) rows).
  split; [by apply create_summary_stats_ok|]. split; [reflexivity|].
  split; [apply stat_active|]. split; [apply stat_expired|].
  pose proof (status_count_split (current_date clk) rows) as Hsplit.
  pose proof (end_date_split (current_date clk) rows) as Hdates.
  pose proof (status_count_active (current_date clk) rows) as Hactive.
  unfold status_count in Hsplit, Hactive.
  intros s n. rewrite group_by_case_spec. split.
  - intros [-> Hpos]. split; [exact Hpos|].
    apply filter_length_pos in Hpos as (r & _ & Heq). apply String.eqb_eq in Heq.
    destruct (status_cases (current_date clk) r) as [Hs|Hs]; rewrite Hs in Heq; subst s.
    + left. split; [reflexivity | exact Hactive].
    + right. split; [reflexivity | lia].
  - intros [Hpos [[-> ->]|[-> ->]]].
    + split; [symmetry; exact Hactive | exact Hpos].
    + split; [lia | exact Hpos].
Qed.

Lemma query6_agrees_with_summary_witness :
  ∃ t lines a e,
    create_summary_stats Demo.clock (mkDb (Some Demo.rows) None)
    = (Ok (), mkDb (Some Demo.rows) (Some t))
    ∧ query6 "2026-11-04" (mkDb (Some Demo.rows) (Some t)) = Some lines
    ∧ stat t "active_items" = Some a
    ∧ stat t "expired_items" = Some e
    ∧ ∀ s n, (s, n) ∈ lines ↔
        (0 < n)%nat
        ∧ ((s = "Active" ∧ n = a)
           ∨ (s = "Expired"
              ∧ n = (e + length (List.filter null_end_date Demo.rows))%nat)).
Proof.
  exact (query6_agrees_with_summary Demo.clock (mkDb (Some Demo.rows) None) Demo.rows
           eq_refl eq_refl).
Defined.

Lemma confidentiality_status_count (rows : list Row) :
  length (List.filter (fun r => String.eqb (confidentiality_status r) "Confidential") rows)
  = Sql.count_where (fun r => Sql.eq (confidentiality r) "Y") rows
  ∧ length (List.filter (fun r => String.eqb (confidentiality_status r) "Public") rows)
    = Sql.count_where (fun r => Sql.eq (confidentiality r) "N") rows
  ∧ length (List.filter (fun r => String.eqb (confidentiality_status r) "Unknown") rows)
    = length (List.filter other_confidentiality rows).
Proof.
  unfold Sql.count_where.
  split; [|split]; f_equal; apply filter_ext; intros r;
    unfold confidentiality_status, other_confidentiality, Sql.eq;
    destruct (confidentiality r) as [s|]; cbn; try reflexivity;
    destruct (String.eqb s "Y") eqn:HY; cbn; try reflexivity;
    destruct (String.eqb s "N") eqn:HN; cbn; try reflexivity.
  apply String.eqb_eq in HY. subst s. discriminate HN.
Qed.

Lemma confidentiality_status_cases (r : Row) :
  confidentiality_status r = "Confidential"
  ∨ confidentiality_status r = "Public"
  ∨ confidentiality_status r = "Unknown".
Proof.
  unfold confidentiality_status.
  destruct (Sql.holds _); [by left|]. destruct (Sql.holds _); [right; by left | right; by right].
Qed.

(** X12. Query 7 prints at most the three lines Confidential, Public and
    Unknown, and none with a count of 0. The first two counts are the
    statistics [confidential_items] and [public_items]; the third is the
    number of rows whose confidentiality is neither Y nor N, NULL included,
    for which the summary has no statistic. *)
Theorem query7_agrees_with_summary (clk : Clock) (db : Database) (rows : list Row) :
  mdrm_data db = Some rows →
  mdrm_summary db = None →
  ∃ t lines c p,
    create_summary_stats clk db = (Ok (), mkDb (Some rows) (Some t))
    ∧ query7 (mkDb (Some rows) (Some t)) = Some lines
    ∧ stat t "confidential_items" = Some c
    ∧ stat t "public_items" = Some p
    ∧ ∀ s n, (s, n) ∈ lines ↔
        (0 < n)%nat
        ∧ ((s = "Confidential" ∧ n = c)
           ∨ (s = "Public" ∧ n = p)
           ∨ (s = "Unknown" ∧ n = length (List.filter other_confidentiality rows))).
Proof.
  intros Hdata Hnew.
  exists (summary_map clk rows), (Select.group_by_case confidentiality_status rows),
         (Sql.count_where (fun r => Sql.eq (confidentiality r) "Y") rows),
         (Sql.count_where (fun r => Sql.eq (confidentiality r) "N") rows).
  split; [by apply create_summary_stats_ok|]. split; [reflexivity|].
  split.
  { apply (stat_summary_map clk rows "confidential_items").
    do 4 apply list_elem_of_further. apply list_elem_of_here. }
  split.
  { apply (stat_summary_map clk rows "public_items").
    do 5 apply list_elem_of_further. apply list_elem_of_here. }
  destruct (confidentiality_status_count rows) as (Hc & Hp & Hu).
  intros s n. rewrite group_by_case_spec. split.
  - intros [-> Hpos]. split; [exact Hpos|].
    apply filter_length_pos in Hpos as (r & _ & Heq). apply String.eqb_eq in Heq.
    destruct (confidentiality_status_cases r) as [Hs|[Hs|Hs]]; rewrite Hs in Heq; subst s.
    + left. split; [reflexivity | exact Hc].
    + right. left. split; [reflexivity | exact Hp].
    + right. right. split; [reflexivity | exact Hu].
  - intros [Hpos [[-> ->]|[[-> ->]|[-> ->]]]].
    + split; [symmetry; exact Hc | exact Hpos].
    + split; [symmetry; exact Hp | exact Hpos].
    + split; [symmetry; exact Hu | exact Hpos].
Qed.

Lemma query7_agrees_with_summary_witness :
  ∃ t lines c p,
    create_summary_stats Demo.clock (mkDb (Some Demo.rows) None)
    = (Ok (), mkDb (Some Demo.rows) (Some t))
    ∧ query7 (mkDb (Some Demo.rows) (Some t)) = Some lines
    ∧ stat t "confidential_items" = Some c
    ∧ stat t "public_items" = Some p
    ∧ ∀ s n, (s, n) ∈ lines ↔
        (0 < n)%nat
        ∧ ((s = "Confidential" ∧ n = c)
           ∨ (s = "Public" ∧ n = p)
           ∨ (s = "Unknown"
              ∧ n = length (List.filter other_confidentiality Demo.rows))).
Proof.
  exact (query7_agrees_with_summary Demo.clock (mkDb (Some Demo.rows) None) Demo.rows
           eq_refl eq_refl).
Defined.

(** ** The item types *)

Section ItemTypes.
Context `{Runtime}.

Lemma by_count_total {K} (f : K → nat) : Total (fun a b : K => Is_true (f b <=? f a)%nat).
Proof.
  intros a b. destruct (Nat.leb_spec (f b) (f a)); [by left|].
  right. apply Is_true_true, Nat.leb_le. lia.
Qed.

Lemma by_count_trans {K} (f : K → nat) : Transitive (fun a b : K => Is_true (f b <=? f a)%nat).
Proof.
  intros a b c Hab Hbc. apply Is_true_true, Nat.leb_le in Hab, Hbc.
  apply Is_true_true, Nat.leb_le. lia.
Qed.

Lemma StronglySorted_weaken {A} (R S : relation A) (l : list A) :
  (∀ a b, R a b → S a b) → StronglySorted R l → StronglySorted S l.
Proof.
  intros HRS Hl. induction Hl as [|a l Hl IH Hall]; constructor; [exact IH|].
  eapply Forall_impl; [exact Hall|]. intros b. apply HRS.
Qed.

(** X13. Query 4 prints one line for each item-type row of the summary
    table, with the count that the row holds and the description of the
    type, [Unknown] for a type that is not one of the seven letters; the
    lines come by decreasing count. *)
Theorem query4_agrees_with_summary (clk : Clock) (db : Database) (rows : list Row) :
  mdrm_data db = Some rows →
  mdrm_summary db = None →
  ∃ t lines,
    create_summary_stats clk db = (Ok (), mkDb (Some rows) (Some t))
    ∧ query4 (mkDb (Some rows) (Some t)) = Some lines
    ∧ (∀ ty d n, (ty, d, n) ∈ lines →
         d = type_description ty
         ∧ stat t (String.append "item_type_" ty) = Some n)
    ∧ (∀ ty, is_Some (t !! String.append "item_type_" ty) →
         ∃ n, (ty, type_description ty, n) ∈ lines)
    ∧ StronglySorted (fun a b : string * string * nat => (b.2 ≤ a.2)%nat) lines.
Proof.
  intros Hdata Hnew. exists (summary_map clk rows). eexists.
  split; [by apply create_summary_stats_ok|]. split; [reflexivity|].
  set (le := fun a b : string * string * nat => (b.2 <=? a.2)%nat).
  set (l := (fun g : string * nat => (g.1, type_description g.1, g.2))
            <$> item_type_distribution rows).
  pose proof (order_by_Permutation _ le l) as Hperm.
  split; [|split].
  - intros ty d n Hin. rewrite Hperm in Hin.
    apply list_elem_of_fmap in Hin as ([ty' n'] & [= -> -> ->] & Hin). cbn [fst snd].
    split; [reflexivity|]. unfold stat.
    rewrite (summary_map_item_type clk rows ty' n' Hin). cbn. apply int_of_str_of_nat.
  - intros ty Hsome. apply summary_map_keys in Hsome as [Hfixed|(ty' & r & Hk & Hr & Hty & Hne)].
    + exfalso. revert Hfixed. apply item_type_key_fresh.
    + apply item_type_key_inj in Hk. subst ty'.
      eexists. rewrite Hperm. apply list_elem_of_fmap.
      exists (ty, length (List.filter (fun r => bool_decide (item_type r = Some ty)) rows)).
      split; [reflexivity|]. apply item_type_distribution_spec. by eauto.
  - apply (StronglySorted_weaken (fun a b => Is_true (le a b))).
    + intros a b Hab. apply Is_true_true, Nat.leb_le in Hab. exact Hab.
    + apply order_by_Sorted.
      * apply (by_count_total (fun a : string * string * nat => a.2)).
      * apply (by_count_trans (fun a : string * string * nat => a.2)).
Qed.

End ItemTypes.

Lemma query4_agrees_with_summary_witness :
  ∃ t lines,
    create_summary_stats Demo.clock (mkDb (Some Demo.rows) None)
    = (Ok (), mkDb (Some Demo.rows) (Some t))
    ∧ query4 (mkDb (Some Demo.rows) (Some t)) = Some lines
    ∧ ∃ n, (("D", "Derived", n) : string * string * nat) ∈ lines.
Proof.
  destruct (@query4_agrees_with_summary DemoRuntime.runtime Demo.clock
              (mkDb (Some Demo.rows) None) Demo.rows eq_refl eq_refl)
    as (t & lines & Hrun & Hq & _ & Hall & _).
  exists t, lines. split; [exact Hrun|]. split; [exact Hq|].
  apply (Hall "D").
  rewrite (create_summary_stats_ok Demo.clock (mkDb (Some Demo.rows) None) Demo.rows
             eq_refl eq_refl) in Hrun.
  apply (f_equal snd), (f_equal mdrm_summary) in Hrun. cbn [snd mdrm_summary] in Hrun.
  apply (inj Some) in Hrun. subst t. apply (bool_decide_unpack _). vm_compute. exact I.
Defined.

(** * Further properties of the routes *)

(** ** [ORDER BY] followed by [LIMIT] *)

Lemma limit_split {A} (n : Z) (l : list A) :
  ∃ rest,
    l = (Select.limit n l ++ rest)%list
    ∧ (rest ≠ [] → (0 ≤ n)%Z ∧ length (Select.limit n l) = Z.to_nat n)
    ∧ ((0 ≤ n)%Z → length (Select.limit n l) = Nat.min (Z.to_nat n) (length l))
    ∧ ((n < 0)%Z → Select.limit n l = l).
Proof.
  unfold Select.limit. destruct (Z.ltb_spec n 0) as [Hneg|Hpos].
  - exists []. split; [by rewrite app_nil_r|]. split; [done|]. split; [lia | done].
  - exists (drop (Z.to_nat n) l). split; [by rewrite take_drop|]. split; [|split].
    + intros Hrest. split; [exact Hpos|]. apply length_take_le.
      destruct (Nat.le_gt_cases (length l) (Z.to_nat n)) as [Hle|Hlt]; [|lia].
      by apply drop_ge in Hle.
    + intros _. apply length_take.
    + lia.
Qed.

Section Ordered.
Context `{Runtime}.

(** The lines that [ORDER BY ... LIMIT n] keeps are the first ones of the
    ordered answer: they follow the order, and so does every line that is
    cut with respect to every line that is kept. *)
Lemma order_by_limit {A} (le : A → A → bool) (n : Z) (l : list A) :
  Total (fun x y => Is_true (le x y)) →
  Transitive (fun x y => Is_true (le x y)) →
  ∃ rest,
    (Select.limit n (order_by le l) ++ rest)%list ≡ₚ l
    ∧ StronglySorted (fun x y => Is_true (le x y)) (Select.limit n (order_by le l))
    ∧ (∀ x y, x ∈ Select.limit n (order_by le l) → y ∈ rest → Is_true (le x y))
    ∧ (rest ≠ [] → (0 ≤ n)%Z ∧ length (Select.limit n (order_by le l)) = Z.to_nat n)
    ∧ ((0 ≤ n)%Z →
       length (Select.limit n (order_by le l)) = Nat.min (Z.to_nat n) (length l))
    ∧ ((n < 0)%Z → length (Select.limit n (order_by le l)) = length l).
Proof.
  intros Htotal Htrans.
  pose proof (order_by_Permutation _ le l) as Hperm.
  pose proof (order_by_Sorted _ le l Htotal Htrans) as Hsorted.
  destruct (limit_split n (order_by le l)) as (rest & Hsplit & Hrest & Hlen & Hall).
  exists rest.
  assert (Hparts : StronglySorted (fun x y => Is_true (le x y))
                     (Select.limit n (order_by le l) ++ rest)).
  { rewrite <- Hsplit. exact Hsorted. }
  apply StronglySorted_app in Hparts as (Hcut & Hkept & _).
  split; [rewrite <- Hsplit; exact Hperm|]. split; [exact Hkept|].
  split; [exact Hcut|]. split; [exact Hrest|]. split.
  - intros Hn. rewrite (Hlen Hn). by rewrite Hperm.
  - intros Hn. rewrite (Hall Hn). by rewrite Hperm.
Qed.

End Ordered.

(** ** The mnemonics with the most items *)

Lemma group_by_spec (col : Row → option string) (rows : list Row) (k : option string) (n : nat) :
  (k, n) ∈ Select.group_by col rows ↔
  n = length (List.filter (fun r => bool_decide (col r = k)) rows) ∧ (0 < n)%nat.
Proof.
  unfold Select.group_by. rewrite list_elem_of_fmap. split.
  - intros (k' & [= -> ->] & Hk). split; [reflexivity|].
    apply elem_of_remove_dups, list_elem_of_fmap in Hk as (r & -> & Hr).
    apply filter_length_pos. exists r. split; [exact Hr | by apply bool_decide_eq_true_2].
  - intros [-> Hpos]. exists k. split; [reflexivity|].
    apply filter_length_pos in Hpos as (r & Hr & Heq).
    apply bool_decide_eq_true_1 in Heq as <-.
    apply elem_of_remove_dups, list_elem_of_fmap. by exists r.
Qed.

Lemma group_by_keys (col : Row → option string) (rows : list Row) :
  (Select.group_by col rows).*1 = remove_dups (col <$> rows).
Proof.
  unfold Select.group_by. rewrite <- list_fmap_compose.
  rewrite <- (list_fmap_id (remove_dups (col <$> rows))) at 2.
  apply list_fmap_ext. reflexivity.
Qed.

Lemma remove_dups_NoDup {A} `{EqDecision A} (l : list A) : NoDup l → remove_dups l = l.
Proof.
  induction 1 as [|x l Hx Hl IH]; [reflexivity|]. cbn [remove_dups].
  destruct (decide_rel elem_of x l) as [Hin|_]; [contradiction | by rewrite IH].
Qed.

Section TopMnemonics.
Context `{Runtime}.

Lemma top_mnemonics_spec (n : Z) (rows : list Row) :
  NoDup (top_mnemonics n rows).*1
  ∧ StronglySorted (fun a b : option string * nat => (b.2 ≤ a.2)%nat) (top_mnemonics n rows)
  ∧ (∀ m c, (m, c) ∈ top_mnemonics n rows →
       (0 < c)%nat
       ∧ c = length (List.filter (fun r => bool_decide (mnemonic r = m)) rows))
  ∧ (∀ r, r ∈ rows → mnemonic r ∉ (top_mnemonics n rows).*1 →
       (0 ≤ n)%Z
       ∧ length (top_mnemonics n rows) = Z.to_nat n
       ∧ ∀ m c, (m, c) ∈ top_mnemonics n rows →
           (length (List.filter (fun r' => bool_decide (mnemonic r' = mnemonic r)) rows)
            ≤ c)%nat)
  ∧ ((0 ≤ n)%Z →
     length (top_mnemonics n rows)
     = Nat.min (Z.to_nat n) (length (remove_dups (mnemonic <$> rows)))).
Proof.
  unfold top_mnemonics.
  destruct (order_by_limit (@Select.by_count_desc (option string)) n
              (Select.group_by mnemonic rows)
              (by_count_total (fun a : option string * nat => a.2))
              (by_count_trans (fun a : option string * nat => a.2)))
    as (rest & Hperm & Hsorted & Hcut & Hrest & Hlen & _).
  set (top := Select.limit n _) in *.
  assert (Hnodup : NoDup ((top ++ rest)%list).*1).
  { rewrite Hperm, group_by_keys. apply NoDup_remove_dups. }
  rewrite fmap_app in Hnodup. apply NoDup_app in Hnodup as (Hnodup & _ & _).
  assert (Hin : ∀ g, g ∈ top → g ∈ Select.group_by mnemonic rows).
  { intros g Hg. rewrite <- Hperm. apply elem_of_app. by left. }
  split; [exact Hnodup|]. split; [|split; [|split]].
  - apply (StronglySorted_weaken (fun a b => Is_true (Select.by_count_desc a b)));
      [|exact Hsorted].
    intros a b Hab. apply Is_true_true, Nat.leb_le in Hab. exact Hab.
  - intros m c Hmc. apply Hin, group_by_spec in Hmc as [-> Hpos]. split; [exact Hpos | reflexivity].
  - intros r Hr Hnot.
    set (c0 := length (List.filter (fun r' => bool_decide (mnemonic r' = mnemonic r)) rows)).
    assert (Hgroup : (mnemonic r, c0) ∈ Select.group_by mnemonic rows).
    { apply group_by_spec. split; [reflexivity|]. apply filter_length_pos.
      exists r. split; [exact Hr | by apply bool_decide_eq_true_2]. }
    rewrite <- Hperm in Hgroup. apply elem_of_app in Hgroup as [Hgroup|Hgroup].
    { exfalso. apply Hnot. apply list_elem_of_fmap. by exists (mnemonic r, c0). }
    assert (Hne : rest ≠ []) by (intros ->; by apply elem_of_nil in Hgroup).
    destruct (Hrest Hne) as [Hn Hfull]. split; [exact Hn|]. split; [exact Hfull|].
    intros m c Hmc. specialize (Hcut _ _ Hmc Hgroup).
    apply Is_true_true, Nat.leb_le in Hcut. exact Hcut.
  - intros Hn. rewrite (Hlen Hn). f_equal.
    rewrite <- (length_fmap fst), group_by_keys. reflexivity.
Qed.

(** X14. On a database that holds both tables [get_stats] answers with
    status 200; the entry [top_mnemonics] of its answer lists at most ten
    mnemonics, NULL counting as one, each once, with the number of rows
    that carry it, by decreasing count; a mnemonic that is left out has no
    more rows than any of the ten listed. *)
Theorem stats_top_mnemonics (db : Database) (rows : list Row) (t : gmap string Stat) :
  mdrm_data db = Some rows →
  mdrm_summary db = Some t →
  ∃ body top,
    get_stats (Some db) = (Reply 200 body, Some db)
    ∧ body !! "top_mnemonics" = Some (Groups top)
    ∧ (length top ≤ 10)%nat
    ∧ NoDup top.*1
    ∧ StronglySorted (fun a b : option string * nat => (b.2 ≤ a.2)%nat) top
    ∧ (∀ m c, (m, c) ∈ top →
         (0 < c)%nat
         ∧ c = length (List.filter (fun r => bool_decide (mnemonic r = m)) rows))
    ∧ (∀ r, r ∈ rows → mnemonic r ∉ top.*1 →
         length top = 10
         ∧ ∀ m c, (m, c) ∈ top →
             (length (List.filter (fun r' => bool_decide (mnemonic r' = mnemonic r)) rows)
              ≤ c)%nat).
Proof.
  intros Hdata Hsummary. unfold get_stats. cbn [connect from_option].
  rewrite Hdata, Hsummary. eexists _, (top_mnemonics 10 rows).
  split; [reflexivity|]. split; [apply lookup_insert_eq|].
  destruct (top_mnemonics_spec 10 rows) as (Hnodup & Hsorted & Hcount & Hcut & Hlen).
  split; [rewrite Hlen by lia; cbn; lia|].
  split; [exact Hnodup|]. split; [exact Hsorted|]. split; [exact Hcount|].
  intros r Hr Hnot. destruct (Hcut r Hr Hnot) as (_ & Hfull & Hle).
  split; [exact Hfull | exact Hle].
Qed.

End TopMnemonics.

Lemma stats_top_mnemonics_witness :
  ∃ body,
    (@get_stats DemoRuntime.runtime
       (Some (mkDb (Some Demo.rows) (Some (summary_map Demo.clock Demo.rows))))).1
    = Reply 200 body
    ∧ ∃ top, body !! "top_mnemonics" = Some (Groups top) ∧ (length top ≤ 10)%nat.
Proof.
  destruct (@stats_top_mnemonics DemoRuntime.runtime
              (mkDb (Some Demo.rows) (Some (summary_map Demo.clock Demo.rows)))
              Demo.rows (summary_map Demo.clock Demo.rows) eq_refl eq_refl)
    as (body & top & Hrun & Htop & Hlen & _).
  exists body. split; [by rewrite Hrun|]. exists top. split; [exact Htop | exact Hlen].
Defined.

(** ** Query 3 and the statistic [unique_mnemonics] *)

Lemma filter_all {A} (l : list A) : List.filter (fun _ => true) l = l.
Proof. induction l as [|x l IH]; [reflexivity|]. cbn. by rewrite IH. Qed.

Lemma omap_fmap_id {A B} (f : A → option B) (l : list A) :
  omap f l = omap (fun x => x) (f <$> l).
Proof.
  induction l as [|x l IH]; [reflexivity|]. cbn. rewrite IH. reflexivity.
Qed.

(** Among distinct values NULL counts once more than among distinct texts. *)
Lemma remove_dups_option (l : list (option string)) :
  length (remove_dups l)
  = (length (remove_dups (omap (fun x => x) l)) + (if decide (None ∈ l) then 1 else 0))%nat.
Proof.
  assert (Hperm : remove_dups l
                  ≡ₚ ((if decide (None ∈ l) then [None] else [])
                      ++ (Some <$> remove_dups (omap (fun x => x) l)))%list).
  { apply NoDup_Permutation.
    - apply NoDup_remove_dups.
    - apply NoDup_app. split; [|split].
      + destruct (decide (None ∈ l)); [apply NoDup_singleton | apply NoDup_nil; exact I].
      + intros x Hx Hin. apply list_elem_of_fmap in Hin as (y & -> & _).
        destruct (decide (None ∈ l)).
        * apply list_elem_of_singleton in Hx. discriminate Hx.
        * by apply elem_of_nil in Hx.
      + apply (NoDup_fmap_2 Some), NoDup_remove_dups.
    - intros x. rewrite elem_of_remove_dups, elem_of_app, list_elem_of_fmap. split.
      + intros Hx. destruct x as [a|].
        * right. exists a. split; [reflexivity|].
          apply elem_of_remove_dups, list_elem_of_omap. by exists (Some a).
        * left. rewrite decide_True by exact Hx. apply list_elem_of_here.
      + intros [Hx|(a & -> & Ha)].
        * destruct (decide (None ∈ l)) as [Hin|_].
          -- apply list_elem_of_singleton in Hx. by subst x.
          -- by apply elem_of_nil in Hx.
        * apply elem_of_remove_dups, list_elem_of_omap in Ha as (y & Hy & Hya).
          cbn in Hya. by subst y. }
  rewrite Hperm, length_app, length_fmap.
  destruct (decide (None ∈ l)); cbn [length]; lia.
Qed.

Section Query3.
Context `{Runtime}.

(** X15. The [DISTINCT] of Query 3 changes nothing: the query prints the
    lines that the route [/api/stats] would list with a limit of 15. Their
    number is the smaller of 15 and the number of distinct mnemonics, which
    is the statistic [unique_mnemonics] plus one when some row has no
    mnemonic. *)
Theorem query3_lines (clk : Clock) (db : Database) (rows : list Row) :
  mdrm_data db = Some rows →
  mdrm_summary db = None →
  ∃ t u,
    create_summary_stats clk db = (Ok (), mkDb (Some rows) (Some t))
    ∧ query3 (mkDb (Some rows) (Some t)) = Some (top_mnemonics 15 rows)
    ∧ stat t "unique_mnemonics" = Some u
    ∧ length (top_mnemonics 15 rows)
      = Nat.min 15 (u + (if decide (None ∈ mnemonic <$> rows) then 1 else 0)).
Proof.
  intros Hdata Hnew.
  exists (summary_map clk rows), (Sql.count_distinct mnemonic (fun _ => Some true) rows).
  split; [by apply create_summary_stats_ok|]. split; [|split].
  - unfold query3, top_mnemonics. cbn [mdrm_data fmap option_fmap option_map].
    rewrite remove_dups_NoDup; [reflexivity|].
    apply (NoDup_fmap_1 fst). rewrite group_by_keys. apply NoDup_remove_dups.
  - apply (stat_summary_map clk rows "unique_mnemonics").
    apply list_elem_of_further, list_elem_of_here.
  - destruct (top_mnemonics_spec 15 rows) as (_ & _ & _ & _ & Hlen).
    rewrite Hlen by lia. rewrite remove_dups_option. unfold Sql.count_distinct.
    cbn [Sql.holds from_option]. rewrite filter_all, <- omap_fmap_id. reflexivity.
Qed.

End Query3.

Lemma query3_lines_witness :
  ∃ t u,
    create_summary_stats Demo.clock (mkDb (Some Demo.rows) None)
    = (Ok (), mkDb (Some Demo.rows) (Some t))
    ∧ @query3 DemoRuntime.runtime (mkDb (Some Demo.rows) (Some t))
      = Some (@top_mnemonics DemoRuntime.runtime 15 Demo.rows)
    ∧ stat t "unique_mnemonics" = Some u
    ∧ length (@top_mnemonics DemoRuntime.runtime 15 Demo.rows)
      = Nat.min 15 (u + (if decide (None ∈ mnemonic <$> Demo.rows) then 1 else 0)).
Proof.
  exact (@query3_lines DemoRuntime.runtime Demo.clock (mkDb (Some Demo.rows) None)
           Demo.rows eq_refl eq_refl).
Defined.

(** ** The statistics in the answer of [/api/stats] *)

Section Stats.
Context `{Runtime}.

(** X16. After a load, the answer of [get_stats] holds every row of the
    summary table under its name, with its text, beside the entry
    [top_mnemonics]: no statistic of the loader has that name, so none is
    hidden. *)
Theorem stats_report_summary (clk : Clock) (db : Database) (rows : list Row) :
  mdrm_data db = Some rows →
  mdrm_summary db = None →
  ∃ t body,
    create_summary_stats clk db = (Ok (), mkDb (Some rows) (Some t))
    ∧ get_stats (Some (mkDb (Some rows) (Some t)))
      = (Reply 200 body, Some (mkDb (Some rows) (Some t)))
    ∧ (∀ name s, t !! name = Some s → body !! name = Some (Text (statistic_value s)))
    ∧ (∀ name, is_Some (body !! name) ↔ name = "top_mnemonics" ∨ is_Some (t !! name)).
Proof.
  intros Hdata Hnew. exists (summary_map clk rows). eexists.
  split; [by apply create_summary_stats_ok|]. split; [reflexivity|]. split.
  - intros name s Hs.
    assert (Hname : name ≠ "top_mnemonics").
    { intros ->. assert (Hsome : is_Some (summary_map clk rows !! "top_mnemonics")) by eauto.
      apply summary_map_keys in Hsome as [Hfixed|(ty & r & Hk & _)].
      - revert Hfixed. apply (bool_decide_unpack _). vm_compute. exact I.
      - discriminate Hk. }
    rewrite lookup_insert_ne by (intros Heq; by apply Hname).
    rewrite lookup_fmap, Hs. reflexivity.
  - intros name. destruct (decide (name = "top_mnemonics")) as [->|Hname].
    + rewrite lookup_insert_eq. split; [by left | by eauto].
    + rewrite lookup_insert_ne by (intros Heq; by apply Hname).
      rewrite lookup_fmap, fmap_is_Some. split; [by right | by intros [?|?]].
Qed.

(** X17. The routes read: whatever they answer, a later connection finds
    the tables as they were. [get_stats] and [get_details] leave a
    database file behind even when there was none; [search] does so unless
    its limit is not a number, in which case it fails before it opens the
    file. *)
Theorem routes_keep_tables (args : gmap string string) (mdrm_id : string) (st : Store) :
  connect (search args st).2 = connect st
  ∧ connect (get_stats st).2 = connect st
  ∧ connect (get_details mdrm_id st).2 = connect st
  ∧ (get_stats st).2 = Some (connect st)
  ∧ (get_details mdrm_id st).2 = Some (connect st)
  ∧ (search args st).2
    = match from_option py_int (Some 50%Z) (args !! "limit") with
      | Some _ => Some (connect st)
      | None => st
      end
  ∧ (from_option py_int (Some 50%Z) (args !! "limit") = None → (search args st).1 = Failure).
Proof.
  assert (Hstats : (get_stats st).2 = Some (connect st)).
  { unfold get_stats. destruct (mdrm_summary _); [destruct (mdrm_data _)|]; reflexivity. }
  assert (Hdetails : (get_details mdrm_id st).2 = Some (connect st)).
  { unfold get_details. destruct (mdrm_data _); [destruct (List.find _ _)|]; reflexivity. }
  assert (Hsearch : (search args st).2
                    = match from_option py_int (Some 50%Z) (args !! "limit") with
                      | Some _ => Some (connect st)
                      | None => st
                      end).
  { unfold search. destruct (from_option py_int _ _) as [limit|]; [|reflexivity].
    cbn zeta.
    match goal with
    | |- snd (match ?results with Some _ => _ | None => _ end) = _ => destruct results
    end; reflexivity. }
  split; [|split; [|split; [|split; [|split; [|split]]]]].
  - rewrite Hsearch. by destruct (from_option py_int _ _).
  - by rewrite Hstats.
  - by rewrite Hdetails.
  - exact Hstats.
  - exact Hdetails.
  - exact Hsearch.
  - intros Hlimit. unfold search. by rewrite Hlimit.
Qed.

End Stats.

Lemma stats_report_summary_witness :
  ∃ t body,
    create_summary_stats Demo.clock (mkDb (Some Demo.rows) None)
    = (Ok (), mkDb (Some Demo.rows) (Some t))
    ∧ (@get_stats DemoRuntime.runtime (Some (mkDb (Some Demo.rows) (Some t)))).1
      = Reply 200 body
    ∧ body !! "total_records" = Some (Text "2").
Proof.
  destruct (@stats_report_summary DemoRuntime.runtime Demo.clock
              (mkDb (Some Demo.rows) None) Demo.rows eq_refl eq_refl)
    as (t & body & Hrun & Hstats & Hall & _).
  exists t, body. split; [exact Hrun|]. split; [by rewrite Hstats|].
  rewrite (create_summary_stats_ok Demo.clock (mkDb (Some Demo.rows) None) Demo.rows
             eq_refl eq_refl) in Hrun.
  apply (f_equal snd), (f_equal mdrm_summary) in Hrun. cbn [snd mdrm_summary] in Hrun.
  apply (inj Some) in Hrun. subst t.
  apply (Hall "total_records" (mkStat "2" "2026-11-04 09:30:00")).
  apply (summary_map_fixed Demo.clock Demo.rows "total_records" (fun rows => length rows)).
  apply list_elem_of_here.
Defined.

(** ** [LIKE] with a query between two [%] *)

Lemma matches_percent (p s : string) :
  Like.matches (String "%"%char p) s
  = Like.matches p s
    || match s with
       | EmptyString => false
       | String _ s' => Like.matches (String "%"%char p) s'
       end.
Proof. destruct s; reflexivity. Qed.

Lemma matches_any (s : string) : Like.matches "%" s = true.
Proof.
  induction s as [|c s IH]; [reflexivity|].
  rewrite matches_percent, IH. apply orb_true_r.
Qed.

Lemma matches_char (c : ascii) (p s : string) :
  Ascii.eqb c "%"%char = false →
  Ascii.eqb c "_"%char = false →
  Like.matches (String c p) s
  = match s with
    | EmptyString => false
    | String d s' => Ascii.eqb (Like.lower c) (Like.lower d) && Like.matches p s'
    end.
Proof.
  intros Hpercent Hone. cbn [Like.matches]. rewrite Hpercent.
  destruct s as [|d s']; [reflexivity|]. rewrite Hone. reflexivity.
Qed.

Lemma plain_cons (c : ascii) (q : string) :
  plain (String c q) = true →
  Ascii.eqb c "%"%char = false ∧ Ascii.eqb c "_"%char = false
  ∧ Ascii.eqb c Ascii.zero = false ∧ plain q = true.
Proof.
  cbn [plain]. rewrite !andb_true_iff, !negb_true_iff. tauto.
Qed.

Lemma matches_prefix (q s : string) :
  plain q = true →
  Like.matches (String.append q "%") s = PyStr.startswith (folded q) (folded s).
Proof.
  revert s. induction q as [|c q IH]; intros s Hq.
  - change (String.append "" "%") with "%". cbn [folded PyStr.startswith].
    apply matches_any.
  - apply plain_cons in Hq as (Hpercent & Hone & _ & Hq).
    change (String.append (String c q) "%") with (String c (String.append q "%")).
    cbn [folded]. rewrite (matches_char c _ s Hpercent Hone).
    destruct s as [|d s]; [reflexivity|]. cbn [folded PyStr.startswith].
    rewrite (IH s Hq). reflexivity.
Qed.

Lemma contains_unfold (needle s : string) :
  PyStr.contains needle s
  = PyStr.startswith needle s
    || match s with
       | EmptyString => false
       | String _ s' => PyStr.contains needle s'
       end.
Proof. destruct s; reflexivity. Qed.

Lemma matches_infix (q s : string) :
  plain q = true →
  Like.matches (String "%"%char (String.append q "%")) s
  = PyStr.contains (folded q) (folded s).
Proof.
  intros Hq. induction s as [|c s IH].
  - rewrite matches_percent, (matches_prefix q "" Hq). cbn [folded].
    rewrite contains_unfold. reflexivity.
  - rewrite matches_percent, (matches_prefix q _ Hq), IH. cbn [folded].
    rewrite (contains_unfold _ (String _ _)). reflexivity.
Qed.

Lemma c_string_plain (q : string) :
  plain q = true →
  Like.c_string (String "%"%char (String.append q "%")) = String "%"%char (String.append q "%").
Proof.
  intros Hq. cbn [Like.c_string]. change (Ascii.eqb "%"%char Ascii.zero) with false.
  cbn match. f_equal. induction q as [|c q IH]; [reflexivity|].
  apply plain_cons in Hq as (_ & _ & Hzero & Hq).
  change (String.append (String c q) "%") with (String c (String.append q "%")).
  cbn [Like.c_string]. rewrite Hzero, (IH Hq). reflexivity.
Qed.

(** X18. For a query without [%], [_] and NUL, the condition
    [col LIKE '%query%'] that [search] puts on a row holds exactly when the
    column is not NULL and the query occurs in its text, read up to its
    first NUL, the letters A to Z taken without their case. *)
Theorem like_is_containment (q : string) (x : option string) :
  plain q = true →
  Sql.holds (Like.like (String.append "%" (String.append q "%")) x)
  = match x with
    | Some s => PyStr.contains (folded q) (folded (Like.c_string s))
    | None => false
    end.
Proof.
  intros Hq. destruct x as [s|]; [|reflexivity].
  cbn [Like.like fmap option_fmap option_map Sql.holds from_option].
  change (String.append "%" (String.append q "%"))
    with (String "%"%char (String.append q "%")).
  rewrite (c_string_plain q Hq). apply matches_infix. exact Hq.
Qed.

Lemma like_is_containment_witness :
  Sql.holds (Like.like "%total as%" (Some "TOTAL ASSETS")) = true
  ∧ Sql.holds (Like.like "%Assets%" (Some "TOTAL LOANS")) = false.
Proof.
  split.
  - etrans; [exact (like_is_containment "total as" (Some "TOTAL ASSETS") eq_refl)|].
    reflexivity.
  - etrans; [exact (like_is_containment "Assets" (Some "TOTAL LOANS") eq_refl)|].
    reflexivity.
Defined.

(** ** The order of texts and of keys *)

Lemma string_compare_trans (a b c : string) :
  String.compare a b ≠ Gt → String.compare b c ≠ Gt → String.compare a c ≠ Gt.
Proof.
  revert b c. induction a as [|x a IH]; intros [|y b] [|z c]; cbn [String.compare];
    try congruence.
  unfold Ascii.compare.
  destruct (N.compare_spec (N_of_ascii x) (N_of_ascii y)) as [Hxy|Hxy|Hxy];
    destruct (N.compare_spec (N_of_ascii y) (N_of_ascii z)) as [Hyz|Hyz|Hyz];
    destruct (N.compare_spec (N_of_ascii x) (N_of_ascii z)) as [Hxz|Hxz|Hxz];
    try congruence; try lia.
  apply IH.
Qed.

Lemma string_leb_compare (a b : string) : String.leb a b = true ↔ String.compare a b ≠ Gt.
Proof. unfold String.leb. destruct (String.compare a b); split; congruence. Qed.

Lemma string_leb_trans (a b c : string) :
  String.leb a b = true → String.leb b c = true → String.leb a c = true.
Proof. rewrite !string_leb_compare. apply string_compare_trans. Qed.

Lemma le_null_total (x y : option string) :
  Select.le_null x y = true ∨ Select.le_null y x = true.
Proof.
  destruct x as [a|], y as [b|]; cbn; auto. apply String.leb_total.
Qed.

Lemma le_null_trans (x y z : option string) :
  Select.le_null x y = true → Select.le_null y z = true → Select.le_null x z = true.
Proof.
  destruct x as [a|], y as [b|], z as [c|]; cbn; try congruence. apply string_leb_trans.
Qed.

Lemma le_null_antisym (x y : option string) :
  Select.le_null x y = true → Select.le_null y x = true → x = y.
Proof.
  destruct x as [a|], y as [b|]; cbn; try congruence.
  intros Hab Hba. f_equal. by apply String.leb_antisym.
Qed.

Lemma le_keys_total (xs ys : list (option string)) :
  Select.le_keys xs ys = true ∨ Select.le_keys ys xs = true.
Proof.
  revert ys. induction xs as [|x xs IH]; intros [|y ys]; cbn [Select.le_keys]; auto.
  destruct (decide (x = y)) as [->|Hxy].
  - rewrite decide_True by reflexivity. apply IH.
  - rewrite decide_False by (intros Heq; by apply Hxy). apply le_null_total.
Qed.

Lemma le_keys_trans (xs ys zs : list (option string)) :
  length xs = length ys → length ys = length zs →
  Select.le_keys xs ys = true → Select.le_keys ys zs = true → Select.le_keys xs zs = true.
Proof.
  revert ys zs. induction xs as [|x xs IH]; intros [|y ys] [|z zs]; cbn [length];
    try discriminate; [reflexivity|].
  intros [= Hxy] [= Hyz]. cbn [Select.le_keys].
  destruct (decide (x = y)) as [->|Hne1]; destruct (decide (y = z)) as [->|Hne2].
  - by apply IH.
  - by intros _ Hle.
  - rewrite decide_False by exact Hne1. by intros Hle _.
  - intros Hle1 Hle2. destruct (decide (x = z)) as [->|Hne3].
    + exfalso. apply Hne1. by apply le_null_antisym.
    + by apply (le_null_trans x y z).
Qed.

Lemma sort_keys_length (ty : string) (a b : Row) :
  length (sort_keys ty a) = length (sort_keys ty b).
Proof. unfold sort_keys. by destruct (String.eqb ty "item_code"). Qed.

Lemma sort_keys_total (ty : string) :
  Total (fun a b : Row => Is_true (Select.le_keys (sort_keys ty a) (sort_keys ty b))).
Proof.
  intros a b. destruct (le_keys_total (sort_keys ty a) (sort_keys ty b)) as [Hle|Hle];
    [left | right]; by apply Is_true_true.
Qed.

Lemma sort_keys_trans (ty : string) :
  Transitive (fun a b : Row => Is_true (Select.le_keys (sort_keys ty a) (sort_keys ty b))).
Proof.
  intros a b c Hab Hbc. apply Is_true_true in Hab, Hbc. apply Is_true_true.
  apply (le_keys_trans _ (sort_keys ty b)); auto using sort_keys_length.
Qed.



(** ** The search *)

Section Search.
Context `{Runtime}.

(** The statement that a search of a known type runs. *)
Lemma search_known_type (args : gmap string string) (st : Store) (q ty : string)
    (col : Row → option string) (limit : Z) :
  PyStr.strip (default "" (args !! "q")) = q →
  q ≠ "" →
  default "item_name" (args !! "type") = ty →
  searched_column ty = Some col →
  from_option py_int (Some 50%Z) (args !! "limit") = Some limit →
  search args st
  = match execute (connect st) limit
            (like_items col (String.append "%" (String.append q "%")) (sort_keys ty) limit)
    with
    | Some rs => (Reply 200 (hit <$> rs), Some (connect st))
    | None => (Failure, Some (connect st))
    end.
Proof.
  intros Hq Hne Hty Hcol Hlimit. unfold search. rewrite Hlimit, Hq, Hty. cbn zeta.
  assert (Hblank : String.eqb q "" = false) by (by apply String.eqb_neq).
  rewrite Hblank. unfold searched_column in Hcol.
  destruct (String.eqb_spec ty "item_name") as [->|_].
  { injection Hcol as <-. reflexivity. }
  destruct (String.eqb_spec ty "mnemonic") as [->|_].
  { injection Hcol as <-. reflexivity. }
  destruct (String.eqb_spec ty "item_code") as [->|_]; [|discriminate Hcol].
  injection Hcol as <-. reflexivity.
Qed.

(** X19. A search of type [item_name], [mnemonic] or [item_code] for a
    query that is not blank answers with rows of the table whose searched
    column is [LIKE] the query between two [%]. The hits follow the order
    of the statement, and are its first rows: with the rows that the limit
    cuts they make up all the matching rows, every row that is cut comes
    after every hit, and rows are cut only when the number of hits is the
    limit. *)
Theorem search_hits (args : gmap string string) (db : Database) (rows : list Row)
    (q ty : string) (col : Row → option string) (limit : Z) :
  mdrm_data db = Some rows →
  PyStr.strip (default "" (args !! "q")) = q →
  q ≠ "" →
  Like.too_complex (String.append "%" (String.append q "%")) = false →
  default "item_name" (args !! "type") = ty →
  searched_column ty = Some col →
  from_option py_int (Some 50%Z) (args !! "limit") = Some limit →
  Select.int64 limit = true →
  ∃ found cut,
    search args (Some db) = (Reply 200 (hit <$> found), Some db)
    ∧ (found ++ cut)%list
      ≡ₚ List.filter
           (fun r => Sql.holds (Like.like (String.append "%" (String.append q "%")) (col r)))
           rows
    ∧ StronglySorted
        (fun a b => Is_true (Select.le_keys (sort_keys ty a) (sort_keys ty b))) found
    ∧ (∀ a b, a ∈ found → b ∈ cut →
         Is_true (Select.le_keys (sort_keys ty a) (sort_keys ty b)))
    ∧ (cut ≠ [] → (0 ≤ limit)%Z ∧ length found = Z.to_nat limit).
Proof.
  intros Hdata Hq Hne Hsimple Hty Hcol Hlimit Hint.
  rewrite (search_known_type args (Some db) q ty col limit Hq Hne Hty Hcol Hlimit).
  cbn [connect from_option]. unfold execute, like_items.
  rewrite Hdata, Hint, Hsimple. cbn [andb fmap option_fmap option_map].
  destruct (order_by_limit
              (fun a b => Select.le_keys (sort_keys ty a) (sort_keys ty b)) limit
              (List.filter
                 (fun r => Sql.holds
                             (Like.like (String.append "%" (String.append q "%")) (col r)))
                 rows)
              (sort_keys_total ty) (sort_keys_trans ty))
    as (cut & Hperm & Hsorted & Hcut & Hrest & _).
  eexists _, cut. split; [reflexivity|]. split; [exact Hperm|].
  split; [exact Hsorted|]. split; [exact Hcut | exact Hrest].
Qed.


(** X21. A search of another type for a query that is not blank answers
    with status 200 and an empty list without running a statement:
    whatever the store holds, even no table, and whatever the limit, as
    long as it is a number. *)
Theorem search_unknown_type (args : gmap string string) (st : Store) (limit : Z) :
  PyStr.strip (default "" (args !! "q")) ≠ "" →
  searched_column (default "item_name" (args !! "type")) = None →
  from_option py_int (Some 50%Z) (args !! "limit") = Some limit →
  search args st = (Reply 200 [], Some (connect st)).
Proof.
  intros Hq Hty Hlimit. unfold search. rewrite Hlimit. cbn zeta.
  apply String.eqb_neq in Hq. rewrite Hq. unfold searched_column in Hty.
  destruct (String.eqb _ "item_name"); [discriminate Hty|].
  destruct (String.eqb _ "mnemonic"); [discriminate Hty|].
  destruct (String.eqb _ "item_code"); [discriminate Hty|]. reflexivity.
Qed.

(** X22. A search that runs a statement, because its query is blank or
    its type is known, fails with status 500 when the table is missing
    or when the limit does not fit SQLite's integers; a file is left
    behind all the same. *)
Theorem search_failure (args : gmap string string) (st : Store) (limit : Z) :
  from_option py_int (Some 50%Z) (args !! "limit") = Some limit →
  PyStr.strip (default "" (args !! "q")) = ""
  ∨ is_Some (searched_column (default "item_name" (args !! "type"))) →
  mdrm_data (connect st) = None ∨ Select.int64 limit = false →
  search args st = (Failure, Some (connect st)).
Proof.
  intros Hlimit Hruns Hfails.
  assert (Hexecute : ∀ select, execute (connect st) limit select = None).
  { intros select. unfold execute. destruct Hfails as [Hnone|Hint].
    - by rewrite Hnone.
    - rewrite Hint. by destruct (mdrm_data _). }
  destruct (decide (PyStr.strip (default "" (args !! "q")) = "")) as [Hq|Hq].
  - unfold search. rewrite Hlimit, Hq. cbn zeta. cbn [String.eqb].
    rewrite Hexecute. reflexivity.
  - destruct Hruns as [Hblank|[col Hcol]]; [contradiction|].
    rewrite (search_known_type args st _ _ col limit eq_refl Hq eq_refl Hcol Hlimit).
    rewrite Hexecute. reflexivity.
Qed.

End Search.

Lemma search_hits_witness :
  ∃ found cut,
    @search DemoRuntime.runtime {[ "q" := " assets "; "limit" := "1" ]}
      (Some (mkDb (Some Demo.rows) None))
    = (Reply 200 (hit <$> found), Some (mkDb (Some Demo.rows) None))
    ∧ (found ++ cut)%list
      ≡ₚ List.filter (fun r => Sql.holds (Like.like "%assets%" (item_name r))) Demo.rows
    ∧ (cut ≠ [] → length found = 1).
Proof.
  destruct (@search_hits DemoRuntime.runtime {[ "q" := " assets "; "limit" := "1" ]}
              (mkDb (Some Demo.rows) None) Demo.rows "assets" "item_name" item_name 1%Z)
    as (found & cut & Hrun & Hperm & _ & _ & Hcut).
  - reflexivity.
  - vm_compute. reflexivity.
  - discriminate.
  - vm_compute. reflexivity.
  - vm_compute. reflexivity.
  - reflexivity.
  - vm_compute. reflexivity.
  - vm_compute. reflexivity.
  - exists found, cut. split; [exact Hrun|]. split; [exact Hperm|].
    intros Hne. by destruct (Hcut Hne).
Defined.


Lemma search_unknown_type_witness :
  @search DemoRuntime.runtime {[ "q" := "assets"; "type" := "form" ]} None
  = (Reply 200 [], Some empty_db).
Proof.
  apply (@search_unknown_type DemoRuntime.runtime {[ "q" := "assets"; "type" := "form" ]}
           None 50%Z).
  - vm_compute. discriminate.
  - vm_compute. reflexivity.
  - vm_compute. reflexivity.
Defined.

Lemma search_failure_witness :
  @search DemoRuntime.runtime {[ "q" := "assets" ]} None = (Failure, Some empty_db)
  ∧ @search DemoRuntime.runtime {[ "limit" := "9223372036854775808" ]}
      (Some (mkDb (Some Demo.rows) None))
    = (Failure, Some (mkDb (Some Demo.rows) None)).
Proof.
  split.
  - apply (@search_failure DemoRuntime.runtime {[ "q" := "assets" ]} None 50%Z).
    + vm_compute. reflexivity.
    + right. vm_compute. by eexists.
    + left. reflexivity.
  - apply (@search_failure DemoRuntime.runtime {[ "limit" := "9223372036854775808" ]}
             (Some (mkDb (Some Demo.rows) None)) 9223372036854775808%Z).
    + vm_compute. reflexivity.
    + left. vm_compute. reflexivity.
    + right. vm_compute. reflexivity.
Defined.

(** * A further property of the normaliser: the labels *)

Lemma lstrip_rstrip_other (p p' : ascii → bool) (s : string) :
  PyStr.lstrip_with p s = s →
  PyStr.lstrip_with p (PyStr.rstrip_with p' s) = PyStr.rstrip_with p' s.
Proof.
  destruct s as [|c s]; [reflexivity|]. rewrite rstrip_with_cons. cbn [PyStr.lstrip_with].
  destruct (p c) eqn:Hc.
  - intros Hs. exfalso.
    assert (Hlen : ∀ u, (String.length (PyStr.lstrip_with p u) ≤ String.length u)%nat).
    { induction u as [|a u IH]; [reflexivity|]. cbn [PyStr.lstrip_with].
      destruct (p a); cbn [String.length]; [lia | reflexivity]. }
    pose proof (Hlen s) as Hle. rewrite Hs in Hle. cbn [String.length] in Hle. lia.
  - intros _. destruct (PyStr.rstrip_with p' s); [destruct (p' c)|];
      cbn [PyStr.lstrip_with]; rewrite ?Hc; reflexivity.
Qed.

Lemma lstrip_with_length (p : ascii → bool) (s : string) :
  (String.length (PyStr.lstrip_with p s) ≤ String.length s)%nat.
Proof.
  induction s as [|a s IH]; [reflexivity|]. cbn [PyStr.lstrip_with].
  destruct (p a); cbn [String.length]; [lia | reflexivity].
Qed.

Lemma rstrip_space_comma (u : string) :
  PyStr.rstrip_with PyStr.is_space (String.append u " ,") = String.append u " ,".
Proof.
  induction u as [|c u IH]; [reflexivity|].
  change (String.append (String c u) " ,") with (String c (String.append u " ,")).
  rewrite rstrip_with_cons, IH. destruct u; reflexivity.
Qed.

Lemma rstrip_comma_space (u : string) :
  PyStr.rstrip_with (fun c => Ascii.eqb c ",") (String.append u " ,") = String.append u " ".
Proof.
  induction u as [|c u IH]; [reflexivity|].
  change (String.append (String c u) " ,") with (String c (String.append u " ,")).
  change (String.append (String c u) " ") with (String c (String.append u " ")).
  rewrite rstrip_with_cons, IH. destruct u; reflexivity.
Qed.

(** X23. A column label that [clean_csv_data] has cleaned has no white
    space at its start and no comma at its end. It can still end in white
    space, since the commas are removed after the white space: a label
    with a space before its last comma keeps the space. *)
Theorem clean_label_ends :
  (∀ l, PyStr.lstrip_with PyStr.is_space (clean_label l) = clean_label l
        ∧ PyStr.rstrip_with (fun c => Ascii.eqb c ",") (clean_label l) = clean_label l)
  ∧ (∀ l, l ≠ "" → PyStr.strip l = l →
          clean_label (String.append l " ,") = String.append l " ")
  ∧ ∃ l, PyStr.strip (clean_label l) ≠ clean_label l.
Proof.
  split; [|split].
  - intros l. unfold clean_label. split; [|apply rstrip_with_fixed].
    apply lstrip_rstrip_other. unfold PyStr.strip.
    apply lstrip_rstrip, lstrip_with_fixed.
  - intros l Hne Hl. unfold clean_label.
    assert (Hleft : PyStr.lstrip_with PyStr.is_space l = l).
    { rewrite <- Hl at 1. unfold PyStr.strip.
      rewrite (lstrip_rstrip PyStr.is_space) by apply lstrip_with_fixed. exact Hl. }
    destruct l as [|c l]; [contradiction|].
    assert (Hc : PyStr.is_space c = false).
    { cbn [PyStr.lstrip_with] in Hleft. destruct (PyStr.is_space c); [|reflexivity].
      exfalso. pose proof (lstrip_with_length PyStr.is_space l) as Hle.
      rewrite Hleft in Hle. cbn [String.length] in Hle. lia. }
    assert (Hstrip : PyStr.strip (String.append (String c l) " ,")
                     = String.append (String c l) " ,").
    { unfold PyStr.strip.
      change (String.append (String c l) " ,") with (String c (String.append l " ,")).
      cbn [PyStr.lstrip_with]. rewrite Hc. apply (rstrip_space_comma (String c l)). }
    rewrite Hstrip. apply rstrip_comma_space.
  - exists "End Date ,". vm_compute. discriminate.
Qed.

